(** * Bracken-IP-Cam: HTTP camera server of the XIAO ESP32-S3 firmware

    Shallow embedding of the HTTP handlers of
    [Software/CameraWebServerV1.1/app_httpd.cpp] and of
    [Software/CameraWebServerV1.2/CameraWebServerV1.2.ino] (the sketch and its
    [app_httpd.cpp]), and the properties of the streaming media server
    proved about them.

    The handlers are sequential C code that talks to the camera driver,
    the JPEG encoder, the HTTP server and FreeRTOS.  Each handler becomes a
    computation in a small monad [M] that
    - threads the firmware's globals (file-scope and function-[static]
      variables), a record per firmware version;
    - threads the state of the outside world ([io]): how many answers of
      each external call were consumed, and the sensor handle;
    - logs every external call it makes as an [event].
    What the outside world answers is read from an [env] of answer
    streams, over which every theorem quantifies.  The target is the 32-bit
    ESP32-S3: [size_t], [int], [uint32_t] are 32 bits wide. *)

From Stdlib Require Import ZArith List String Ascii Bool Lia.
Import ListNotations.
Local Open Scope string_scope.
Local Open Scope list_scope.
Local Open Scope Z_scope.

(** ** Values of the ESP-IDF and esp32-camera headers *)

Definition esp_err_t := Z.
Definition ESP_OK : esp_err_t := 0.
Definition ESP_FAIL : esp_err_t := -1.

(** [res == ESP_OK] *)
Definition is_ok (r : esp_err_t) : bool := r =? ESP_OK.

Inductive pixformat_t :=
| PIXFORMAT_RGB565 | PIXFORMAT_YUV422 | PIXFORMAT_YUV420 | PIXFORMAT_GRAYSCALE
| PIXFORMAT_JPEG | PIXFORMAT_RGB888 | PIXFORMAT_RAW | PIXFORMAT_RGB444
| PIXFORMAT_RGB555.

Definition is_jpeg (f : pixformat_t) : bool :=
  match f with PIXFORMAT_JPEG => true | _ => false end.

Record timeval := { tv_sec : Z; tv_usec : Z }.

(** A frame buffer handed out by the driver.  [fb_id] is the serial number
    of the [esp_camera_fb_get] call that handed it out: it tells the
    hand-outs apart, also when the driver recycles the memory. *)
Record camera_fb_t := {
  fb_id : nat;
  fb_len : Z;
  fb_format : pixformat_t;
  fb_timestamp : timeval
}.

(** What a byte pointer of the handlers can point to: the payload of a
    frame of the pool ([fb->buf]), a heap block that [frame2jpg] allocated,
    or a block from [malloc]. *)
Inductive buf_ptr :=
| FbBuf (id : nat)
| HeapBuf (id : nat)
| QueryBuf (id : nat).      (* the query copy of [cmd_handler] *)

(** Constants of headers that are not part of the repository. *)
Class platform := {
  portTICK_PERIOD_MS : Z;
  FRAMESIZE_SVGA : Z;
  FRAMESIZE_FHD : Z;
  FRAMESIZE_INVALID : Z
}.

(** The enumeration [framesize_t] lists SVGA before FHD and ends with
    [FRAMESIZE_INVALID]. *)
Definition platform_ok (P : platform) : Prop :=
  0 <= FRAMESIZE_SVGA /\ FRAMESIZE_SVGA < FRAMESIZE_FHD /\
  FRAMESIZE_FHD < FRAMESIZE_INVALID.

(** ** The sensor handle *)

Record camera_status_t := {
  framesize : Z;
  quality : Z;
  vflip : Z;
  hmirror : Z
}.

(** [sensor_t]: the status block and the driver's setters, which the C
    struct holds as function pointers.  A setter gets the status and the
    value and answers its return code and the status it leaves. *)
Record sensor_t := {
  status : camera_status_t;
  set_framesize : camera_status_t -> Z -> Z * camera_status_t;
  set_quality : camera_status_t -> Z -> Z * camera_status_t;
  set_vflip : camera_status_t -> Z -> Z * camera_status_t;
  set_hmirror : camera_status_t -> Z -> Z * camera_status_t
}.

Definition with_status (s : sensor_t) (st : camera_status_t) : sensor_t :=
  {| status := st; set_framesize := set_framesize s;
     set_quality := set_quality s; set_vflip := set_vflip s;
     set_hmirror := set_hmirror s |}.

(** A status block with one field replaced. *)
Definition store_framesize (st : camera_status_t) (v : Z) : camera_status_t :=
  {| framesize := v; quality := quality st; vflip := vflip st;
     hmirror := hmirror st |}.
Definition store_quality (st : camera_status_t) (v : Z) : camera_status_t :=
  {| framesize := framesize st; quality := v; vflip := vflip st;
     hmirror := hmirror st |}.
Definition store_vflip (st : camera_status_t) (v : Z) : camera_status_t :=
  {| framesize := framesize st; quality := quality st; vflip := v;
     hmirror := hmirror st |}.
Definition store_hmirror (st : camera_status_t) (v : Z) : camera_status_t :=
  {| framesize := framesize st; quality := quality st; vflip := vflip st;
     hmirror := v |}.

(** ** Requests, chunks and events *)

(** What the ESP-IDF query functions answer for one request:
    [httpd_req_get_url_query_len], [httpd_req_get_url_query_str], and
    [httpd_query_key_value] for the keys [var] and [val] (return code and
    the text copied out). *)
Record httpd_req_t := {
  url_query_len : Z;
  url_query_str : esp_err_t;
  query_var : esp_err_t * string;
  query_val : esp_err_t * string
}.

Inductive chunk :=
| ChunkText (s : string)              (* boundary or part header *)
| ChunkData (p : option buf_ptr) (len : Z)   (* JPEG bytes *)
| ChunkEncoded (len : Z)              (* bytes pushed by the encoder *)
| ChunkEnd.                           (* NULL, 0: end of chunked reply *)

Inductive handler_t :=
| index_handler | status_handler | cmd_handler_ | capture_handler_
| stream_handler_ | health_handler.

Inductive event :=
| EvFbGet (fb : option camera_fb_t)
| EvFbReturn (fb : camera_fb_t)
| EvFrame2Jpg (fb : camera_fb_t) (q : Z) (ok : bool) (out : option (buf_ptr * Z))
| EvFrame2JpgCb (fb : camera_fb_t) (q : Z)
| EvFree (p : buf_ptr)
| EvSetType (ty : string) (r : esp_err_t)
| EvSetHdr (field value : string)
| EvSendChunk (c : chunk) (r : esp_err_t)
| EvSend (body : option (buf_ptr * Z)) (r : esp_err_t)
| EvSend404
| EvSend500
| EvDelay (ticks : Z)
| EvLog (msg : string)
| EvHttpdStart (port : Z) (max_uri_handlers : Z) (r : esp_err_t)
| EvRegister (server : option nat) (uri : string) (h : handler_t).

(** ** The outside world *)

Record raw_frame := {
  raw_len : Z;
  raw_format : pixformat_t;
  raw_timestamp : timeval
}.

(** Outcome of one [frame2jpg] call: the return value, and the length of
    the block it allocated and stored in [*out] ([None]: [*out] and
    [*out_len] were left alone). *)
Record jpg_result := {
  jpg_converted : bool;
  jpg_out : option Z
}.

(** Outcome of one [frame2jpg_cb] call: the sizes of the chunks that the
    encoder has for the callback, its verdict on the frame, and whether
    it gives up at the first chunk that the callback does not accept. *)
Record cb_result := {
  cb_chunks : list Z;
  cb_verdict : bool;
  cb_gives_up : bool
}.

(** The answers of the outside world, one stream per external call; the
    n-th call of a kind gets the n-th answer. *)
Class env := {
  psramFound : bool;
  cam_feed : nat -> option raw_frame;     (* esp_camera_fb_get *)
  enc_feed : nat -> jpg_result;           (* frame2jpg *)
  enc_cb_feed : nat -> cb_result;         (* frame2jpg_cb *)
  net_feed : nat -> esp_err_t;            (* httpd_resp_send, httpd_resp_send_chunk *)
  type_feed : nat -> esp_err_t;           (* httpd_resp_set_type *)
  start_feed : nat -> esp_err_t;          (* httpd_start *)
  malloc_feed : nat -> bool;              (* malloc *)
  timer_feed : nat -> Z                   (* esp_timer_get_time *)
}.

(** How far each answer stream was consumed, and the driver's sensor
    handle ([None]: [esp_camera_sensor_get] returns a null pointer). *)
Record io := {
  gets : nat;
  encs : nat;
  cbs : nat;
  sends : nat;
  types : nat;
  starts : nat;
  mallocs : nat;
  timers : nat;
  sensor : option sensor_t
}.

Definition io0 (s : option sensor_t) : io :=
  {| gets := 0; encs := 0; cbs := 0; sends := 0; types := 0; starts := 0;
     mallocs := 0; timers := 0; sensor := s |}.

Definition next_get (w : io) : io :=
  {| gets := S (gets w); encs := encs w; cbs := cbs w; sends := sends w;
     types := types w; starts := starts w; mallocs := mallocs w;
     timers := timers w; sensor := sensor w |}.
Definition next_enc (w : io) : io :=
  {| gets := gets w; encs := S (encs w); cbs := cbs w; sends := sends w;
     types := types w; starts := starts w; mallocs := mallocs w;
     timers := timers w; sensor := sensor w |}.
Definition next_cb (w : io) : io :=
  {| gets := gets w; encs := encs w; cbs := S (cbs w); sends := sends w;
     types := types w; starts := starts w; mallocs := mallocs w;
     timers := timers w; sensor := sensor w |}.
Definition next_send (w : io) : io :=
  {| gets := gets w; encs := encs w; cbs := cbs w; sends := S (sends w);
     types := types w; starts := starts w; mallocs := mallocs w;
     timers := timers w; sensor := sensor w |}.
Definition next_type (w : io) : io :=
  {| gets := gets w; encs := encs w; cbs := cbs w; sends := sends w;
     types := S (types w); starts := starts w; mallocs := mallocs w;
     timers := timers w; sensor := sensor w |}.
Definition next_start (w : io) : io :=
  {| gets := gets w; encs := encs w; cbs := cbs w; sends := sends w;
     types := types w; starts := S (starts w); mallocs := mallocs w;
     timers := timers w; sensor := sensor w |}.
Definition next_malloc (w : io) : io :=
  {| gets := gets w; encs := encs w; cbs := cbs w; sends := sends w;
     types := types w; starts := starts w; mallocs := S (mallocs w);
     timers := timers w; sensor := sensor w |}.
Definition next_timer (w : io) : io :=
  {| gets := gets w; encs := encs w; cbs := cbs w; sends := sends w;
     types := types w; starts := starts w; mallocs := mallocs w;
     timers := S (timers w); sensor := sensor w |}.
Definition with_sensor (w : io) (s : option sensor_t) : io :=
  {| gets := gets w; encs := encs w; cbs := cbs w; sends := sends w;
     types := types w; starts := starts w; mallocs := mallocs w;
     timers := timers w; sensor := s |}.

(** ** The handler monad *)

(** A computation over the globals [G]: from the globals and the world to
    a result, the new globals, the new world and the events logged. *)
Definition M (G A : Type) : Type := G -> io -> A * G * io * list event.

Definition ret {G A} (a : A) : M G A := fun g w => (a, g, w, []).

Definition bind {G A B} (m : M G A) (k : A -> M G B) : M G B :=
  fun g w =>
    let '(a, g1, w1, t1) := m g w in
    let '(b, g2, w2, t2) := k a g1 w1 in
    (b, g2, w2, t1 ++ t2).

Declare Scope cam_scope.
Delimit Scope cam_scope with cam.
Notation "x <- m ;; k" := (bind m (fun x => k))
  (at level 100, m at next level, right associativity) : cam_scope.
Notation "' pat <- m ;; k" := (bind m (fun x => let pat := x in k))
  (at level 100, pat pattern, m at next level, right associativity) : cam_scope.
Notation "m ;; k" := (bind m (fun _ => k))
  (at level 100, right associativity) : cam_scope.
Local Open Scope cam_scope.

Definition result {A G} (r : A * G * io * list event) : A := fst (fst (fst r)).
Definition globals_of {A G} (r : A * G * io * list event) : G := snd (fst (fst r)).
Definition world_of {A G} (r : A * G * io * list event) : io := snd (fst r).
Definition trace_of {A G} (r : A * G * io * list event) : list event := snd r.

Definition get_globals {G} : M G G := fun g w => (g, g, w, []).
Definition put_globals {G} (g' : G) : M G unit := fun _ w => (tt, g', w, []).
Definition emit {G} (e : event) : M G unit := fun g w => (tt, g, w, [e]).

(** ** printf conversions used by the part header *)

Definition two32 : Z := 4294967296.
Definition to_uint32 (n : Z) : Z := n mod two32.
Definition to_int32 (n : Z) : Z :=
  let m := n mod two32 in if m <? 2147483648 then m else m - two32.

Definition digit (d : Z) : ascii := ascii_of_nat (48 + Z.to_nat d).

(** Decimal digits of [n >= 0], most significant first; [fuel + 1] digits at
    most, which is all of them for a 32-bit value when [fuel] is 9. *)
Fixpoint udec (fuel : nat) (n : Z) : string :=
  match fuel with
  | O => String (digit (n mod 10)) EmptyString
  | S k =>
      if n <? 10 then String (digit n) EmptyString
      else (udec k (n / 10) ++ String (digit (n mod 10)) EmptyString)%string
  end.

Fixpoint zeros (n : nat) : string :=
  match n with O => EmptyString | S k => String "0"%char (zeros k) end.

(** [%u] of a [size_t] *)
Definition fmt_u (n : Z) : string := udec 9 (to_uint32 n).

(** [%d] and [%06d] of an [int]: sign, zero padding up to [width], digits *)
Definition fmt_d_width (width : nat) (n : Z) : string :=
  let v := to_int32 n in
  let digits := udec 9 (Z.abs v) in
  let sign := if v <? 0 then "-" else EmptyString in
  let pad := (width - (String.length sign + String.length digits))%nat in
  (sign ++ zeros pad ++ digits)%string.

Definition fmt_d (n : Z) : string := fmt_d_width 0 n.
Definition fmt_06d (n : Z) : string := fmt_d_width 6 n.

Definition CRLF : string := String "013"%char (String "010"%char EmptyString).

(** ** libc: [atoi], [strcmp], [strcasecmp] *)

Definition isspace (c : ascii) : bool :=
  let n := nat_of_ascii c in
  (Nat.eqb n 32 || (Nat.leb 9 n && Nat.leb n 13))%bool.

Definition isdigit (c : ascii) : bool :=
  let n := nat_of_ascii c in (Nat.leb 48 n && Nat.leb n 57)%bool.

Fixpoint skip_spaces (s : string) : string :=
  match s with
  | String c rest => if isspace c then skip_spaces rest else s
  | EmptyString => s
  end.

Fixpoint digits_value (s : string) (acc : Z) : Z :=
  match s with
  | String c rest =>
      if isdigit c
      then digits_value rest (acc * 10 + (Z.of_nat (nat_of_ascii c) - 48))
      else acc
  | EmptyString => acc
  end.

Definition INT_MAX : Z := 2147483647.
Definition INT_MIN : Z := -2147483648.

(** [atoi]: blanks, an optional sign, then digits up to the first other
    character; as [strtol] does, a value out of range becomes the nearest
    bound. *)
Definition atoi (s : string) : Z :=
  let s := skip_spaces s in
  let '(neg, s) :=
    match s with
    | String "-"%char rest => (true, rest)
    | String "+"%char rest => (false, rest)
    | _ => (false, s)
    end in
  let v := digits_value s 0 in
  let v := if neg then - v else v in
  Z.max INT_MIN (Z.min INT_MAX v).

Definition tolower (c : ascii) : ascii :=
  let n := nat_of_ascii c in
  if (Nat.leb 65 n && Nat.leb n 90)%bool then ascii_of_nat (n + 32) else c.

Fixpoint string_map (f : ascii -> ascii) (s : string) : string :=
  match s with
  | String c rest => String (f c) (string_map f rest)
  | EmptyString => EmptyString
  end.

(** [strcmp(a, b) == 0] *)
Definition streq (a b : string) : bool := String.eqb a b.

(** [strcasecmp(a, b) == 0] *)
Definition strcaseeq (a b : string) : bool :=
  String.eqb (string_map tolower a) (string_map tolower b).

(** ** External calls *)

Section Externals.
Context {E : env} {G : Type}.

Definition mk_fb (id : nat) (r : raw_frame) : camera_fb_t :=
  {| fb_id := id; fb_len := to_uint32 (raw_len r);
     fb_format := raw_format r; fb_timestamp := raw_timestamp r |}.

Definition esp_camera_fb_get : M G (option camera_fb_t) :=
  fun g w =>
    let fb := option_map (mk_fb (gets w)) (cam_feed (gets w)) in
    (fb, g, next_get w, [EvFbGet fb]).

Definition esp_camera_fb_return (fb : camera_fb_t) : M G unit :=
  emit (EvFbReturn fb).

Definition free (p : buf_ptr) : M G unit := emit (EvFree p).

(** [frame2jpg(fb, quality, &out, &out_len)]: the return value and the
    contents of [out] and [out_len] after the call. *)
Definition frame2jpg (fb : camera_fb_t) (q : Z)
    (out : option buf_ptr) (out_len : Z) : M G (bool * option buf_ptr * Z) :=
  fun g w =>
    let r := enc_feed (encs w) in
    let alloc :=
      option_map (fun len => (HeapBuf (encs w), to_uint32 len)) (jpg_out r) in
    let '(out', out_len') :=
      match alloc with
      | Some (p, len) => (Some p, len)
      | None => (out, out_len)
      end in
    ((jpg_converted r, out', out_len'), g, next_enc w,
     [EvFrame2Jpg fb q (jpg_converted r) alloc]).

(** The encoder of [frame2jpg_cb] pushing its output through the
    callback [cb]: one call per chunk, with the running offset, which
    advances by what the callback accepted.  An encoder that gives up
    stops at the first chunk that the callback does not accept (it
    returns 0).  [j_len] is the [len] field of the callback's argument. *)
Fixpoint push_chunks (cb : Z -> Z -> Z -> M G (Z * Z)) (gives_up : bool)
    (chunks : list Z) (j_len index : Z) : M G bool :=
  match chunks with
  | [] => ret true
  | len :: rest =>
      '(n, j_len') <- cb j_len index len ;;
      if (n =? 0) && gives_up then ret false
      else push_chunks cb gives_up rest j_len' (index + n)
  end.

(** [frame2jpg_cb(fb, quality, cb, &jchunk)] *)
Definition frame2jpg_cb (fb : camera_fb_t) (q : Z)
    (cb : Z -> Z -> Z -> M G (Z * Z)) (j_len : Z) : M G bool :=
  fun g w =>
    let r := enc_cb_feed (cbs w) in
    (emit (EvFrame2JpgCb fb q) ;;
     pushed <- push_chunks cb (cb_gives_up r) (map to_uint32 (cb_chunks r))
                 j_len 0 ;;
     ret (pushed && cb_verdict r)) g (next_cb w).

Definition httpd_resp_set_type (ty : string) : M G esp_err_t :=
  fun g w =>
    let r := type_feed (types w) in (r, g, next_type w, [EvSetType ty r]).

Definition httpd_resp_set_hdr (field value : string) : M G unit :=
  emit (EvSetHdr field value).

Definition httpd_resp_send_chunk (c : chunk) : M G esp_err_t :=
  fun g w =>
    let r := net_feed (sends w) in (r, g, next_send w, [EvSendChunk c r]).

Definition httpd_resp_send (body : option (buf_ptr * Z)) : M G esp_err_t :=
  fun g w =>
    let r := net_feed (sends w) in (r, g, next_send w, [EvSend body r]).

Definition httpd_resp_send_404 : M G unit := emit EvSend404.
Definition httpd_resp_send_500 : M G unit := emit EvSend500.

Definition vTaskDelay (ticks : Z) : M G unit := emit (EvDelay ticks).

Definition log (msg : string) : M G unit := emit (EvLog msg).

Definition malloc : M G (option buf_ptr) :=
  fun g w =>
    ((if malloc_feed (mallocs w) then Some (QueryBuf (mallocs w)) else None),
     g, next_malloc w, []).

Definition esp_timer_get_time : M G Z :=
  fun g w => (timer_feed (timers w), g, next_timer w, []).

Definition esp_camera_sensor_get : M G (option sensor_t) :=
  fun g w => (sensor w, g, w, []).

(** [s->set_x(s, v)]: runs the setter on the status of the handle and
    stores the status it leaves. *)
Definition sensor_set
    (setter : sensor_t -> camera_status_t -> Z -> Z * camera_status_t)
    (s : sensor_t) (v : Z) : M G esp_err_t :=
  fun g w =>
    let '(r, st) := setter s (status s) v in
    (r, g, with_sensor w (Some (with_status s st)), []).

(** [httpd_start(&handle, &config)]: the return code and the handle
    variable after the call, which is written on success only. *)
Definition httpd_start (handle : option nat) (port max_uri_handlers : Z)
    : M G (esp_err_t * option nat) :=
  fun g w =>
    let r := start_feed (starts w) in
    ((r, if is_ok r then Some (starts w) else handle), g, next_start w,
     [EvHttpdStart port max_uri_handlers r]).

Definition httpd_register_uri_handler (server : option nat) (uri : string)
    (h : handler_t) : M G unit :=
  emit (EvRegister server uri h).

(** [if (p) free(p)] and the like: run [m] on a non-null pointer. *)
Definition when_some {A} (o : option A) (m : A -> M G unit) : M G unit :=
  match o with Some a => m a | None => ret tt end.

End Externals.

Definition is_some {A} (o : option A) : bool :=
  match o with Some _ => true | None => false end.

(** ** Firmware V1.2: [CameraWebServerV1.2.ino] *)

Module V12.

(** The file-scope variables of the sketch and of its [app_httpd.cpp], and
    [error_count], the function-[static] of [stream_handler]. *)
Record globals := {
  server_started : bool;
  camera_httpd : option nat;
  snapshot_httpd : option nat;
  stream_delay_ms : Z;
  error_count : Z
}.

(** The initializers of these variables: the state after boot. *)
Definition boot : globals :=
  {| server_started := false; camera_httpd := None; snapshot_httpd := None;
     stream_delay_ms := 33; error_count := 0 |}.

Definition set_server_started (b : bool) (g : globals) : globals :=
  {| server_started := b; camera_httpd := camera_httpd g;
     snapshot_httpd := snapshot_httpd g; stream_delay_ms := stream_delay_ms g;
     error_count := error_count g |}.
Definition set_camera_httpd (h : option nat) (g : globals) : globals :=
  {| server_started := server_started g; camera_httpd := h;
     snapshot_httpd := snapshot_httpd g; stream_delay_ms := stream_delay_ms g;
     error_count := error_count g |}.
Definition set_snapshot_httpd (h : option nat) (g : globals) : globals :=
  {| server_started := server_started g; camera_httpd := camera_httpd g;
     snapshot_httpd := h; stream_delay_ms := stream_delay_ms g;
     error_count := error_count g |}.
Definition set_stream_delay_ms (d : Z) (g : globals) : globals :=
  {| server_started := server_started g; camera_httpd := camera_httpd g;
     snapshot_httpd := snapshot_httpd g; stream_delay_ms := d;
     error_count := error_count g |}.
Definition set_error_count (n : Z) (g : globals) : globals :=
  {| server_started := server_started g; camera_httpd := camera_httpd g;
     snapshot_httpd := snapshot_httpd g; stream_delay_ms := stream_delay_ms g;
     error_count := n |}.

Definition modify (f : globals -> globals) : M globals unit :=
  fun g w => (tt, f g, w, []).

Definition PART_BOUNDARY : string := "frame".
Definition _STREAM_CONTENT_TYPE : string :=
  ("multipart/x-mixed-replace; boundary=" ++ PART_BOUNDARY)%string.
Definition _STREAM_BOUNDARY : string :=
  (CRLF ++ "--" ++ PART_BOUNDARY ++ CRLF)%string.

(** [snprintf(part_buf, sizeof(part_buf), _STREAM_PART, len, sec, usec)]:
    the text the format produces. *)
Definition _STREAM_PART (len sec usec : Z) : string :=
  ("Content-Type: image/jpeg" ++ CRLF ++
   "Content-Length: " ++ fmt_u len ++ CRLF ++
   "X-Timestamp: " ++ fmt_d sec ++ "." ++ fmt_06d usec ++ CRLF ++ CRLF)%string.

Definition sizeof_part_buf : Z := 128.

Section Handlers.
Context {P : platform} {E : env}.

(** [jpg_encode_stream]: the chunk callback handed to [frame2jpg_cb].
    [j_len] is [j->len]; the result is the return value and [j->len]. *)
Definition jpg_encode_stream (j_len index len : Z) : M globals (Z * Z) :=
  let j_len := if index =? 0 then 0 else j_len in
  r <- httpd_resp_send_chunk (ChunkEncoded len) ;;
  if negb (is_ok r) then ret (0, j_len)
  else ret (len, to_uint32 (j_len + len)).

Definition MAX_RETRIES : Z := 3.
Definition RETRY_DELAY_MS : Z := 50.

(** The retry loop of [capture_handler]:
    [for (retry = ...; retry < MAX_RETRIES; retry++)].  [fuel] bounds the
    iterations that are left; [MAX_RETRIES] of them are enough. *)
Fixpoint retry_loop (fuel : nat) (retry : Z) : M globals (option camera_fb_t) :=
  match fuel with
  | O => ret None
  | S fuel' =>
      if retry <? MAX_RETRIES then
        fb <- esp_camera_fb_get ;;
        match fb with
        | Some f => ret (Some f)
        | None =>
            (if retry <? MAX_RETRIES - 1
             then vTaskDelay (Z.quot RETRY_DELAY_MS portTICK_PERIOD_MS)
             else ret tt) ;;
            retry_loop fuel' (retry + 1)
        end
      else ret None
  end.

Definition capture_handler : M globals esp_err_t :=
  fb <- retry_loop (Z.to_nat MAX_RETRIES) 0 ;;
  match fb with
  | None => httpd_resp_send_500 ;; ret ESP_FAIL
  | Some fb =>
      httpd_resp_set_type "image/jpeg" ;;
      httpd_resp_set_hdr "Content-Disposition" "inline; filename=capture.jpg" ;;
      httpd_resp_set_hdr "Access-Control-Allow-Origin" "*" ;;
      httpd_resp_set_hdr "Cache-Control"
        "no-store, no-cache, must-revalidate, max-age=0" ;;
      httpd_resp_set_hdr "Pragma" "no-cache" ;;
      httpd_resp_set_hdr "Expires" "0" ;;
      res <- (if is_jpeg (fb_format fb)
              then httpd_resp_send (Some (FbBuf (fb_id fb), fb_len fb))
              else
                ok <- frame2jpg_cb fb 80 jpg_encode_stream 0 ;;
                httpd_resp_send_chunk ChunkEnd ;;
                ret (if ok then ESP_OK else ESP_FAIL)) ;;
      esp_camera_fb_return fb ;;
      ret res
  end.

(** The locals of [stream_handler] that live across the loop. *)
Record locals := {
  fb : option camera_fb_t;
  _timestamp : timeval;
  res : esp_err_t;
  _jpg_buf_len : Z;
  _jpg_buf : option buf_ptr
}.

Inductive ctrl :=
| Continue (l : locals)      (* next iteration *)
| Break (l : locals).        (* leave the loop *)

(** From "Send boundary" to the end of the loop body. *)
Definition send_part (l : locals) : M globals ctrl :=
  res1 <- (if is_ok (res l)
           then httpd_resp_send_chunk (ChunkText _STREAM_BOUNDARY)
           else ret (res l)) ;;
  res2 <- (if is_ok res1 then
             let part_buf :=
               _STREAM_PART (_jpg_buf_len l) (tv_sec (_timestamp l))
                            (tv_usec (_timestamp l)) in
             let hlen := Z.of_nat (String.length part_buf) in
             if hlen <? sizeof_part_buf
             then httpd_resp_send_chunk (ChunkText part_buf)
             else ret ESP_FAIL
           else ret res1) ;;
  res3 <- (match _jpg_buf l with
           | Some p =>
               if is_ok res2 && negb (_jpg_buf_len l =? 0)
               then httpd_resp_send_chunk (ChunkData (Some p) (_jpg_buf_len l))
               else ret res2
           | None => ret res2
           end) ;;
  l' <- (match fb l with
         | Some f =>
             esp_camera_fb_return f ;;
             ret {| fb := None; _timestamp := _timestamp l; res := res3;
                    _jpg_buf_len := _jpg_buf_len l; _jpg_buf := None |}
         | None =>
             match _jpg_buf l with
             | Some p =>
                 free p ;;
                 ret {| fb := None; _timestamp := _timestamp l; res := res3;
                        _jpg_buf_len := _jpg_buf_len l; _jpg_buf := None |}
             | None =>
                 ret {| fb := None; _timestamp := _timestamp l; res := res3;
                        _jpg_buf_len := _jpg_buf_len l; _jpg_buf := None |}
             end
         end) ;;
  if negb (is_ok (res l')) then ret (Break l')
  else
    g <- get_globals ;;
    vTaskDelay (Z.quot (stream_delay_ms g) portTICK_PERIOD_MS) ;;
    ret (Continue l').

(** One pass through the body of [while (true)]. *)
Definition stream_iteration (l : locals) : M globals ctrl :=
  got <- esp_camera_fb_get ;;
  match got with
  | None =>
      modify (fun g => set_error_count (to_uint32 (error_count g + 1)) g) ;;
      g <- get_globals ;;
      if 10 <? error_count g then
        ret (Break {| fb := None; _timestamp := _timestamp l; res := ESP_FAIL;
                      _jpg_buf_len := _jpg_buf_len l; _jpg_buf := _jpg_buf l |})
      else
        vTaskDelay (Z.quot 50 portTICK_PERIOD_MS) ;;
        ret (Continue {| fb := None; _timestamp := _timestamp l; res := res l;
                         _jpg_buf_len := _jpg_buf_len l;
                         _jpg_buf := _jpg_buf l |})
  | Some f =>
      modify (set_error_count 0) ;;
      let ts := fb_timestamp f in
      if negb (is_jpeg (fb_format f)) then
        '(jpeg_converted, buf, len) <-
            frame2jpg f 80 (_jpg_buf l) (_jpg_buf_len l) ;;
        esp_camera_fb_return f ;;
        if negb jpeg_converted || negb (is_some buf) || (len =? 0) then
          when_some buf free ;;
          ret (Break {| fb := None; _timestamp := ts; res := ESP_FAIL;
                        _jpg_buf_len := len; _jpg_buf := None |})
        else
          send_part {| fb := None; _timestamp := ts; res := res l;
                       _jpg_buf_len := len; _jpg_buf := buf |}
      else
        send_part {| fb := Some f; _timestamp := ts; res := res l;
                     _jpg_buf_len := fb_len f;
                     _jpg_buf := Some (FbBuf (fb_id f)) |}
  end.

(** [while (true) { ... }], cut off after [fuel] iterations: [None] when
    the loop is still running then, [Some l] with the locals at the
    [break] otherwise. *)
Fixpoint stream_loop (fuel : nat) (l : locals) : M globals (option locals) :=
  match fuel with
  | O => ret None
  | S fuel' =>
      c <- stream_iteration l ;;
      match c with
      | Break l' => ret (Some l')
      | Continue l' => stream_loop fuel' l'
      end
  end.

(** "Cleanup: ensure all buffers are freed", the code after the loop. *)
Definition cleanup (l : locals) : M globals unit :=
  when_some (fb l) esp_camera_fb_return ;;
  (* [fb] is NULL by now, so [_jpg_buf && !fb] is [_jpg_buf] *)
  when_some (_jpg_buf l) free.

Definition stream_handler (fuel : nat) : M globals (option esp_err_t) :=
  res0 <- httpd_resp_set_type _STREAM_CONTENT_TYPE ;;
  if negb (is_ok res0) then ret (Some res0)
  else
    httpd_resp_set_hdr "Access-Control-Allow-Origin" "*" ;;
    httpd_resp_set_hdr "Cache-Control" "no-store, no-cache, must-revalidate" ;;
    out <- stream_loop fuel
             {| fb := None; _timestamp := {| tv_sec := 0; tv_usec := 0 |};
                res := res0; _jpg_buf_len := 0; _jpg_buf := None |} ;;
    match out with
    | None => ret None
    | Some l => cleanup l ;; ret (Some (res l))
    end.

(** Helper: Parse framesize value *)
Definition framesize_from_value (value : option string) : Z :=
  match value with
  | None => FRAMESIZE_SVGA
  | Some value =>
      if strcaseeq value "svga" then FRAMESIZE_SVGA
      else if strcaseeq value "fhd" || strcaseeq value "1080p"
      then FRAMESIZE_FHD
      else
        let idx := atoi value in
        if (0 <=? idx) && (idx <? FRAMESIZE_INVALID) then idx
        else FRAMESIZE_SVGA
  end.

(** Helper: Get framesize name *)
Definition framesize_name (size : Z) : string :=
  if size =? FRAMESIZE_FHD then "FHD"
  else if size =? FRAMESIZE_SVGA then "SVGA"
  else "CUSTOM".

(** [if (val < lo) val = lo; if (val > hi) val = hi;] *)
Definition clamp (lo hi val : Z) : Z :=
  let val := if val <? lo then lo else val in
  if hi <? val then hi else val.

(** The [if / else if] chain of [cmd_handler] over [variable]. *)
Definition apply_control (s : sensor_t) (variable value : string)
    : M globals esp_err_t :=
  let val := atoi value in
  if streq variable "framesize" then
    let target := framesize_from_value (Some value) in
    target <- (if negb psramFound && (FRAMESIZE_SVGA <? target)
               then log "PSRAM not available, limiting to SVGA" ;;
                    ret FRAMESIZE_SVGA
               else ret target) ;;
    sensor_set set_framesize s target
  else if streq variable "quality" then
    sensor_set set_quality s (clamp 5 63 val)
  else if streq variable "stream_delay" then
    modify (set_stream_delay_ms (clamp 33 500 val mod 65536)) ;;
    ret ESP_OK
  else if streq variable "vflip" then
    sensor_set set_vflip s (clamp 0 1 val)
  else if streq variable "hmirror" then
    sensor_set set_hmirror s (clamp 0 1 val)
  else ret ESP_FAIL.

Definition cmd_handler (req : httpd_req_t) : M globals esp_err_t :=
  if url_query_len req =? 0 then httpd_resp_send_404 ;; ret ESP_FAIL
  else
    buf <- malloc ;;
    match buf with
    | None => httpd_resp_send_500 ;; ret ESP_FAIL
    | Some buf =>
        let res :=
          if negb (is_ok (url_query_str req))
             || negb (is_ok (fst (query_var req)))
             || negb (is_ok (fst (query_val req)))
          then ESP_FAIL else ESP_OK in
        free buf ;;
        if negb (is_ok res) then httpd_resp_send_404 ;; ret ESP_FAIL
        else
          s <- esp_camera_sensor_get ;;
          match s with
          | None => httpd_resp_send_500 ;; ret ESP_FAIL
          | Some s =>
              res <- apply_control s (snd (query_var req))
                                     (snd (query_val req)) ;;
              if negb (is_ok res) then httpd_resp_send_500 ;; ret ESP_FAIL
              else
                httpd_resp_set_hdr "Access-Control-Allow-Origin" "*" ;;
                httpd_resp_send None
          end
    end.

(** Start HTTP servers: port 80 for UI/stream, port 81 for /snapshot *)
Definition startCameraServer : M globals unit :=
  g <- get_globals ;;
  if is_some (camera_httpd g) then modify (set_server_started true)
  else
    '(err, handle) <- httpd_start (camera_httpd g) 80 8 ;;
    modify (set_camera_httpd handle) ;;
    if negb (is_ok err) then modify (set_server_started false)
    else
      httpd_register_uri_handler handle "/" index_handler ;;
      httpd_register_uri_handler handle "/status" status_handler ;;
      httpd_register_uri_handler handle "/control" cmd_handler_ ;;
      httpd_register_uri_handler handle "/capture" capture_handler_ ;;
      httpd_register_uri_handler handle "/stream" stream_handler_ ;;
      httpd_register_uri_handler handle "/health" health_handler ;;
      g <- get_globals ;;
      '(err, handle) <- httpd_start (snapshot_httpd g) 81 2 ;;
      modify (set_snapshot_httpd handle) ;;
      if negb (is_ok err) then modify (set_server_started false)
      else
        httpd_register_uri_handler handle "/snapshot" capture_handler_ ;;
        modify (set_server_started true).

End Handlers.
End V12.

(** ** Firmware V1.1: [CameraWebServerV1.1/app_httpd.cpp] *)

Module V11.

(** The file-scope variables of [app_httpd.cpp], and [last_frame] and
    [frame_counter], the function-[static]s of [stream_handler]. *)
Record globals := {
  stream_httpd : option nat;
  camera_httpd : option nat;
  stream_delay_ms : Z;
  last_frame : Z;
  frame_counter : Z
}.

Definition boot : globals :=
  {| stream_httpd := None; camera_httpd := None; stream_delay_ms := 0;
     last_frame := 0; frame_counter := 0 |}.

Definition set_stream_httpd (h : option nat) (g : globals) : globals :=
  {| stream_httpd := h; camera_httpd := camera_httpd g;
     stream_delay_ms := stream_delay_ms g; last_frame := last_frame g;
     frame_counter := frame_counter g |}.
Definition set_camera_httpd (h : option nat) (g : globals) : globals :=
  {| stream_httpd := stream_httpd g; camera_httpd := h;
     stream_delay_ms := stream_delay_ms g; last_frame := last_frame g;
     frame_counter := frame_counter g |}.
Definition set_stream_delay_ms (d : Z) (g : globals) : globals :=
  {| stream_httpd := stream_httpd g; camera_httpd := camera_httpd g;
     stream_delay_ms := d; last_frame := last_frame g;
     frame_counter := frame_counter g |}.
Definition set_last_frame (t : Z) (g : globals) : globals :=
  {| stream_httpd := stream_httpd g; camera_httpd := camera_httpd g;
     stream_delay_ms := stream_delay_ms g; last_frame := t;
     frame_counter := frame_counter g |}.
Definition set_frame_counter (n : Z) (g : globals) : globals :=
  {| stream_httpd := stream_httpd g; camera_httpd := camera_httpd g;
     stream_delay_ms := stream_delay_ms g; last_frame := last_frame g;
     frame_counter := n |}.

Definition modify (f : globals -> globals) : M globals unit :=
  fun g w => (tt, f g, w, []).

Definition PART_BOUNDARY : string := "123456789000000000000987654321".
Definition _STREAM_CONTENT_TYPE : string :=
  ("multipart/x-mixed-replace;boundary=" ++ PART_BOUNDARY)%string.
Definition _STREAM_BOUNDARY : string :=
  (CRLF ++ "--" ++ PART_BOUNDARY ++ CRLF)%string.
Definition _STREAM_PART (len sec usec : Z) : string :=
  ("Content-Type: image/jpeg" ++ CRLF ++
   "Content-Length: " ++ fmt_u len ++ CRLF ++
   "X-Timestamp: " ++ fmt_d sec ++ "." ++ fmt_06d usec ++ CRLF ++ CRLF)%string.

(** The default HTTP port and control port of [HTTPD_DEFAULT_CONFIG()]. *)
Definition default_server_port : Z := 80.

Section Handlers.
Context {P : platform} {E : env}.

Definition jpg_encode_stream (j_len index len : Z) : M globals (Z * Z) :=
  let j_len := if index =? 0 then 0 else j_len in
  r <- httpd_resp_send_chunk (ChunkEncoded len) ;;
  if negb (is_ok r) then ret (0, j_len)
  else ret (len, to_uint32 (j_len + len)).

(** /capture and /snapshot: single JPEG frame *)
Definition capture_handler : M globals esp_err_t :=
  fb <- esp_camera_fb_get ;;
  match fb with
  | None =>
      log "Camera capture failed" ;;
      httpd_resp_send_500 ;;
      ret ESP_FAIL
  | Some fb =>
      httpd_resp_set_type "image/jpeg" ;;
      httpd_resp_set_hdr "Content-Disposition" "inline; filename=capture.jpg" ;;
      httpd_resp_set_hdr "Access-Control-Allow-Origin" "*" ;;
      res <- (if is_jpeg (fb_format fb)
              then httpd_resp_send (Some (FbBuf (fb_id fb), fb_len fb))
              else
                ok <- frame2jpg_cb fb 80 jpg_encode_stream 0 ;;
                httpd_resp_send_chunk ChunkEnd ;;
                ret (if ok then ESP_OK else ESP_FAIL)) ;;
      esp_camera_fb_return fb ;;
      ret res
  end.

Record locals := {
  fb : option camera_fb_t;
  _timestamp : timeval;
  res : esp_err_t;
  _jpg_buf_len : Z;
  _jpg_buf : option buf_ptr
}.

Inductive ctrl :=
| Continue (l : locals)
| Break (l : locals).

(** The acquisition part of the loop body, up to the first send. *)
Definition acquire (l : locals) : M globals locals :=
  got <- esp_camera_fb_get ;;
  match got with
  | None =>
      log "Camera capture failed" ;;
      ret {| fb := None; _timestamp := _timestamp l; res := ESP_FAIL;
             _jpg_buf_len := _jpg_buf_len l; _jpg_buf := _jpg_buf l |}
  | Some f =>
      let ts := fb_timestamp f in
      if negb (is_jpeg (fb_format f)) then
        '(jpeg_converted, buf, len) <-
            frame2jpg f 80 (_jpg_buf l) (_jpg_buf_len l) ;;
        esp_camera_fb_return f ;;
        if negb jpeg_converted then
          log "JPEG compression failed" ;;
          ret {| fb := None; _timestamp := ts; res := ESP_FAIL;
                 _jpg_buf_len := len; _jpg_buf := buf |}
        else
          ret {| fb := None; _timestamp := ts; res := res l;
                 _jpg_buf_len := len; _jpg_buf := buf |}
      else
        ret {| fb := Some f; _timestamp := ts; res := res l;
               _jpg_buf_len := fb_len f;
               _jpg_buf := Some (FbBuf (fb_id f)) |}
  end.

(** The frame statistics after a frame went out. *)
Definition frame_stats : M globals unit :=
  now <- esp_timer_get_time ;;
  g <- get_globals ;;
  (if negb (last_frame g =? 0) then
     let frame_time := Z.quot (now - last_frame g) 1000 in
     modify (fun g => set_frame_counter (to_uint32 (frame_counter g + 1)) g) ;;
     g <- get_globals ;;
     if (frame_counter g mod 30 =? 0) && (0 <? frame_time)
     then log "Stream frame" else ret tt
   else ret tt) ;;
  modify (set_last_frame now).

Definition stream_iteration (l : locals) : M globals ctrl :=
  l <- acquire l ;;
  res1 <- (if is_ok (res l)
           then httpd_resp_send_chunk (ChunkText _STREAM_BOUNDARY)
           else ret (res l)) ;;
  res2 <- (if is_ok res1 then
             httpd_resp_send_chunk
               (ChunkText (_STREAM_PART (_jpg_buf_len l)
                             (tv_sec (_timestamp l)) (tv_usec (_timestamp l))))
           else ret res1) ;;
  res3 <- (if is_ok res2
           then httpd_resp_send_chunk (ChunkData (_jpg_buf l) (_jpg_buf_len l))
           else ret res2) ;;
  l' <- (match fb l with
         | Some f =>
             esp_camera_fb_return f ;;
             ret {| fb := None; _timestamp := _timestamp l; res := res3;
                    _jpg_buf_len := _jpg_buf_len l; _jpg_buf := None |}
         | None =>
             when_some (_jpg_buf l) free ;;
             ret {| fb := None; _timestamp := _timestamp l; res := res3;
                    _jpg_buf_len := _jpg_buf_len l; _jpg_buf := None |}
         end) ;;
  if negb (is_ok (res l')) then ret (Break l')
  else
    frame_stats ;;
    g <- get_globals ;;
    (if 0 <? stream_delay_ms g
     then vTaskDelay (Z.quot (stream_delay_ms g) portTICK_PERIOD_MS)
     else ret tt) ;;
    ret (Continue l').

Fixpoint stream_loop (fuel : nat) (l : locals) : M globals (option locals) :=
  match fuel with
  | O => ret None
  | S fuel' =>
      c <- stream_iteration l ;;
      match c with
      | Break l' => ret (Some l')
      | Continue l' => stream_loop fuel' l'
      end
  end.

(** /stream: MJPEG stream *)
Definition stream_handler (fuel : nat) : M globals (option esp_err_t) :=
  res0 <- httpd_resp_set_type _STREAM_CONTENT_TYPE ;;
  if negb (is_ok res0) then ret (Some res0)
  else
    httpd_resp_set_hdr "Access-Control-Allow-Origin" "*" ;;
    out <- stream_loop fuel
             {| fb := None; _timestamp := {| tv_sec := 0; tv_usec := 0 |};
                res := res0; _jpg_buf_len := 0; _jpg_buf := None |} ;;
    match out with
    | None => ret None
    | Some l => ret (Some (res l))
    end.

Definition startCameraServer : M globals unit :=
  g <- get_globals ;;
  '(err, handle) <- httpd_start (camera_httpd g) default_server_port 8 ;;
  modify (set_camera_httpd handle) ;;
  (if is_ok err then
     httpd_register_uri_handler handle "/" index_handler ;;
     httpd_register_uri_handler handle "/control" cmd_handler_ ;;
     httpd_register_uri_handler handle "/status" status_handler ;;
     httpd_register_uri_handler handle "/capture" capture_handler_ ;;
     httpd_register_uri_handler handle "/snapshot" capture_handler_
   else ret tt) ;;
  g <- get_globals ;;
  '(err, handle) <- httpd_start (stream_httpd g) (default_server_port + 1) 8 ;;
  modify (set_stream_httpd handle) ;;
  if is_ok err
  then httpd_register_uri_handler handle "/stream" stream_handler_
  else ret tt.

End Handlers.
End V11.

(** ** Observations on traces *)

Definition buf_ptr_eqb (p q : buf_ptr) : bool :=
  match p, q with
  | FbBuf a, FbBuf b => Nat.eqb a b
  | HeapBuf a, HeapBuf b => Nat.eqb a b
  | QueryBuf a, QueryBuf b => Nat.eqb a b
  | _, _ => false
  end.

(** Takes one occurrence of [x] out of [l]; [None] when there is none. *)
Fixpoint take_out {A} (eqb : A -> A -> bool) (x : A) (l : list A)
    : option (list A) :=
  match l with
  | [] => None
  | y :: rest =>
      if eqb x y then Some rest
      else option_map (cons y) (take_out eqb x rest)
  end.

(** The resources a handler owns at some point: the frames it got from the
    pool and did not return yet, by serial number, and the heap blocks
    that [frame2jpg] allocated for it and that it did not free yet. *)
Record ledger := {
  held : list nat;
  live : list buf_ptr
}.

Definition nothing : ledger := {| held := []; live := [] |}.

(** The effect of one event on the ledger.  [None] is a violation: a
    frame that is returned while it is not held (never acquired, or
    returned before), or a pointer that is freed while it is not a live
    heap block (the payload of a pool frame, or a block freed before). *)
Definition audit_event (e : event) (L : ledger) : option ledger :=
  match e with
  | EvFbGet (Some fb) => Some {| held := fb_id fb :: held L; live := live L |}
  | EvFbReturn fb =>
      option_map (fun h => {| held := h; live := live L |})
                 (take_out Nat.eqb (fb_id fb) (held L))
  | EvFrame2Jpg _ _ _ (Some (p, _)) =>
      Some {| held := held L; live := p :: live L |}
  | EvFree p =>
      option_map (fun h => {| held := held L; live := h |})
                 (take_out buf_ptr_eqb p (live L))
  | _ => Some L
  end.

Fixpoint audit (t : list event) (L : ledger) : option ledger :=
  match t with
  | [] => Some L
  | e :: rest =>
      match audit_event e L with
      | Some L' => audit rest L'
      | None => None
      end
  end.

(** A run is balanced when it starts and ends owning nothing and never
    violates the ledger on the way: every frame it acquired went back to the
    pool once, every encoder block was freed once. *)
Definition balanced (t : list event) : Prop := audit t nothing = Some nothing.

(** How often the frame with serial number [id] was acquired, was returned
    to the pool; how often the pointer [p] was allocated by the encoder,
    was freed. *)
Definition acquisitions (id : nat) (t : list event) : nat :=
  count_occ Nat.eq_dec
    (flat_map (fun e => match e with
                        | EvFbGet (Some fb) => [fb_id fb]
                        | _ => [] end) t) id.

Definition returns (id : nat) (t : list event) : nat :=
  count_occ Nat.eq_dec
    (flat_map (fun e => match e with
                        | EvFbReturn fb => [fb_id fb]
                        | _ => [] end) t) id.

Definition encoder_blocks (t : list event) : list buf_ptr :=
  flat_map (fun e => match e with
                     | EvFrame2Jpg _ _ _ (Some (p, _)) => [p]
                     | _ => [] end) t.

Definition frees (t : list event) : list buf_ptr :=
  flat_map (fun e => match e with EvFree p => [p] | _ => [] end) t.

Definition count_ptr (p : buf_ptr) (l : list buf_ptr) : nat :=
  List.length (filter (buf_ptr_eqb p) l).

(** The frames that [frame2jpg] was called on. *)
Definition encoded_frames (t : list event) : list camera_fb_t :=
  flat_map (fun e => match e with
                     | EvFrame2Jpg fb _ _ _ => [fb]
                     | _ => [] end) t.

Definition count_events (f : event -> bool) (t : list event) : nat :=
  List.length (filter f t).

Definition is_fb_get (e : event) : bool :=
  match e with EvFbGet _ => true | _ => false end.

Definition is_chunk_send (e : event) : bool :=
  match e with EvSendChunk _ _ => true | _ => false end.

(** A chunk that the client connection did not accept. *)
Definition is_failed_send (e : event) : bool :=
  match e with EvSendChunk _ r => negb (is_ok r) | _ => false end.

(** A multipart boundary marker handed to the connection. *)
Definition is_boundary (e : event) : bool :=
  match e with
  | EvSendChunk (ChunkText s) _ => String.eqb s V12._STREAM_BOUNDARY
  | _ => false
  end.

(** An acquisition that did not yield a frame. *)
Definition is_failed_get (e : event) : bool :=
  match e with EvFbGet None => true | _ => false end.

(** [frame2jpg] counts as failed for the stream handler when it returns
    false, leaves the output pointer null, or yields no bytes. *)
Definition encode_ok (ok : bool) (out : option (buf_ptr * Z)) : bool :=
  match out with
  | Some (_, len) => ok && negb (len =? 0)
  | None => false
  end.

Definition is_failed_encode (e : event) : bool :=
  match e with
  | EvFrame2Jpg _ _ ok out => negb (encode_ok ok out)
  | _ => false
  end.

(** A frame that is ready to be sent: acquired as JPEG, or acquired in
    another format and encoded. *)
Definition is_ready_frame (e : event) : bool :=
  match e with
  | EvFbGet (Some fb) => is_jpeg (fb_format fb)
  | EvFrame2Jpg _ _ ok out => encode_ok ok out
  | _ => false
  end.

(** A boundary marker that the connection accepted. *)
Definition is_accepted_boundary (e : event) : bool :=
  is_boundary e && negb (is_failed_send e).

Definition boundaries (t : list event) : nat := count_events is_boundary t.
Definition accepted_boundaries (t : list event) : nat :=
  count_events is_accepted_boundary t.
Definition ready_frames (t : list event) : nat := count_events is_ready_frame t.
Definition failed_sends (t : list event) : nat := count_events is_failed_send t.

(** The parts of the multipart reply that went out in full.  A part opens
    with a boundary marker that the connection accepts, and it is broken
    when the connection refuses one of its chunks; [scan_parts] walks the
    chunks with the number of parts that are closed and whole, and whether
    a whole part is open. *)
Definition scan_part (e : event) (s : nat * bool) : nat * bool :=
  let '(n, open) := s in
  match e with
  | EvSendChunk _ r =>
      if is_boundary e then ((if open then S n else n), is_ok r)
      else if is_ok r then (n, open) else (n, false)
  | _ => (n, open)
  end.

Fixpoint scan_parts (t : list event) (s : nat * bool) : nat * bool :=
  match t with
  | [] => s
  | e :: rest => scan_parts rest (scan_part e s)
  end.

Definition whole_parts (s : nat * bool) : nat :=
  let '(n, open) := s in if open then S n else n.

Definition parts_delivered (t : list event) : nat :=
  whole_parts (scan_parts t (0%nat, false)).

(** The locals of [V12.stream_handler] when control is at the head of the
    loop. *)
Definition loop_head (l : V12.locals) : Prop :=
  V12.fb l = None /\ V12._jpg_buf l = None /\ V12.res l = ESP_OK.

(** The locals on entry to the loop, when the content type was accepted. *)
Definition loop_entry : V12.locals :=
  {| V12.fb := None; V12._timestamp := {| tv_sec := 0; tv_usec := 0 |};
     V12.res := ESP_OK; V12._jpg_buf_len := 0; V12._jpg_buf := None |}.

Definition is_break (c : V12.ctrl) : bool :=
  match c with V12.Break _ => true | V12.Continue _ => false end.

Definition locals_of (c : V12.ctrl) : V12.locals :=
  match c with V12.Break l => l | V12.Continue l => l end.

(** HTTP status of an error reply. *)
Definition status_code (e : event) : option Z :=
  match e with
  | EvSend404 => Some 404
  | EvSend500 => Some 500
  | _ => None
  end.

Definition is_client_error (e : event) : bool :=
  match status_code e with
  | Some c => (400 <=? c) && (c <? 500)
  | None => false
  end.

Definition is_server_error (e : event) : bool :=
  match status_code e with
  | Some c => (500 <=? c) && (c <? 600)
  | None => false
  end.

Definition is_error_reply (e : event) : bool :=
  is_client_error e || is_server_error e.

(** A reply body: [httpd_resp_send] or a chunk. *)
Definition is_body (e : event) : bool :=
  match e with
  | EvSend _ _ | EvSendChunk _ _ => true
  | _ => false
  end.

(** The events that change the ledger. *)
Definition touches_ledger (e : event) : bool :=
  match e with
  | EvFbGet (Some _) | EvFbReturn _ | EvFrame2Jpg _ _ _ (Some _) | EvFree _ =>
      true
  | _ => false
  end.

(** The headers that open a stream session. *)
Definition session_headers : list event :=
  [EvSetType V12._STREAM_CONTENT_TYPE ESP_OK;
   EvSetHdr "Access-Control-Allow-Origin" "*";
   EvSetHdr "Cache-Control" "no-store, no-cache, must-revalidate"].

Section CaptureSpec.
Context {P : platform} {E : env}.

(** The wait between two attempts of [capture_handler]. *)
Definition retry_delay : event :=
  EvDelay (Z.quot V12.RETRY_DELAY_MS portTICK_PERIOD_MS).

(** The frame that the camera has for the [k]-th acquisition after the
    world [w]. *)
Definition attempt (w : io) (k : nat) : option camera_fb_t :=
  option_map (mk_fb (gets w + k)) (cam_feed (gets w + k)%nat).

(** Up to three attempts, with the wait between two of them: the events
    they make and the frame of the first one that yields a frame. *)
Definition three_attempts (w : io) : list event * option camera_fb_t :=
  match attempt w 0 with
  | Some fb => ([EvFbGet (Some fb)], Some fb)
  | None =>
      match attempt w 1 with
      | Some fb => ([EvFbGet None; retry_delay; EvFbGet (Some fb)], Some fb)
      | None =>
          match attempt w 2 with
          | Some fb =>
              ([EvFbGet None; retry_delay; EvFbGet None; retry_delay;
                EvFbGet (Some fb)], Some fb)
          | None =>
              ([EvFbGet None; retry_delay; EvFbGet None; retry_delay;
                EvFbGet None], None)
          end
      end
  end.

(** The world after the attempts. *)
Definition after_attempts (w : io) : io :=
  match attempt w 0 with
  | Some _ => next_get w
  | None =>
      match attempt w 1 with
      | Some _ => next_get (next_get w)
      | None => next_get (next_get (next_get w))
      end
  end.

(** The headers of a capture reply of V1.2, in the world [w]. *)
Definition capture_headers (w : io) : list event :=
  [EvSetType "image/jpeg" (type_feed (types w));
   EvSetHdr "Content-Disposition" "inline; filename=capture.jpg";
   EvSetHdr "Access-Control-Allow-Origin" "*";
   EvSetHdr "Cache-Control" "no-store, no-cache, must-revalidate, max-age=0";
   EvSetHdr "Pragma" "no-cache";
   EvSetHdr "Expires" "0"].
End CaptureSpec.

(** The serial numbers in the trace [t] of a run from the world [w] to the
    world [w'] are fresh: every frame and every encoder block occurs once
    at most, with a number that the run drew from the cursors. *)
Definition fresh_ids (w w' : io) (t : list event) : Prop :=
  (gets w <= gets w')%nat /\ (encs w <= encs w')%nat /\
  (forall id, (acquisitions id t <= 1)%nat /\
              ((1 <= acquisitions id t)%nat -> (gets w <= id < gets w')%nat)) /\
  (forall p, (count_ptr p (encoder_blocks t) <= 1)%nat /\
             ((1 <= count_ptr p (encoder_blocks t))%nat ->
              exists k, p = HeapBuf k /\ (encs w <= k < encs w')%nat)).

(** The run of failed acquisitions at the end of a trace: [n] when the
    trace begins, one more with every acquisition that fails, none after
    one that yields a frame. *)
Definition failure_step (e : event) (n : Z) : Z :=
  match e with
  | EvFbGet None => n + 1
  | EvFbGet (Some _) => 0
  | _ => n
  end.

Fixpoint failure_run (t : list event) (n : Z) : Z :=
  match t with
  | [] => n
  | e :: rest => failure_run rest (failure_step e n)
  end.

Definition is_delay (e : event) : bool :=
  match e with EvDelay _ => true | _ => false end.

(** The locals of [V11.stream_handler] at the head of its loop, and on
    entry to it. *)
Definition loop_head11 (l : V11.locals) : Prop :=
  V11.fb l = None /\ V11._jpg_buf l = None /\ V11.res l = ESP_OK.

Definition loop_entry11 : V11.locals :=
  {| V11.fb := None; V11._timestamp := {| tv_sec := 0; tv_usec := 0 |};
     V11.res := ESP_OK; V11._jpg_buf_len := 0; V11._jpg_buf := None |}.

Definition is_break11 (c : V11.ctrl) : bool :=
  match c with V11.Break _ => true | V11.Continue _ => false end.

(** The trace [t] ends in a wait of [ticks], its only wait. *)
Definition paced_by (ticks : Z) (t : list event) : Prop :=
  exists d, t = d ++ [EvDelay ticks] /\ count_events is_delay d = 0%nat.

Definition is_httpd_start (e : event) : bool :=
  match e with EvHttpdStart _ _ _ => true | _ => false end.

Definition is_register (e : event) : bool :=
  match e with EvRegister _ _ _ => true | _ => false end.

(** The six handlers that V1.2 registers on the port-80 server [h]. *)
Definition port80_handlers (h : option nat) : list event :=
  [EvRegister h "/" index_handler;
   EvRegister h "/status" status_handler;
   EvRegister h "/control" cmd_handler_;
   EvRegister h "/capture" capture_handler_;
   EvRegister h "/stream" stream_handler_;
   EvRegister h "/health" health_handler].

(** [n] calls of [V12.startCameraServer] in a row. *)
Fixpoint start_again {E : env} (n : nat) : M V12.globals unit :=
  match n with
  | O => ret tt
  | S k => bind V12.startCameraServer (fun _ => start_again k)
  end.

(** ** The capture configuration *)

(** The settings that /control knows. *)
Inductive setting := Framesize | Quality | StreamDelay | VFlip | HMirror.

Definition setting_of (variable : string) : option setting :=
  if streq variable "framesize" then Some Framesize
  else if streq variable "quality" then Some Quality
  else if streq variable "stream_delay" then Some StreamDelay
  else if streq variable "vflip" then Some VFlip
  else if streq variable "hmirror" then Some HMirror
  else None.

(** The capture configuration: the status block of the sensor, when there
    is a sensor, and the stream delay. *)
Definition capture_config (g : V12.globals) (w : io)
    : option camera_status_t * Z :=
  (option_map status (sensor w), V12.stream_delay_ms g).

Definition setting_value (k : setting) (g : V12.globals) (w : io) : option Z :=
  match k with
  | StreamDelay => Some (V12.stream_delay_ms g)
  | Framesize => option_map (fun s => framesize (status s)) (sensor w)
  | Quality => option_map (fun s => quality (status s)) (sensor w)
  | VFlip => option_map (fun s => vflip (status s)) (sensor w)
  | HMirror => option_map (fun s => hmirror (status s)) (sensor w)
  end.

Section Ranges.
Context {P : platform} {E : env}.

(** The valid range of each setting. *)
Definition valid_value (k : setting) (v : Z) : Prop :=
  match k with
  | Framesize =>
      0 <= v < FRAMESIZE_INVALID /\ (psramFound = false -> v <= FRAMESIZE_SVGA)
  | Quality => 5 <= v <= 63
  | StreamDelay => 33 <= v <= 500
  | VFlip | HMirror => 0 <= v <= 1
  end.

Definition status_in_range (st : camera_status_t) : Prop :=
  valid_value Framesize (framesize st) /\ valid_value Quality (quality st) /\
  valid_value VFlip (vflip st) /\ valid_value HMirror (hmirror st).

Definition config_in_range (g : V12.globals) (w : io) : Prop :=
  valid_value StreamDelay (V12.stream_delay_ms g) /\
  match sensor w with
  | Some s => status_in_range (status s)
  | None => True
  end.

(** The value that a request for the setting [k] with the text [value]
    asks for, brought into the range of the setting. *)
Definition requested (k : setting) (value : string) : Z :=
  match k with
  | Framesize =>
      let target := V12.framesize_from_value (Some value) in
      if negb psramFound && (FRAMESIZE_SVGA <? target) then FRAMESIZE_SVGA
      else target
  | Quality => Z.max 5 (Z.min 63 (atoi value))
  | StreamDelay => Z.max 33 (Z.min 500 (atoi value))
  | VFlip | HMirror => Z.max 0 (Z.min 1 (atoi value))
  end.
End Ranges.

(** The setter of the sensor for a setting; the stream delay is not a
    setting of the sensor. *)
Definition setter_of (k : setting) (s : sensor_t)
    : option (camera_status_t -> Z -> Z * camera_status_t) :=
  match k with
  | Framesize => Some (set_framesize s)
  | Quality => Some (set_quality s)
  | VFlip => Some (set_vflip s)
  | HMirror => Some (set_hmirror s)
  | StreamDelay => None
  end.

(** The driver accepts the value [v] for the setting [k]. *)
Definition accepts (s : sensor_t) (k : setting) (v : Z) : bool :=
  match setter_of k s with
  | Some set => is_ok (fst (set (status s) v))
  | None => true
  end.

(** What is assumed of the driver: a setter that reports success has
    stored the value in its field and nothing else, one that reports an
    error has left the status alone. *)
Definition setter_stores
    (set : camera_status_t -> Z -> Z * camera_status_t)
    (store : camera_status_t -> Z -> camera_status_t) : Prop :=
  forall st v,
    snd (set st v) = if is_ok (fst (set st v)) then store st v else st.

Definition faithful (s : sensor_t) : Prop :=
  setter_stores (set_framesize s) store_framesize /\
  setter_stores (set_quality s) store_quality /\
  setter_stores (set_vflip s) store_vflip /\
  setter_stores (set_hmirror s) store_hmirror.

Definition sensor_faithful (w : io) : Prop :=
  match sensor w with Some s => faithful s | None => True end.

(** A query that names both [var] and [val]. *)
Definition well_formed (req : httpd_req_t) : bool :=
  negb (url_query_len req =? 0) && is_ok (url_query_str req) &&
  is_ok (fst (query_var req)) && is_ok (fst (query_val req)).

(** ** Sample platform, world and sensor, for concrete runs *)

(** A platform with a 1 ms tick and the numbering of [framesize_t] that
    puts SVGA at 9, FHD at 14 and the end marker at 22. *)
Definition xiao : platform :=
  {| portTICK_PERIOD_MS := 1; FRAMESIZE_SVGA := 9; FRAMESIZE_FHD := 14;
     FRAMESIZE_INVALID := 22 |}.

(** A sensor whose setters store the value and report success, in the
    state [initCamera] leaves it in without PSRAM: SVGA, quality 16. *)
Definition plain_sensor : sensor_t :=
  {| status := {| framesize := 9; quality := 16; vflip := 0; hmirror := 0 |};
     set_framesize := fun st v => (ESP_OK, store_framesize st v);
     set_quality := fun st v => (ESP_OK, store_quality st v);
     set_vflip := fun st v => (ESP_OK, store_vflip st v);
     set_hmirror := fun st v => (ESP_OK, store_hmirror st v) |}.

Definition jpeg_frame : raw_frame :=
  {| raw_len := 20000; raw_format := PIXFORMAT_JPEG;
     raw_timestamp := {| tv_sec := 12; tv_usec := 345 |} |}.

Definition rgb_frame : raw_frame :=
  {| raw_len := 153600; raw_format := PIXFORMAT_RGB565;
     raw_timestamp := {| tv_sec := 12; tv_usec := 345 |} |}.

(** A world in which everything works: JPEG frames, a client that accepts
    every chunk, servers that start. *)
Definition calm : env :=
  {| psramFound := false;
     cam_feed := fun _ => Some jpeg_frame;
     enc_feed := fun _ => {| jpg_converted := true; jpg_out := Some 9000 |};
     enc_cb_feed := fun _ => {| cb_chunks := [4096; 4096; 808];
                                cb_verdict := true; cb_gives_up := false |};
     net_feed := fun _ => ESP_OK;
     type_feed := fun _ => ESP_OK;
     start_feed := fun _ => ESP_OK;
     malloc_feed := fun _ => true;
     timer_feed := fun n => 1000000 + 40000 * Z.of_nat n |}.

Definition with_cam (E : env) (f : nat -> option raw_frame) : env :=
  {| psramFound := @psramFound E; cam_feed := f; enc_feed := @enc_feed E;
     enc_cb_feed := @enc_cb_feed E; net_feed := @net_feed E;
     type_feed := @type_feed E; start_feed := @start_feed E;
     malloc_feed := @malloc_feed E; timer_feed := @timer_feed E |}.

Definition with_net (E : env) (f : nat -> esp_err_t) : env :=
  {| psramFound := @psramFound E; cam_feed := @cam_feed E;
     enc_feed := @enc_feed E; enc_cb_feed := @enc_cb_feed E; net_feed := f;
     type_feed := @type_feed E; start_feed := @start_feed E;
     malloc_feed := @malloc_feed E; timer_feed := @timer_feed E |}.

Definition with_start (E : env) (f : nat -> esp_err_t) : env :=
  {| psramFound := @psramFound E; cam_feed := @cam_feed E;
     enc_feed := @enc_feed E; enc_cb_feed := @enc_cb_feed E;
     net_feed := @net_feed E; type_feed := @type_feed E; start_feed := f;
     malloc_feed := @malloc_feed E; timer_feed := @timer_feed E |}.

(** The camera fails twice, then delivers. *)
Definition two_failures : env :=
  with_cam calm (fun n => if Nat.ltb n 2 then None else Some jpeg_frame).

(** The camera does not deliver at all. *)
Definition dead_camera : env := with_cam calm (fun _ => None).

(** The client accepts the chunks of four frames (three chunks each) and
    the boundary of the fifth, then it is gone. *)
Definition client_leaves : env :=
  with_net calm (fun n => if Nat.ltb n 13 then ESP_OK else ESP_FAIL).

(** The server on port 80 starts, the one on port 81 does not. *)
Definition port81_taken : env :=
  with_start calm (fun n => if Nat.eqb n 0 then ESP_OK else ESP_FAIL).

Definition control_request (var val : string) : httpd_req_t :=
  {| url_query_len := Z.of_nat (String.length var + String.length val + 9);
     url_query_str := ESP_OK;
     query_var := (ESP_OK, var);
     query_val := (ESP_OK, val) |}.

(** A query without [val]: [httpd_query_key_value] does not find it. *)
Definition request_without_val (var : string) : httpd_req_t :=
  {| url_query_len := Z.of_nat (String.length var + 4);
     url_query_str := ESP_OK;
     query_var := (ESP_OK, var);
     query_val := (261, EmptyString) |}.

(** ** The Arduino core, the WiFi driver and the start of the camera *)

(** The sketch and the handlers of /status and /health call into the
    Arduino core ([millis], [digitalWrite], [Serial]), the WiFi driver and
    the start-up of the camera driver, and they send text that they
    format on the stack.  They are computations in a second monad [MB],
    over the world of the handlers above and these calls, with a trace
    of [act]s. *)

Inductive wl_status_t :=
| WL_NO_SHIELD | WL_IDLE_STATUS | WL_NO_SSID_AVAIL | WL_SCAN_COMPLETED
| WL_CONNECTED | WL_CONNECT_FAILED | WL_CONNECTION_LOST | WL_DISCONNECTED.

(** [status == WL_CONNECTED] *)
Definition is_connected (st : wl_status_t) : bool :=
  match st with WL_CONNECTED => true | _ => false end.

Inductive level := LOW | HIGH.

Inductive camera_fb_location_t := CAMERA_FB_IN_PSRAM | CAMERA_FB_IN_DRAM.
Inductive camera_grab_mode_t := CAMERA_GRAB_WHEN_EMPTY | CAMERA_GRAB_LATEST.

(** The fields of [camera_config_t] that [initCamera] computes; the LEDC
    channel and the sixteen pin numbers are constants of
    [board_config.h] that it copies. *)
Record camera_config_t := {
  xclk_freq_hz : Z;
  pixel_format : pixformat_t;
  frame_size : Z;
  fb_location : camera_fb_location_t;
  fb_count : Z;
  jpeg_quality : Z;
  grab_mode : camera_grab_mode_t
}.

(** The setters of [sensor_t] that only [applySensorDefaults] calls. *)
Inductive knob :=
| brightness | saturation | lenc | whitebal | awb_gain | exposure_ctrl
| gain_ctrl | special_effect | colorbar.

(** The answers of these calls; the n-th call into the core or the
    drivers gets the n-th answer of its kind.  [camera_init_feed] gives the
    return code of [esp_camera_init] and the sensor handle that the driver
    has afterwards; [knob_feed] what a setter of a [knob] leaves of the
    status block; [sensor_PID] is [s->id.PID]. *)
Class core := {
  millis_feed : nat -> Z;
  wifi_feed : nat -> wl_status_t;
  rssi_feed : nat -> Z;
  ip_feed : nat -> list Z;
  camera_init_feed : nat -> esp_err_t * option sensor_t;
  knob_feed : knob -> camera_status_t -> Z -> camera_status_t;
  sensor_PID : Z;
  OV3660_PID : Z
}.

Record board := {
  http : io;          (* the world of the HTTP handlers *)
  calls : nat         (* calls into the core and the drivers so far *)
}.

Definition board0 (s : option sensor_t) : board :=
  {| http := io0 s; calls := 0 |}.

Definition with_http (b : board) (w : io) : board :=
  {| http := w; calls := calls b |}.

Definition next_call (b : board) : board :=
  {| http := http b; calls := S (calls b) |}.

Inductive act :=
| Http (e : event)                  (* a call of the handlers above *)
| SendText (text : string) (len : Z) (r : esp_err_t)
                                    (* httpd_resp_send of a text buffer *)
| Send500 (r : esp_err_t)           (* httpd_resp_send_500, result used *)
| PinModeOutput (pin : Z)
| DigitalWrite (pin : Z) (lv : level)
| Delay (ms : Z)
| SerialBegin (baud : Z)
| SerialSetDebugOutput (on : bool)
| SerialPrint (text : string)
| SerialPrintln (text : string)
| SerialPrintf (format : string) (args : list Z)
| SerialPrintIP (ip : list Z)
| WiFiSetSleep (on : bool)
| WiFiModeSTA
| WiFiBegin                         (* with the credentials of the sketch *)
| CameraInit (config : camera_config_t) (r : esp_err_t)
| SensorSet (setter : string) (v : Z) (r : esp_err_t)
| SensorTune (k : knob) (v : Z)
| LedcAttach (pin freq resolution : Z).

Definition MB (G A : Type) : Type := G -> board -> A * G * board * list act.

Definition retB {G A} (a : A) : MB G A := fun g b => (a, g, b, []).

Definition bindB {G A B} (m : MB G A) (k : A -> MB G B) : MB G B :=
  fun g b =>
    let '(a, g1, b1, t1) := m g b in
    let '(c, g2, b2, t2) := k a g1 b1 in
    (c, g2, b2, t1 ++ t2).

Declare Scope board_scope.
Delimit Scope board_scope with board.
Notation "x <- m ;; k" := (bindB m (fun x => k))
  (at level 100, m at next level, right associativity) : board_scope.
Notation "' pat <- m ;; k" := (bindB m (fun x => let pat := x in k))
  (at level 100, pat pattern, m at next level, right associativity)
  : board_scope.
Notation "m ;; k" := (bindB m (fun _ => k))
  (at level 100, right associativity) : board_scope.

Definition value_of {A G} (r : A * G * board * list act) : A :=
  fst (fst (fst r)).
Definition state_of {A G} (r : A * G * board * list act) : G :=
  snd (fst (fst r)).
Definition board_of {A G} (r : A * G * board * list act) : board :=
  snd (fst r).
Definition acts_of {A G} (r : A * G * board * list act) : list act := snd r.

(** A computation of the handlers above, run on the board. *)
Definition lift {G A} (m : M G A) : MB G A :=
  fun g b =>
    let '(a, g', w', t) := m g (http b) in
    (a, g', with_http b w', map Http t).

Definition getB {G} : MB G G := fun g b => (g, g, b, []).
Definition modifyB {G} (f : G -> G) : MB G unit := fun g b => (tt, f g, b, []).
Definition emitB {G} (a : act) : MB G unit := fun g b => (tt, g, b, [a]).

(** The calls of the handlers above that a trace on the board holds. *)
Definition http_events (t : list act) : list event :=
  flat_map (fun a => match a with Http e => [e] | _ => [] end) t.

Section Board.
Context {E : env} {C : core} {G : Type}.

(** [millis()], an [unsigned long] of 32 bits *)
Definition millis : MB G Z :=
  fun g b => (to_uint32 (millis_feed (calls b)), g, next_call b, []).

Definition WiFi_status : MB G wl_status_t :=
  fun g b => (wifi_feed (calls b), g, next_call b, []).

Definition WiFi_RSSI : MB G Z :=
  fun g b => (rssi_feed (calls b), g, next_call b, []).

Definition WiFi_localIP : MB G (list Z) :=
  fun g b => (ip_feed (calls b), g, next_call b, []).

(** [esp_camera_init(&config)] *)
Definition esp_camera_init (config : camera_config_t) : MB G esp_err_t :=
  fun g b =>
    let '(r, s) := camera_init_feed (calls b) in
    (r, g, next_call (with_http b (with_sensor (http b) s)),
     [CameraInit config r]).

(** [s->set_x(s, v)] through the handle [s] of the driver's sensor: the
    setter runs on the status that the sensor has now and leaves its own
    there.  The callers hold a handle that is not null. *)
Definition sensor_call (name : string)
    (setter : sensor_t -> camera_status_t -> Z -> Z * camera_status_t)
    (v : Z) : MB G esp_err_t :=
  fun g b =>
    match sensor (http b) with
    | Some s =>
        let '(r, st) := setter s (status s) v in
        (r, g, with_http b (with_sensor (http b) (Some (with_status s st))),
         [SensorSet name v r])
    | None => (ESP_FAIL, g, b, [])
    end.

(** [s->set_k(s, v)] for one of the other setters *)
Definition sensor_tune (k : knob) (v : Z) : MB G unit :=
  fun g b =>
    match sensor (http b) with
    | Some s =>
        (tt, g,
         with_http b
           (with_sensor (http b)
              (Some (with_status s (knob_feed k (status s) v)))),
         [SensorTune k v])
    | None => (tt, g, b, [])
    end.

(** [httpd_resp_send(req, buf, len)] of a text buffer *)
Definition httpd_resp_send_text (buf : string) (len : Z) : MB G esp_err_t :=
  fun g b =>
    let r := net_feed (sends (http b)) in
    (r, g, with_http b (next_send (http b)), [SendText buf len r]).

(** [httpd_resp_send_500(req)] where the handler returns its result *)
Definition httpd_resp_send_500_code : MB G esp_err_t :=
  fun g b =>
    let r := net_feed (sends (http b)) in
    (r, g, with_http b (next_send (http b)), [Send500 r]).

Definition whenB (c : bool) (m : MB G unit) : MB G unit :=
  if c then m else retB tt.

End Board.

(** [snprintf(buf, size, format, ...)] for the text that the format and
    its arguments produce: what the buffer holds afterwards, the first
    [size - 1] characters of the text, and the return value, the length of
    the whole text. *)
Definition snprintf (size : nat) (text : string) : string * Z :=
  (substring 0 (size - 1) text, Z.of_nat (String.length text)).

(** A double quote, and a text between double quotes. *)
Definition dquote : string := String "034"%char EmptyString.
Definition quoted (s : string) : string := (dquote ++ s ++ dquote)%string.

(** [b ? "true" : "false"] *)
Definition json_bool (b : bool) : string := if b then "true" else "false".

Definition LF : string := String "010"%char EmptyString.

Section Arduino.
Context {G : Type}.

Definition pinModeOutput (pin : Z) : MB G unit := emitB (PinModeOutput pin).
Definition digitalWrite (pin : Z) (lv : level) : MB G unit :=
  emitB (DigitalWrite pin lv).
Definition delay (ms : Z) : MB G unit := emitB (Delay ms).
Definition Serial_print (text : string) : MB G unit := emitB (SerialPrint text).
Definition Serial_println (text : string) : MB G unit :=
  emitB (SerialPrintln text).
Definition Serial_printf (format : string) (args : list Z) : MB G unit :=
  emitB (SerialPrintf format args).

End Arduino.

(** ** Firmware V1.2: the camera warm-up *)

Module Rest12.
Section Handlers.
Context {P : platform} {E : env}.

(** [for (int i = ...; i < 3; i++)] of [warmupCamera], from [i] on;
    [fuel] bounds the iterations that are left, three are enough. *)
Fixpoint warmup_loop (fuel : nat) (i : Z) : M V12.globals unit :=
  match fuel with
  | O => ret tt
  | S fuel' =>
      if i <? 3 then
        fb <- esp_camera_fb_get ;;
        when_some fb (fun f =>
          esp_camera_fb_return f ;;
          vTaskDelay (Z.quot 100 portTICK_PERIOD_MS)) ;;
        warmup_loop fuel' (i + 1)
      else ret tt
  end.

(** Camera warm-up function: capture and discard a few frames after init *)
Definition warmupCamera : M V12.globals unit := warmup_loop 3 0.

End Handlers.

Section Replies.
Context {P : platform} {E : env} {C : core}.
Local Open Scope board_scope.

(** The text that the format of [status_handler] produces from its
    arguments. *)
Definition status_json (st : camera_status_t) (stream_delay rssi : Z)
    : string :=
  ("{" ++ quoted "framesize" ++ ":" ++ fmt_u (framesize st) ++
   "," ++ quoted "framesize_name" ++ ":" ++
          quoted (V12.framesize_name (framesize st)) ++
   "," ++ quoted "quality" ++ ":" ++ fmt_u (quality st) ++
   "," ++ quoted "stream_delay" ++ ":" ++ fmt_u stream_delay ++
   "," ++ quoted "vflip" ++ ":" ++ fmt_u (vflip st) ++
   "," ++ quoted "hmirror" ++ ":" ++ fmt_u (hmirror st) ++
   "," ++ quoted "wifi_rssi" ++ ":" ++ fmt_d rssi ++ "}")%string.

(** /status: JSON status with resolution, quality, fps, orientation *)
Definition status_handler : MB V12.globals esp_err_t :=
  s <- lift esp_camera_sensor_get ;;
  match s with
  | None => httpd_resp_send_500_code
  | Some s =>
      rssi <- WiFi_RSSI ;;
      g <- getB ;;
      let '(json_response, len) :=
        snprintf 256
          (status_json (status s) (V12.stream_delay_ms g) rssi) in
      lift (httpd_resp_set_type "application/json") ;;
      lift (httpd_resp_set_hdr "Access-Control-Allow-Origin" "*") ;;
      httpd_resp_send_text json_response len
  end.

(** The text that the format of [health_handler] produces. *)
Definition health_json (status : string) (camera_ok wifi_ok server_ok : bool)
    : string :=
  ("{" ++ quoted "status" ++ ":" ++ quoted status ++
   "," ++ quoted "camera" ++ ":" ++ json_bool camera_ok ++
   "," ++ quoted "wifi" ++ ":" ++ json_bool wifi_ok ++
   "," ++ quoted "server" ++ ":" ++ json_bool server_ok ++ "}")%string.

(** /health: Simple health check endpoint *)
Definition health_handler : MB V12.globals esp_err_t :=
  s <- lift esp_camera_sensor_get ;;
  let camera_ok := is_some s in
  st <- WiFi_status ;;
  let wifi_ok := is_connected st in
  g <- getB ;;
  let server_ok := is_some (V12.camera_httpd g) in
  let status := if camera_ok && wifi_ok && server_ok then "OK" else "ERROR" in
  let '(response, len) :=
    snprintf 128 (health_json status camera_ok wifi_ok server_ok) in
  lift (httpd_resp_set_type "application/json") ;;
  lift (httpd_resp_set_hdr "Access-Control-Allow-Origin" "*") ;;
  httpd_resp_send_text response len.

End Replies.
End Rest12.

(** ** Firmware V1.1: the control handler *)

Module Rest11.
Section Handlers.
Context {P : platform} {E : env}.

Definition framesize_from_value (value : option string) : Z :=
  match value with
  | None => FRAMESIZE_SVGA
  | Some value =>
      if strcaseeq value "svga" then FRAMESIZE_SVGA
      else if strcaseeq value "fhd" || strcaseeq value "1080p"
      then FRAMESIZE_FHD
      else
        let idx := atoi value in
        if (0 <=? idx) && (idx <? FRAMESIZE_INVALID) then idx
        else FRAMESIZE_SVGA
  end.

Definition framesize_name (size : Z) : string :=
  if size =? FRAMESIZE_FHD then "FHD"
  else if size =? FRAMESIZE_SVGA then "SVGA"
  else "CUSTOM".

(** The [if / else if] chain of [cmd_handler] over [variable]. *)
Definition apply_control (s : sensor_t) (variable value : string)
    : M V11.globals esp_err_t :=
  let val := atoi value in
  if streq variable "framesize" then
    let target := framesize_from_value (Some value) in
    let target := if negb psramFound && (FRAMESIZE_SVGA <? target)
                  then FRAMESIZE_SVGA else target in
    sensor_set set_framesize s target
  else if streq variable "quality" then
    sensor_set set_quality s (V12.clamp 5 63 val)
  else if streq variable "stream_delay" then
    V11.modify (V11.set_stream_delay_ms (V12.clamp 0 500 val mod 65536)) ;;
    ret ESP_OK
  else ret ESP_FAIL.

(** /control: lightweight camera controls (framesize, quality, stream
    pacing) *)
Definition cmd_handler (req : httpd_req_t) : M V11.globals esp_err_t :=
  if url_query_len req =? 0 then httpd_resp_send_404 ;; ret ESP_FAIL
  else
    buf <- malloc ;;
    match buf with
    | None => httpd_resp_send_500 ;; ret ESP_FAIL
    | Some buf =>
        let res :=
          if negb (is_ok (url_query_str req))
             || negb (is_ok (fst (query_var req)))
             || negb (is_ok (fst (query_val req)))
          then ESP_FAIL else ESP_OK in
        free buf ;;
        if negb (is_ok res) then httpd_resp_send_404 ;; ret ESP_FAIL
        else
          s <- esp_camera_sensor_get ;;
          match s with
          | None => httpd_resp_send_500 ;; ret ESP_FAIL
          | Some s =>
              res <- apply_control s (snd (query_var req))
                                     (snd (query_val req)) ;;
              if negb (is_ok res) then httpd_resp_send_500 ;; ret ESP_FAIL
              else
                httpd_resp_set_hdr "Access-Control-Allow-Origin" "*" ;;
                httpd_resp_send None
          end
    end.

End Handlers.

Section Replies.
Context {P : platform} {E : env} {C : core}.
Local Open Scope board_scope.

Definition status_json (st : camera_status_t) (stream_delay : Z) : string :=
  ("{" ++ quoted "framesize" ++ ":" ++ fmt_u (framesize st) ++
   "," ++ quoted "framesize_name" ++ ":" ++
          quoted (framesize_name (framesize st)) ++
   "," ++ quoted "quality" ++ ":" ++ fmt_u (quality st) ++
   "," ++ quoted "stream_delay" ++ ":" ++ fmt_u stream_delay ++ "}")%string.

(** /status: minimal JSON status for UI *)
Definition status_handler : MB V11.globals esp_err_t :=
  s <- lift esp_camera_sensor_get ;;
  match s with
  | None => httpd_resp_send_500_code
  | Some s =>
      g <- getB ;;
      let '(json_response, len) :=
        snprintf 128 (status_json (status s) (V11.stream_delay_ms g)) in
      lift (httpd_resp_set_type "application/json") ;;
      lift (httpd_resp_set_hdr "Access-Control-Allow-Origin" "*") ;;
      httpd_resp_send_text json_response len
  end.

End Replies.
End Rest11.

(** ** The sketch of V1.2: [CameraWebServerV1.2.ino], lines 1 to 309 *)

Module Sketch.

Definition USER_LED_GPIO : Z := 21.
Definition LED_ON : level := LOW.
Definition LED_OFF : level := HIGH.

Inductive LedMode :=
| LED_MODE_CONNECTING      (* Slow blink (~500ms) *)
| LED_MODE_READY           (* Solid ON *)
| LED_MODE_ERROR.          (* Fast blink (~150-200ms) *)

(** The variables of the sketch; [server_started] is among the globals of
    the handlers, which set it. *)
Record state := {
  app : V12.globals;
  led_mode : LedMode;
  led_state : bool;
  last_led_toggle_ms : Z;
  camera_initialized : bool;
  wifi_connected : bool;
  wifi_connect_start_ms : Z
}.

Definition boot : state :=
  {| app := V12.boot; led_mode := LED_MODE_CONNECTING; led_state := false;
     last_led_toggle_ms := 0; camera_initialized := false;
     wifi_connected := false; wifi_connect_start_ms := 0 |}.

Definition WIFI_CONNECT_TIMEOUT_MS : Z := 30000.

Definition set_app (g : V12.globals) (s : state) : state :=
  {| app := g; led_mode := led_mode s; led_state := led_state s;
     last_led_toggle_ms := last_led_toggle_ms s;
     camera_initialized := camera_initialized s;
     wifi_connected := wifi_connected s;
     wifi_connect_start_ms := wifi_connect_start_ms s |}.
Definition set_led_mode (m : LedMode) (s : state) : state :=
  {| app := app s; led_mode := m; led_state := led_state s;
     last_led_toggle_ms := last_led_toggle_ms s;
     camera_initialized := camera_initialized s;
     wifi_connected := wifi_connected s;
     wifi_connect_start_ms := wifi_connect_start_ms s |}.
Definition set_led_state (on : bool) (s : state) : state :=
  {| app := app s; led_mode := led_mode s; led_state := on;
     last_led_toggle_ms := last_led_toggle_ms s;
     camera_initialized := camera_initialized s;
     wifi_connected := wifi_connected s;
     wifi_connect_start_ms := wifi_connect_start_ms s |}.
Definition set_last_led_toggle_ms (t : Z) (s : state) : state :=
  {| app := app s; led_mode := led_mode s; led_state := led_state s;
     last_led_toggle_ms := t;
     camera_initialized := camera_initialized s;
     wifi_connected := wifi_connected s;
     wifi_connect_start_ms := wifi_connect_start_ms s |}.
Definition set_camera_initialized (ok : bool) (s : state) : state :=
  {| app := app s; led_mode := led_mode s; led_state := led_state s;
     last_led_toggle_ms := last_led_toggle_ms s;
     camera_initialized := ok;
     wifi_connected := wifi_connected s;
     wifi_connect_start_ms := wifi_connect_start_ms s |}.
Definition set_wifi_connected (ok : bool) (s : state) : state :=
  {| app := app s; led_mode := led_mode s; led_state := led_state s;
     last_led_toggle_ms := last_led_toggle_ms s;
     camera_initialized := camera_initialized s;
     wifi_connected := ok;
     wifi_connect_start_ms := wifi_connect_start_ms s |}.
Definition set_wifi_connect_start_ms (t : Z) (s : state) : state :=
  {| app := app s; led_mode := led_mode s; led_state := led_state s;
     last_led_toggle_ms := last_led_toggle_ms s;
     camera_initialized := camera_initialized s;
     wifi_connected := wifi_connected s;
     wifi_connect_start_ms := t |}.

(** A computation of the handlers, run on the globals of the sketch. *)
Definition on_app {A} (m : M V12.globals A) : MB state A :=
  fun s b =>
    let '(a, g', w', t) := m (app s) (http b) in
    (a, set_app g' s, with_http b w', map Http t).

Section Code.
Context {P : platform} {E : env} {C : core}.
Local Open Scope board_scope.

Definition setLedMode (mode : LedMode) : MB state unit :=
  modifyB (set_led_mode mode) ;;
  now <- millis ;;
  modifyB (set_last_led_toggle_ms now) ;;
  (* Immediately set LED state based on mode *)
  match mode with
  | LED_MODE_READY =>
      digitalWrite USER_LED_GPIO LED_ON ;;
      modifyB (set_led_state true)
  | _ =>
      digitalWrite USER_LED_GPIO LED_OFF ;;
      modifyB (set_led_state false)
  end.

(** The end of [updateLed], after the [switch]:
    [if (now - last_led_toggle_ms >= interval_ms) ...] on
    [unsigned long]. *)
Definition blink (now interval_ms : Z) : MB state unit :=
  s <- getB ;;
  if interval_ms <=? to_uint32 (now - last_led_toggle_ms s) then
    modifyB (set_led_state (negb (led_state s))) ;;
    s <- getB ;;
    digitalWrite USER_LED_GPIO (if led_state s then LED_ON else LED_OFF) ;;
    modifyB (set_last_led_toggle_ms now)
  else retB tt.

Definition updateLed : MB state unit :=
  now <- millis ;;
  s <- getB ;;
  match led_mode s with
  | LED_MODE_CONNECTING => blink now 500      (* Slow blink *)
  | LED_MODE_READY => retB tt                 (* Solid ON *)
  | LED_MODE_ERROR => blink now 175           (* Fast blink *)
  end.

Definition applySensorDefaults (s : option sensor_t) : MB state unit :=
  match s with
  | None => retB tt
  | Some _ =>
      (* OV3660 specific defaults *)
      whenB (sensor_PID =? OV3660_PID)
        (sensor_call "set_vflip" set_vflip 0 ;;
         sensor_call "set_hmirror" set_hmirror 0 ;;
         sensor_tune brightness 0 ;;
         sensor_tune saturation 0) ;;
      (* Enable auto features for indoor use *)
      sensor_tune lenc 1 ;;
      sensor_tune whitebal 1 ;;
      sensor_tune awb_gain 1 ;;
      sensor_tune exposure_ctrl 1 ;;
      sensor_tune gain_ctrl 1 ;;
      sensor_tune special_effect 0 ;;
      sensor_tune colorbar 0
  end.

(** The configuration that [initCamera] hands to the driver. *)
Definition camera_config : camera_config_t :=
  let hasPsram := psramFound in
  {| xclk_freq_hz := 20000000;
     pixel_format := PIXFORMAT_JPEG;
     frame_size := FRAMESIZE_SVGA;
     fb_location := if hasPsram then CAMERA_FB_IN_PSRAM else CAMERA_FB_IN_DRAM;
     fb_count := if hasPsram then 2 else 1;
     jpeg_quality := if hasPsram then 12 else 16;
     grab_mode :=
       if hasPsram then CAMERA_GRAB_LATEST else CAMERA_GRAB_WHEN_EMPTY |}.

Definition initCamera : MB state bool :=
  Serial_println "Initializing camera..." ;;
  let config := camera_config in
  (if negb psramFound
   then Serial_println "WARNING: No PSRAM detected, using DRAM only"
   else Serial_println "PSRAM detected, using PSRAM for frame buffers") ;;
  err <- esp_camera_init config ;;
  if negb (is_ok err) then
    Serial_printf ("ERROR: Camera init failed with error 0x%x" ++ LF) [err] ;;
    retB false
  else
    s <- lift esp_camera_sensor_get ;;
    match s with
    | None =>
        Serial_println "ERROR: Failed to get camera sensor" ;;
        retB false
    | Some _ =>
        applySensorDefaults s ;;
        (* Ensure SVGA is set (may have been overridden by defaults) *)
        sensor_call "set_framesize" set_framesize FRAMESIZE_SVGA ;;
        sensor_call "set_quality" set_quality (jpeg_quality config) ;;
        Serial_println "Camera initialized successfully" ;;
        on_app Rest12.warmupCamera ;;
        retB true
    end.

Definition connectWiFi : MB state bool :=
  Serial_println "Starting WiFi connection..." ;;
  emitB (WiFiSetSleep false) ;;
  emitB WiFiModeSTA ;;
  emitB WiFiBegin ;;
  now <- millis ;;
  modifyB (set_wifi_connect_start_ms now) ;;
  modifyB (set_wifi_connected false) ;;
  retB true.

Definition checkWiFiStatus : MB state unit :=
  s <- getB ;;
  if wifi_connected s then
    (* Check if WiFi is still connected *)
    status <- WiFi_status ;;
    if negb (is_connected status) then
      Serial_println "WARNING: WiFi connection lost!" ;;
      modifyB (set_wifi_connected false) ;;
      modifyB (fun s => set_app (V12.set_server_started false (app s)) s) ;;
      setLedMode LED_MODE_ERROR
    else retB tt
  else
    status <- WiFi_status ;;
    match status with
    | WL_CONNECTED =>
        s <- getB ;;
        if negb (wifi_connected s) then
          modifyB (set_wifi_connected true) ;;
          ip <- WiFi_localIP ;;
          Serial_println EmptyString ;;
          Serial_println "WiFi connected!" ;;
          Serial_printf ("IP address: %d.%d.%d.%d" ++ LF) ip ;;
          rssi <- WiFi_RSSI ;;
          Serial_printf ("RSSI: %d dBm" ++ LF) [rssi]
        else retB tt
    | WL_CONNECT_FAILED | WL_NO_SSID_AVAIL =>
        (* Connection failed, check timeout *)
        now <- millis ;;
        s <- getB ;;
        if WIFI_CONNECT_TIMEOUT_MS <? to_uint32 (now - wifi_connect_start_ms s)
        then
          Serial_println "ERROR: WiFi connection timeout" ;;
          setLedMode LED_MODE_ERROR
        else retB tt
    | _ =>
        (* Still connecting *)
        now <- millis ;;
        s <- getB ;;
        let elapsed := to_uint32 (now - wifi_connect_start_ms s) in
        if elapsed mod 2000 <? 100 then Serial_print "." else retB tt
    end.

Definition setup : MB state unit :=
  emitB (SerialBegin 115200) ;;
  emitB (SerialSetDebugOutput false) ;;
  delay 100 ;;
  Serial_println EmptyString ;;
  Serial_println "========================================" ;;
  Serial_println "XIAO ESP32-S3 Sense Camera Web Server" ;;
  Serial_println "Board: Seeed Studio XIAO ESP32-S3 Sense" ;;
  Serial_println "Camera: OV3660" ;;
  Serial_println "Use case: Duet 2 WiFi 3D printer monitor" ;;
  Serial_println "========================================" ;;
  (* Initialize user LED (GPIO21, active LOW) *)
  pinModeOutput USER_LED_GPIO ;;
  setLedMode LED_MODE_CONNECTING ;;
  Serial_println "User LED initialized (GPIO21, active LOW)" ;;
  ok <- initCamera ;;
  modifyB (set_camera_initialized ok) ;;
  if negb ok then
    Serial_println
      "FATAL: Camera initialization failed, entering error state" ;;
    setLedMode LED_MODE_ERROR
  else
    connectWiFi ;;
    retB tt.

(** The report of [loop] after a start that succeeded. *)
Definition report_ready : MB state unit :=
  Serial_println "HTTP server started successfully" ;;
  Serial_print "Camera Ready! Use 'http://" ;;
  ip <- WiFi_localIP ;;
  emitB (SerialPrintIP ip) ;;
  Serial_println "/' to connect" ;;
  Serial_println EmptyString ;;
  Serial_println "=== DUET WEB CONTROL (DWC) CONFIGURATION ===" ;;
  Serial_print "DWC Webcam URL: http://" ;;
  ip <- WiFi_localIP ;;
  emitB (SerialPrintIP ip) ;;
  Serial_println ":81/snapshot" ;;
  Serial_println
    "Note: /snapshot is on port 81 (separate from UI on port 80)" ;;
  Serial_println "=============================================".

(** "Start HTTP server once WiFi is connected": the body of the [if] of
    [loop]. *)
Definition start_server : MB state unit :=
  Serial_println "Starting HTTP server..." ;;
  on_app V12.startCameraServer ;;
  s <- getB ;;
  if V12.server_started (app s) then
    report_ready ;;
    setLedMode LED_MODE_READY
  else
    Serial_println "ERROR: Failed to start HTTP server" ;;
    setLedMode LED_MODE_ERROR.

Definition loop : MB state unit :=
  updateLed ;;
  checkWiFiStatus ;;
  s <- getB ;;
  whenB (wifi_connected s && camera_initialized s
         && negb (V12.server_started (app s)))
    start_server ;;
  (* Small delay to prevent watchdog issues *)
  delay 10.

(** [n] passes of [loop]. *)
Fixpoint loops (n : nat) : MB state unit :=
  match n with
  | O => retB tt
  | S k => loop ;; loops k
  end.

End Code.
End Sketch.

(** The events of the warm-up pass that makes the [k]-th acquisition after
    the world [w]: a frame goes back to the pool at once and is followed by
    a wait of 100 ms, a failed acquisition is followed by nothing. *)
Definition warm_pass {P : platform} {E : env} (w : io) (k : nat) : list event :=
  match attempt w k with
  | Some fb =>
      [EvFbGet (Some fb); EvFbReturn fb;
       EvDelay (Z.quot 100 portTICK_PERIOD_MS)]
  | None => [EvFbGet None]
  end.

(** An acquisition that yielded a frame. *)
Definition is_frame (e : event) : bool :=
  match e with EvFbGet (Some _) => true | _ => false end.

(** The chunks that a trace handed to the connection, with the answers. *)
Definition chunks_sent (t : list event) : list (chunk * esp_err_t) :=
  flat_map (fun e => match e with
                     | EvSendChunk c r => [(c, r)]
                     | _ => [] end) t.

(** The chunks of one part of the V1.2 stream: the boundary marker, the
    part header for [len] bytes captured at [ts], and the [len] bytes at
    [p], which are left out when there are none. *)
Definition part_chunks (len : Z) (ts : timeval) (p : buf_ptr) : list chunk :=
  [ChunkText V12._STREAM_BOUNDARY;
   ChunkText (V12._STREAM_PART len (tv_sec ts) (tv_usec ts))] ++
  (if len =? 0 then [] else [ChunkData (Some p) len]).

(** The JPEG image that the next iteration of the stream loop has to send
    in the world [w], if the camera and the encoder yield one: its length,
    where it lies and when it was captured. *)
Definition next_image {E : env} (w : io) : option (Z * timeval * buf_ptr) :=
  match attempt w 0 with
  | None => None
  | Some fb =>
      if is_jpeg (fb_format fb)
      then Some (fb_len fb, fb_timestamp fb, FbBuf (fb_id fb))
      else
        match jpg_out (enc_feed (encs w)) with
        | Some len =>
            if jpg_converted (enc_feed (encs w)) && negb (to_uint32 len =? 0)
            then Some (to_uint32 len, fb_timestamp fb, HeapBuf (encs w))
            else None
        | None => None
        end
  end.

(** The first [n] of the chunks [cs] were accepted, and the next one, if
    there is one among [cs], as [last] says. *)
Definition accepted_then (cs : list chunk) (n : nat) (last : option esp_err_t)
    : list (chunk * esp_err_t) :=
  map (fun c => (c, ESP_OK)) (firstn n cs) ++
  match last, nth_error cs n with
  | Some r, Some c => [(c, r)]
  | _, _ => []
  end.

(** The value of the setting [k] in a status block and a stream delay. *)
Definition config_value (k : setting) (st : camera_status_t) (delay : Z) : Z :=
  match k with
  | Framesize => framesize st
  | Quality => quality st
  | StreamDelay => delay
  | VFlip => vflip st
  | HMirror => hmirror st
  end.

Definition setting_eqb (a b : setting) : bool :=
  match a, b with
  | Framesize, Framesize | Quality, Quality | StreamDelay, StreamDelay
  | VFlip, VFlip | HMirror, HMirror => true
  | _, _ => false
  end.

(** A reply with an error status, on the board. *)
Definition is_error_act (a : act) : bool :=
  match a with
  | Send500 _ => true
  | Http e => is_error_reply e
  | _ => false
  end.

Definition count_acts (f : act -> bool) (t : list act) : nat :=
  List.length (filter f t).

(** /control with the request [req], then /status. *)
Definition control_then_status {P : platform} {E : env} {C : core}
    (req : httpd_req_t) : MB V12.globals esp_err_t :=
  bindB (lift (V12.cmd_handler req)) (fun _ => Rest12.status_handler).

(** The level of the LED pin after the trace [t], from the level [lv]
    before it. *)
Fixpoint led_pin (t : list act) (lv : level) : level :=
  match t with
  | [] => lv
  | DigitalWrite pin l :: rest =>
      led_pin rest (if pin =? Sketch.USER_LED_GPIO then l else lv)
  | _ :: rest => led_pin rest lv
  end.

(** The LED is lit when its pin is low. *)
Definition led_lit (lv : level) : bool :=
  match lv with LOW => true | HIGH => false end.

(** The variable [led_state] says what the pin shows, and a sketch that is
    in the mode READY has the LED lit. *)
Definition led_ok (s : Sketch.state) (lv : level) : Prop :=
  Sketch.led_state s = led_lit lv /\
  (Sketch.led_mode s = Sketch.LED_MODE_READY -> Sketch.led_state s = true).

(** The half period of the blinking in a mode; READY does not blink. *)
Definition blink_interval (m : Sketch.LedMode) : option Z :=
  match m with
  | Sketch.LED_MODE_CONNECTING => Some 500
  | Sketch.LED_MODE_READY => None
  | Sketch.LED_MODE_ERROR => Some 175
  end.

Definition is_pin_write (a : act) : bool :=
  match a with DigitalWrite _ _ => true | _ => false end.

(** A computation of the sketch that keeps [led_ok], and one that leaves
    the LED alone: its mode, its variable and its pin. *)
Definition keeps_led {A} (m : MB Sketch.state A) : Prop :=
  forall s b lv,
    led_ok s lv -> led_ok (state_of (m s b)) (led_pin (acts_of (m s b)) lv).

Definition leaves_led {A} (m : MB Sketch.state A) : Prop :=
  forall s b,
    Sketch.led_state (state_of (m s b)) = Sketch.led_state s /\
    Sketch.led_mode (state_of (m s b)) = Sketch.led_mode s /\
    forall lv, led_pin (acts_of (m s b)) lv = lv.

(** Power-up: [setup], then [n] passes of [loop]. *)
Definition power_up {P : platform} {E : env} {C : core} (n : nat)
    : MB Sketch.state unit :=
  bindB Sketch.setup (fun _ => Sketch.loops n).

(** A driver that accepts every frame size and quality. *)
Definition obliging (s : sensor_t) : Prop :=
  forall st v,
    is_ok (fst (set_framesize s st v)) = true /\
    is_ok (fst (set_quality s st v)) = true.

Definition is_camera_init (a : act) : bool :=
  match a with CameraInit _ _ => true | _ => false end.

(** A call of a setter of the sensor. *)
Definition is_sensor_act (a : act) : bool :=
  match a with SensorSet _ _ _ | SensorTune _ _ => true | _ => false end.

Definition is_wifi_begin (a : act) : bool :=
  match a with WiFiBegin => true | _ => false end.
(** A computation that only talks to the sensor behind the handle: it
    leaves the variables of the sketch and the other streams alone, the
    sensor keeps its setters and gets some status, and every call it
    makes is a call of a setter. *)
Definition tunes_only {A} (m : MB Sketch.state A) : Prop :=
  forall s b s1,
    sensor (http b) = Some s1 ->
    exists st,
      state_of (m s b) = s /\
      board_of (m s b) =
        with_http b (with_sensor (http b) (Some (with_status s1 st))) /\
      forallb is_sensor_act (acts_of (m s b)) = true.
(** A computation of the sketch that makes no call of the kind [f]. *)
Definition never (f : act -> bool) {A} (m : MB Sketch.state A) : Prop :=
  forall s b, filter f (acts_of (m s b)) = [].
(** ** Sample cores and states of the sketch, for concrete runs *)

(** A core whose clock advances by 100 ms with every call, with the WiFi
    connected and a camera driver that comes up with [plain_sensor]. *)
Definition bench : core :=
  {| millis_feed := fun n => 100 * Z.of_nat n;
     wifi_feed := fun _ => WL_CONNECTED;
     rssi_feed := fun _ => -60;
     ip_feed := fun _ => [192; 168; 1; 50];
     camera_init_feed := fun _ => (ESP_OK, Some plain_sensor);
     knob_feed := fun _ st _ => st;
     sensor_PID := 13920;
     OV3660_PID := 13920 |}.

Definition with_millis (C : core) (f : nat -> Z) : core :=
  {| millis_feed := f; wifi_feed := @wifi_feed C; rssi_feed := @rssi_feed C;
     ip_feed := @ip_feed C; camera_init_feed := @camera_init_feed C;
     knob_feed := @knob_feed C; sensor_PID := @sensor_PID C;
     OV3660_PID := @OV3660_PID C |}.

Definition with_wifi (C : core) (f : nat -> wl_status_t) : core :=
  {| millis_feed := @millis_feed C; wifi_feed := f; rssi_feed := @rssi_feed C;
     ip_feed := @ip_feed C; camera_init_feed := @camera_init_feed C;
     knob_feed := @knob_feed C; sensor_PID := @sensor_PID C;
     OV3660_PID := @OV3660_PID C |}.

Definition with_camera (C : core)
    (f : nat -> esp_err_t * option sensor_t) : core :=
  {| millis_feed := @millis_feed C; wifi_feed := @wifi_feed C;
     rssi_feed := @rssi_feed C; ip_feed := @ip_feed C;
     camera_init_feed := f; knob_feed := @knob_feed C;
     sensor_PID := @sensor_PID C; OV3660_PID := @OV3660_PID C |}.

(** The clock shows 400 ms, shortly after it wrapped. *)
Definition after_wrap : core := with_millis bench (fun _ => 400).

(** The access point is gone. *)
Definition wifi_lost : core := with_wifi bench (fun _ => WL_CONNECTION_LOST).

(** The connection attempt failed, and 31 s have passed. *)
Definition wifi_refused : core :=
  with_wifi (with_millis bench (fun _ => 31000)) (fun _ => WL_CONNECT_FAILED).

(** The camera driver does not come up. *)
Definition no_camera : core :=
  with_camera bench (fun _ => (ESP_FAIL, None)).

(** The sketch while it serves. *)
Definition serving : Sketch.state :=
  {| Sketch.app :=
       V12.set_server_started true
         (V12.set_snapshot_httpd (Some 1%nat)
            (V12.set_camera_httpd (Some 0%nat) V12.boot));
     Sketch.led_mode := Sketch.LED_MODE_READY;
     Sketch.led_state := true;
     Sketch.last_led_toggle_ms := 5000;
     Sketch.camera_initialized := true;
     Sketch.wifi_connected := true;
     Sketch.wifi_connect_start_ms := 1000 |}.

(** The sketch after the WiFi was lost: the servers exist, the flag is
    down. *)
Definition cut_off : Sketch.state :=
  {| Sketch.app := V12.set_server_started false (Sketch.app serving);
     Sketch.led_mode := Sketch.LED_MODE_ERROR;
     Sketch.led_state := false;
     Sketch.last_led_toggle_ms := 9000;
     Sketch.camera_initialized := true;
     Sketch.wifi_connected := false;
     Sketch.wifi_connect_start_ms := 1000 |}.

(** The sketch after a [setup] that went well. *)
Definition set_up : Sketch.state :=
  Sketch.set_camera_initialized true Sketch.boot.

(** The LED was toggled 200 ms before the clock wraps. *)
Definition before_wrap : Sketch.state :=
  Sketch.set_last_led_toggle_ms 4294967096 Sketch.boot.

(** ** The wire of the encoder callback *)

(** What an encoder that has the chunks [chunks] puts on the wire through
    the callback of [capture_handler], the connection answering from its
    [k]-th answer on, and whether it got through all of them: it hands
    every chunk to the connection, and one that gives up stops after the
    first chunk that was refused or is empty. *)
Fixpoint encoder_chunks {E : env} (gives_up : bool) (chunks : list Z)
    (k : nat) : list event * bool :=
  match chunks with
  | [] => ([], true)
  | len :: rest =>
      let r := net_feed k in
      let sent := EvSendChunk (ChunkEncoded len) r in
      if (negb (is_ok r) || (len =? 0)) && gives_up then ([sent], false)
      else
        let '(t, through) := encoder_chunks gives_up rest (S k) in
        (sent :: t, through)
  end.

(** The camera is out for eleven acquisitions, delivers a frame, fails
    once more, and delivers from then on. *)
Definition camera_out_then_one_frame : env :=
  with_cam calm
    (fun n => if Nat.ltb n 11 then None
              else if Nat.eqb n 12 then None else Some jpeg_frame).

(** ** The sketch of V1.1 *)

Module Sketch11.

(** How a run of [setup] ends: it returns; or it dereferences a null
    pointer, which stops the sketch; or it is still waiting for the WiFi
    when the run is cut off. *)
Inductive ending := Returned | Faulted | Waiting.

Section Code.
Context {P : platform} {E : env} {C : core}.
(** [FRAMESIZE_UXGA] of [sensor.h], and [LED_GPIO_NUM] of
    [board_config.h] ([None]: the board does not define it). *)
Variable FRAMESIZE_UXGA : Z.
Variable LED_GPIO_NUM : option Z.
Local Open Scope board_scope.

Definition applySensorDefaults (s : option sensor_t)
    : MB V11.globals unit :=
  match s with
  | None => retB tt
  | Some _ =>
      whenB (sensor_PID =? OV3660_PID)
        (sensor_call "set_vflip" set_vflip 1 ;;
         sensor_tune brightness 0 ;;
         sensor_tune saturation 0) ;;
      sensor_tune lenc 1 ;;
      sensor_tune whitebal 1 ;;
      sensor_tune awb_gain 1 ;;
      sensor_tune exposure_ctrl 1 ;;
      sensor_tune gain_ctrl 1 ;;
      sensor_tune special_effect 0 ;;
      sensor_tune colorbar 0
  end.

(** The configuration that [setup] hands to the driver. *)
Definition camera_config : camera_config_t :=
  let hasPsram := psramFound in
  {| xclk_freq_hz := 20000000;
     pixel_format := PIXFORMAT_JPEG;
     frame_size := if negb hasPsram then FRAMESIZE_SVGA else FRAMESIZE_UXGA;
     fb_location := if hasPsram then CAMERA_FB_IN_PSRAM else CAMERA_FB_IN_DRAM;
     fb_count := if hasPsram then 2 else 1;
     jpeg_quality := if hasPsram then 12 else 16;
     grab_mode :=
       if hasPsram then CAMERA_GRAB_LATEST else CAMERA_GRAB_WHEN_EMPTY |}.

(** [setupLedFlash] of [app_httpd.cpp] *)
Definition setupLedFlash : MB V11.globals unit :=
  match LED_GPIO_NUM with
  | Some pin => emitB (LedcAttach pin 5000 8)
  | None => lift (log "LED flash is disabled -> LED_GPIO_NUM undefined")
  end.

(** [while (WiFi.status() != WL_CONNECTED) { delay(500); ... }]: whether
    the WiFi connected within [fuel] polls. *)
Fixpoint wait_for_wifi (fuel : nat) : MB V11.globals bool :=
  match fuel with
  | O => retB false
  | S fuel' =>
      st <- WiFi_status ;;
      if negb (is_connected st) then
        delay 500 ;;
        Serial_print "." ;;
        wait_for_wifi fuel'
      else retB true
  end.

Definition setup (fuel : nat) : MB V11.globals ending :=
  emitB (SerialBegin 115200) ;;
  emitB (SerialSetDebugOutput false) ;;
  Serial_println EmptyString ;;
  Serial_println "Booting XIAO ESP32S3 camera..." ;;
  let config := camera_config in
  err <- esp_camera_init config ;;
  if negb (is_ok err) then
    Serial_printf "Camera init failed with error 0x%x" [err] ;;
    retB Returned
  else
    s <- lift esp_camera_sensor_get ;;
    applySensorDefaults s ;;
    match s with
    | None => retB Faulted      (* [s->set_framesize] through a null [s] *)
    | Some _ =>
        (* Default to SVGA for smooth streaming *)
        sensor_call "set_framesize" set_framesize FRAMESIZE_SVGA ;;
        sensor_call "set_quality" set_quality (jpeg_quality config) ;;
        whenB (is_some LED_GPIO_NUM) setupLedFlash ;;
        emitB (WiFiSetSleep false) ;;
        emitB WiFiBegin ;;
        Serial_print "WiFi connecting" ;;
        connected <- wait_for_wifi fuel ;;
        if negb connected then retB Waiting
        else
          Serial_println EmptyString ;;
          Serial_println "WiFi connected" ;;
          lift V11.startCameraServer ;;
          Serial_print "Camera Ready! Use 'http://" ;;
          ip <- WiFi_localIP ;;
          emitB (SerialPrintIP ip) ;;
          Serial_println "/' to connect" ;;
          retB Returned
    end.

(** Web server tasks handle all work; keep loop light. *)
Definition loop : MB V11.globals unit := delay 1000.

Fixpoint loops (n : nat) : MB V11.globals unit :=
  match n with
  | O => retB tt
  | S k => loop ;; loops k
  end.

(** Power-up: [setup], and [n] passes of [loop] when it returned. *)
Definition power_up (fuel n : nat) : MB V11.globals ending :=
  e <- setup fuel ;;
  match e with
  | Returned => loops n ;; retB Returned
  | _ => retB e
  end.

End Code.
End Sketch11.

(** A computation on the board that makes no call of the HTTP server or
    the handlers and leaves their globals alone. *)
Definition off_http {G A} (m : MB G A) : Prop :=
  forall g b, http_events (acts_of (m g b)) = [] /\ state_of (m g b) = g.
(** A run on the board that made no call of the HTTP server, or the one
    call of [startCameraServer] of V1.1 on the globals [g], and nothing
    else with the handlers or their globals. *)
Definition starts_once_from {A} (g : V11.globals) {E : env}
    (r : A * V11.globals * board * list act) : Prop :=
  (http_events (acts_of r) = [] /\ state_of r = g) \/
  exists w,
    http_events (acts_of r) = trace_of (V11.startCameraServer g w) /\
    state_of r = globals_of (V11.startCameraServer g w).

(** ** Basic facts *)

Lemma audit_app t1 t2 L :
  audit (t1 ++ t2) L =
  match audit t1 L with Some L' => audit t2 L' | None => None end.
Proof.
  revert L; induction t1 as [|e t1 IH]; intros L; simpl; [reflexivity|].
  destruct (audit_event e L); [apply IH | reflexivity].
Qed.

Lemma count_events_app f t1 t2 :
  count_events f (t1 ++ t2) = (count_events f t1 + count_events f t2)%nat.
Proof. unfold count_events. now rewrite filter_app, length_app. Qed.

Lemma accepted_or_refused t :
  (accepted_boundaries t <= boundaries t <=
   accepted_boundaries t + failed_sends t)%nat.
Proof.
  unfold accepted_boundaries, boundaries, failed_sends, count_events,
    is_accepted_boundary.
  induction t as [|e t IH]; cbn [filter List.length]; [lia|].
  destruct (is_boundary e), (is_failed_send e); cbn [andb negb List.length];
    lia.
Qed.

Lemma scan_parts_app t1 t2 s :
  scan_parts (t1 ++ t2) s = scan_parts t2 (scan_parts t1 s).
Proof. revert s; induction t1 as [|e t1 IH]; intros s; simpl; auto. Qed.

Lemma is_ok_true r : is_ok r = true -> r = ESP_OK.
Proof. unfold is_ok. intros H. now apply Z.eqb_eq. Qed.

Lemma is_ok_false r : is_ok r = false -> r <> ESP_OK.
Proof. unfold is_ok. intros H. now apply Z.eqb_neq. Qed.

(** *** The part header always fits [part_buf] *)

Lemma append_length (a b : string) :
  String.length (a ++ b) = (String.length a + String.length b)%nat.
Proof. induction a as [|c a IH]; simpl; [reflexivity | now rewrite IH]. Qed.

Lemma udec_length fuel n : (String.length (udec fuel n) <= S fuel)%nat.
Proof.
  revert n; induction fuel as [|k IH]; intros n; simpl; [lia|].
  destruct (n <? 10); simpl; [lia|].
  rewrite append_length; simpl. specialize (IH (n / 10)). lia.
Qed.

Lemma udec_length_pos fuel n : (1 <= String.length (udec fuel n))%nat.
Proof.
  destruct fuel as [|k]; simpl; [lia|].
  destruct (n <? 10); simpl; [lia|]. rewrite append_length; simpl; lia.
Qed.

Lemma zeros_length n : String.length (zeros n) = n.
Proof. induction n as [|k IH]; simpl; [reflexivity | now rewrite IH]. Qed.

Lemma fmt_u_length n : (String.length (fmt_u n) <= 10)%nat.
Proof. unfold fmt_u. apply udec_length. Qed.

Lemma fmt_d_width_length width n :
  (String.length (fmt_d_width width n) <= Nat.max width 11)%nat.
Proof.
  unfold fmt_d_width.
  pose proof (udec_length 9 (Z.abs (to_int32 n))) as Hd.
  revert Hd. generalize (udec 9 (Z.abs (to_int32 n))). intros digits Hd.
  rewrite !append_length, zeros_length.
  destruct (to_int32 n <? 0); cbn [String.length]; lia.
Qed.

Lemma part_header_fits len sec usec :
  (Z.of_nat (String.length (V12._STREAM_PART len sec usec))
     <? V12.sizeof_part_buf) = true.
Proof.
  apply Z.ltb_lt. unfold V12._STREAM_PART, V12.sizeof_part_buf.
  pose proof (fmt_u_length len) as Hu.
  pose proof (fmt_d_width_length 0 sec) as Hs.
  pose proof (fmt_d_width_length 6 usec) as Hm.
  unfold fmt_d, fmt_06d. revert Hu Hs Hm.
  generalize (fmt_u len) (fmt_d_width 0 sec) (fmt_d_width 6 usec).
  intros u s m Hu Hs Hm.
  rewrite !append_length. cbn [String.length CRLF]. lia.
Qed.

(** The part header is not a boundary marker. *)
Lemma part_header_not_boundary len sec usec :
  String.eqb (V12._STREAM_PART len sec usec) V12._STREAM_BOUNDARY = false.
Proof. reflexivity. Qed.

(** ** The loop body of the V1.2 stream handler, case by case *)

Ltac run_m :=
  cbv beta iota zeta delta
    [V12.stream_iteration V12.send_part V12.cleanup bind ret emit
     esp_camera_fb_get esp_camera_fb_return free frame2jpg
     httpd_resp_send_chunk httpd_resp_send httpd_resp_set_type
     httpd_resp_set_hdr httpd_resp_send_404 httpd_resp_send_500 vTaskDelay
     log malloc esp_camera_sensor_get sensor_set httpd_start
     httpd_register_uri_handler get_globals put_globals V12.modify
     when_some trace_of result globals_of world_of locals_of is_break
     option_map fst snd is_some negb orb andb
     V12.fb V12._jpg_buf V12.res V12._jpg_buf_len V12._timestamp
     jpg_converted jpg_out];
  cbn [app].

Ltac split_match :=
  match goal with
  | |- context [match ?x with _ => _ end] =>
      lazymatch x with
      | context [match _ with _ => _ end] => fail
      | _ => destruct x eqn:?
      end
  end.

Ltac use_tests :=
  repeat match goal with
         | H : is_ok _ = _ |- _ => rewrite H
         | H : is_jpeg _ = _ |- _ => rewrite H
         | H : (_ =? _) = _ |- _ => rewrite H
         end.

(** Runs the loop body on locals at the loop head, one goal per path. *)
Lemma is_ok_OK : is_ok ESP_OK = true.
Proof. reflexivity. Qed.

Lemma is_ok_FAIL : is_ok ESP_FAIL = false.
Proof. reflexivity. Qed.

Ltac tidy := run_m; rewrite ?part_header_fits, ?is_ok_OK, ?is_ok_FAIL; run_m.

Ltac run_iteration :=
  tidy; repeat (split_match; tidy); try discriminate.

Ltac at_loop_head l H :=
  destruct l as [? ? ? ? ?]; unfold loop_head in H; simpl in H;
  destruct H as [-> [-> ->]].

Section Iteration.
Context {P : platform} {E : env}.
Variables (l : V12.locals) (g : V12.globals) (w : io).
Hypothesis Hhead : loop_head l.

Lemma iteration_audit L :
  audit (trace_of (V12.stream_iteration l g w)) L = Some L.
Proof.
  at_loop_head l Hhead. run_iteration.
  all: cbn [audit audit_event option_map take_out fb_id mk_fb held live
            buf_ptr_eqb]; rewrite ?Nat.eqb_refl.
  all: cbn [audit audit_event option_map take_out fb_id mk_fb held live
            buf_ptr_eqb]; rewrite ?Nat.eqb_refl; cbn [option_map audit].
  all: destruct L; reflexivity.
Qed.

Lemma iteration_locals :
  let c := result (V12.stream_iteration l g w) in
  V12.fb (locals_of c) = None /\ V12._jpg_buf (locals_of c) = None /\
  (if is_break c then V12.res (locals_of c) <> ESP_OK
   else V12.res (locals_of c) = ESP_OK).
Proof.
  at_loop_head l Hhead. run_iteration.
  all: repeat split; try reflexivity; try discriminate.
  all: try (apply is_ok_false; assumption).
  all: try (apply is_ok_true; assumption).
Qed.

Lemma iteration_boundaries :
  boundaries (trace_of (V12.stream_iteration l g w)) =
  ready_frames (trace_of (V12.stream_iteration l g w)).
Proof.
  at_loop_head l Hhead. run_iteration.
  all: unfold boundaries, ready_frames, count_events.
  all: cbn [filter is_boundary is_ready_frame encode_ok List.length];
    rewrite ?part_header_not_boundary, ?String.eqb_refl; use_tests.
  all: cbn [filter is_boundary is_ready_frame encode_ok List.length negb andb].
  all: reflexivity.
Qed.

Lemma iteration_parts s :
  (whole_parts (scan_parts (trace_of (V12.stream_iteration l g w)) s)
   + failed_sends (trace_of (V12.stream_iteration l g w)) =
   whole_parts s + boundaries (trace_of (V12.stream_iteration l g w)))%nat.
Proof.
  at_loop_head l Hhead. destruct s as [n open]. run_iteration.
  all: unfold boundaries, failed_sends, count_events.
  all: repeat (progress
         (cbn [scan_parts scan_part filter is_boundary is_failed_send
               List.length negb whole_parts];
          rewrite ?part_header_not_boundary, ?String.eqb_refl; use_tests)).
  all: destruct open; lia.
Qed.

(** The three guards, read off the events of the iteration. *)
Lemma iteration_exit :
  let r := V12.stream_iteration l g w in
  (failed_sends (trace_of r) <= 1)%nat /\
  (is_break (result r) = true <->
     failed_sends (trace_of r) = 1%nat \/
     (count_events is_failed_get (trace_of r) = 1%nat /\
      10 < V12.error_count (globals_of r)) \/
     count_events is_failed_encode (trace_of r) = 1%nat).
Proof.
  at_loop_head l Hhead. run_iteration.
  all: unfold failed_sends, count_events.
  all: cbn [filter is_failed_send is_failed_get is_failed_encode encode_ok
            List.length V12.error_count V12.set_error_count]; use_tests.
  all: cbn [filter List.length negb andb].
  all: split; [lia|].
  all: split; [try discriminate | intros [H | [[H1 H2] | H]]; try discriminate;
                                   try reflexivity; try lia ].
  all: try (intros _; auto; fail).
  all: try (intros _; right; left; split; [reflexivity|];
            match goal with H : (10 <? _) = true |- _ =>
              cbn [V12.error_count V12.set_error_count] in H;
              apply Z.ltb_lt; exact H end).
  all: match goal with
       | H : (10 <? _) = false |- _ =>
           cbn [V12.error_count V12.set_error_count] in H;
           apply Z.ltb_ge in H; lia
       end.
Qed.

(** What the counter of acquisition failures is after the iteration. *)
Lemma iteration_counter :
  globals_of (V12.stream_iteration l g w) =
  V12.set_error_count
    (match cam_feed (gets w) with
     | Some _ => 0
     | None => to_uint32 (V12.error_count g + 1)
     end) g.
Proof. at_loop_head l Hhead. run_iteration; reflexivity. Qed.

(** The exit code: [ESP_FAIL] on the acquisition and the encoder guard,
    the answer of the refused chunk on the send guard. *)
Lemma iteration_code :
  let r := V12.stream_iteration l g w in
  is_break (result r) = true ->
  (failed_sends (trace_of r) = 0%nat /\
   V12.res (locals_of (result r)) = ESP_FAIL) \/
  (exists c, In (EvSendChunk c (V12.res (locals_of (result r))))
                (trace_of r)).
Proof.
  at_loop_head l Hhead. run_iteration.
  all: intros H; try discriminate H.
  all: try (left; split; [|reflexivity]; unfold failed_sends, count_events;
            cbn [filter is_failed_send List.length]; reflexivity).
  all: right; eexists; cbn [In]; eauto 10.
Qed.

(** The iteration makes one acquisition, first of all. *)
Lemma iteration_head :
  exists d,
    trace_of (V12.stream_iteration l g w) =
    EvFbGet (option_map (mk_fb (gets w)) (cam_feed (gets w))) :: d /\
    count_events is_fb_get d = 0%nat.
Proof.
  at_loop_head l Hhead. run_iteration.
  all: eexists; split; [reflexivity|].
  all: reflexivity.
Qed.

(** Pacing: an iteration that got a frame and goes on ends in the
    inter-frame delay, whatever its value. *)
Lemma iteration_pacing :
  let r := V12.stream_iteration l g w in
  is_break (result r) = false ->
  cam_feed (gets w) <> None ->
  exists d,
    trace_of r =
    d ++ [EvDelay (Z.quot (V12.stream_delay_ms g) portTICK_PERIOD_MS)] /\
    Forall (fun e => match e with EvDelay _ => False | _ => True end) d.
Proof.
  at_loop_head l Hhead. run_iteration.
  all: intros H Hc; try discriminate H; try congruence.
  all: match goal with
       | |- exists d, ?a :: ?t = _ /\ _ =>
           exists (removelast (a :: t))
       end.
  all: cbn [removelast app V12.stream_delay_ms V12.set_error_count].
  all: split; [reflexivity|].
  all: repeat constructor.
Qed.

(** A failed acquisition below the threshold waits 50 ms and retries. *)
Lemma iteration_retry :
  let r := V12.stream_iteration l g w in
  is_break (result r) = false ->
  cam_feed (gets w) = None ->
  trace_of r = [EvFbGet None; EvDelay (Z.quot 50 portTICK_PERIOD_MS)].
Proof.
  at_loop_head l Hhead. run_iteration.
  all: intros H Hc; try discriminate H; try congruence.
Qed.

(** The encoder is called on frames that are not JPEG only. *)
Lemma iteration_encoder :
  Forall (fun fb => is_jpeg (fb_format fb) = false)
         (encoded_frames (trace_of (V12.stream_iteration l g w))).
Proof.
  at_loop_head l Hhead. run_iteration.
  all: cbn [encoded_frames flat_map app]; repeat constructor; assumption.
Qed.

Lemma iteration_cursor :
  gets (world_of (V12.stream_iteration l g w)) = S (gets w).
Proof. at_loop_head l Hhead. run_iteration; reflexivity. Qed.

(** The acquisition guard stops the loop right after the failed
    acquisition. *)
Lemma iteration_abort :
  let r := V12.stream_iteration l g w in
  is_break (result r) = true ->
  count_events is_failed_get (trace_of r) = 1%nat ->
  trace_of r = [EvFbGet None].
Proof.
  at_loop_head l Hhead. run_iteration.
  all: intros H1 H2; try discriminate H1; try reflexivity.
  all: unfold count_events in H2; cbn [filter is_failed_get List.length] in H2.
  all: discriminate H2.
Qed.

(** An iteration that goes on saw no refused chunk and no failed
    encoding; one that stops saw at most one of each. *)
Lemma iteration_quiet :
  let r := V12.stream_iteration l g w in
  (failed_sends (trace_of r) <= 1)%nat /\
  (count_events is_failed_encode (trace_of r) <= 1)%nat /\
  (is_break (result r) = false ->
   failed_sends (trace_of r) = 0%nat /\
   count_events is_failed_encode (trace_of r) = 0%nat).
Proof.
  at_loop_head l Hhead. run_iteration.
  all: unfold failed_sends, count_events.
  all: cbn [filter is_failed_send is_failed_get is_failed_encode encode_ok
            List.length]; use_tests.
  all: cbn [filter List.length negb andb].
  all: repeat split; try lia; try discriminate.
Qed.

End Iteration.

(** ** The loop of the V1.2 stream handler *)

Section Loop.
Context {P : platform} {E : env}.

Lemma loop_entry_head : loop_head loop_entry.
Proof. repeat split. Qed.

Lemma stream_loop_S fuel l g w :
  V12.stream_loop (S fuel) l g w =
  let r := V12.stream_iteration l g w in
  match result r with
  | V12.Break l' => (Some l', globals_of r, world_of r, trace_of r ++ [])
  | V12.Continue l' =>
      let r' := V12.stream_loop fuel l' (globals_of r) (world_of r) in
      (result r', globals_of r', world_of r', trace_of r ++ trace_of r')
  end.
Proof.
  cbn [V12.stream_loop]. unfold bind.
  destruct (V12.stream_iteration l g w) as [[[c g1] w1] d].
  destruct c as [l'|l']; cbn; [|reflexivity].
  destruct (V12.stream_loop fuel l' g1 w1) as [[[o g2] w2] t]. reflexivity.
Qed.

Lemma continue_head l g w l' :
  loop_head l ->
  result (V12.stream_iteration l g w) = V12.Continue l' -> loop_head l'.
Proof.
  intros Hl Hc. pose proof (iteration_locals l g w Hl) as H.
  cbv zeta in H. rewrite Hc in H. exact H.
Qed.

(** A property of traces that holds of the empty trace, of every
    iteration, and of the concatenation of two traces that have it,
    holds of the trace of the loop. *)
Lemma loop_trace (R : list event -> Prop) :
  R [] ->
  (forall a b, R a -> R b -> R (a ++ b)) ->
  (forall l g w, loop_head l -> R (trace_of (V12.stream_iteration l g w))) ->
  forall fuel l g w,
    loop_head l -> R (trace_of (V12.stream_loop fuel l g w)).
Proof.
  intros Hnil Happ Hit. induction fuel as [|fuel IH]; intros l g w Hl.
  - exact Hnil.
  - rewrite stream_loop_S. cbv zeta.
    destruct (result (V12.stream_iteration l g w)) as [l'|l'] eqn:Hc;
      cbn [trace_of snd].
    + apply Happ; [apply Hit; exact Hl|]. apply IH.
      eapply continue_head; eauto.
    + apply Happ; [apply Hit; exact Hl | exact Hnil].
Qed.

Lemma loop_audit fuel l g w L :
  loop_head l -> audit (trace_of (V12.stream_loop fuel l g w)) L = Some L.
Proof.
  intros Hl. revert L.
  apply (loop_trace (fun t => forall L, audit t L = Some L)); [| | |exact Hl].
  - reflexivity.
  - intros a b Ha Hb L. rewrite audit_app, Ha. apply Hb.
  - intros l0 g0 w0 H0 L. now apply iteration_audit.
Qed.

Lemma loop_boundaries fuel l g w :
  loop_head l ->
  boundaries (trace_of (V12.stream_loop fuel l g w)) =
  ready_frames (trace_of (V12.stream_loop fuel l g w)).
Proof.
  intros Hl.
  apply (loop_trace (fun t => boundaries t = ready_frames t));
    [| | |exact Hl].
  - reflexivity.
  - intros a b Ha Hb. unfold boundaries, ready_frames in *.
    rewrite !count_events_app. lia.
  - intros. now apply iteration_boundaries.
Qed.

Lemma loop_parts fuel l g w s :
  loop_head l ->
  let t := trace_of (V12.stream_loop fuel l g w) in
  (whole_parts (scan_parts t s) + failed_sends t =
   whole_parts s + boundaries t)%nat.
Proof.
  intros Hl. cbv zeta. revert s.
  apply (loop_trace (fun t => forall s,
    (whole_parts (scan_parts t s) + failed_sends t =
     whole_parts s + boundaries t)%nat)); [| | |exact Hl].
  - intros s. unfold failed_sends, boundaries, count_events.
    cbn [scan_parts filter List.length]. lia.
  - intros a b Ha Hb s. unfold boundaries, failed_sends in *.
    rewrite scan_parts_app, !count_events_app.
    specialize (Ha s). specialize (Hb (scan_parts a s)). lia.
  - intros. now apply iteration_parts.
Qed.

Lemma loop_encoder fuel l g w :
  loop_head l ->
  Forall (fun fb => is_jpeg (fb_format fb) = false)
         (encoded_frames (trace_of (V12.stream_loop fuel l g w))).
Proof.
  intros Hl.
  apply (loop_trace (fun t =>
    Forall (fun fb => is_jpeg (fb_format fb) = false) (encoded_frames t)));
    [| | |exact Hl].
  - constructor.
  - intros a b Ha Hb. unfold encoded_frames in *. rewrite flat_map_app.
    apply Forall_app; auto.
  - intros. now apply iteration_encoder.
Qed.

(** How the loop ends: while it runs no chunk was refused and no
    encoding failed; when it stops, its locals hold no buffer, its code
    is an error, and one of the three guards fired in its last
    iteration. *)
Lemma loop_result fuel l g w :
  loop_head l ->
  let r := V12.stream_loop fuel l g w in
  let t := trace_of r in
  (failed_sends t <= 1)%nat /\
  (count_events is_failed_encode t <= 1)%nat /\
  match result r with
  | None =>
      failed_sends t = 0%nat /\ count_events is_failed_encode t = 0%nat
  | Some l' =>
      V12.fb l' = None /\ V12._jpg_buf l' = None /\
      V12.res l' <> ESP_OK /\
      (failed_sends t = 1%nat \/
       (10 < V12.error_count (globals_of r) /\
        exists t', t = t' ++ [EvFbGet None]) \/
       count_events is_failed_encode t = 1%nat)
  end.
Proof.
  revert l g w. induction fuel as [|fuel IH]; intros l g w Hl.
  - cbn. unfold failed_sends, count_events; cbn. repeat split; lia.
  - rewrite stream_loop_S. cbv zeta.
    pose proof (iteration_quiet l g w Hl) as (Hs & He & Hq).
    pose proof (iteration_exit l g w Hl) as [_ Hex].
    pose proof (iteration_locals l g w Hl) as Hloc. cbv zeta in Hloc.
    pose proof (iteration_abort l g w Hl) as Hab. cbv zeta in Hab.
    destruct (result (V12.stream_iteration l g w)) as [l'|l'] eqn:Hc;
      cbn [trace_of result globals_of snd fst is_break locals_of] in *.
    + destruct (Hq eq_refl) as [Hs0 He0].
      specialize (IH l' (globals_of (V12.stream_iteration l g w))
                     (world_of (V12.stream_iteration l g w))
                     (continue_head _ _ _ _ Hl Hc)).
      cbv zeta in IH. destruct IH as (IHs & IHe & IHr).
      unfold failed_sends in *. rewrite !count_events_app.
      repeat split; try lia.
      destruct (result (V12.stream_loop fuel l' _ _)) as [l''|].
      * destruct IHr as (? & ? & ? & Hg). repeat split; auto.
        destruct Hg as [Hg | [[Hg [t' Ht']] | Hg]];
          [left; lia | right; left | right; right; lia].
        split; [exact Hg|].
        exists (trace_of (V12.stream_iteration l g w) ++ t').
        rewrite Ht'. now rewrite app_assoc.
      * lia.
    + rewrite !app_nil_r. destruct Hloc as (? & ? & ?).
      repeat split; auto.
      destruct Hex as [Hex _]. destruct (Hex eq_refl) as [H2 | [[H2 H3] | H2]];
        [left; exact H2 | right; left | right; right; exact H2].
      split; [exact H3|]. exists []. apply Hab; auto.
Qed.
End Loop.

(** ** The V1.2 handlers as a whole *)

Lemma audit_neutral t L :
  Forall (fun e => touches_ledger e = false) t -> audit t L = Some L.
Proof.
  induction 1 as [|e t He _ IH]; [reflexivity|].
  cbn [audit]. destruct e as [[?|]| | ? ? ? [[? ?]|] | | | | | | | | | | | |];
    try discriminate He; cbn [audit_event]; exact IH.
Qed.

Section Session.
Context {P : platform} {E : env}.

Lemma stream_handler_refused fuel g w :
  is_ok (type_feed (types w)) = false ->
  V12.stream_handler fuel g w =
  (Some (type_feed (types w)), g, next_type w,
   [EvSetType V12._STREAM_CONTENT_TYPE (type_feed (types w))]).
Proof.
  intros H. unfold V12.stream_handler, bind, httpd_resp_set_type.
  rewrite H. reflexivity.
Qed.

Lemma stream_handler_accepted fuel g w :
  is_ok (type_feed (types w)) = true ->
  let lr := V12.stream_loop fuel loop_entry g (next_type w) in
  V12.stream_handler fuel g w =
  (option_map V12.res (result lr), globals_of lr, world_of lr,
   session_headers ++ trace_of lr).
Proof.
  intros H. cbv zeta.
  pose proof (loop_result fuel loop_entry g (next_type w) loop_entry_head)
    as (_ & _ & Hr). cbv zeta in Hr.
  unfold V12.stream_handler, bind, httpd_resp_set_type.
  rewrite H. cbn [negb]. apply is_ok_true in H. rewrite H.
  fold loop_entry.
  unfold httpd_resp_set_hdr, emit.
  destruct (V12.stream_loop fuel loop_entry g (next_type w))
    as [[[o g1] w1] t].
  cbn [result globals_of world_of trace_of fst snd] in *.
  destruct o as [l'|]; cbn [option_map].
  - destruct Hr as (Hfb & Hbuf & _).
    unfold V12.cleanup, bind, when_some, ret. rewrite Hfb, Hbuf.
    cbn. rewrite !app_nil_r. reflexivity.
  - unfold ret. cbn. rewrite !app_nil_r. reflexivity.
Qed.

Lemma stream_handler_audit fuel g w L :
  audit (trace_of (V12.stream_handler fuel g w)) L = Some L.
Proof.
  destruct (is_ok (type_feed (types w))) eqn:H.
  - rewrite (stream_handler_accepted fuel g w H). cbv zeta.
    cbn [trace_of snd]. rewrite audit_app. cbn [audit audit_event session_headers].
    apply loop_audit, loop_entry_head.
  - rewrite (stream_handler_refused fuel g w H). reflexivity.
Qed.
End Session.

Section Capture.
Context {P : platform} {E : env}.

Lemma push_chunks_wire gives_up chunks j_len index g w :
  Forall (fun e => is_chunk_send e = true)
    (trace_of (push_chunks V12.jpg_encode_stream gives_up chunks j_len index
                 g w)).
Proof.
  revert j_len index g w.
  induction chunks as [|len rest IH]; intros j_len index g w.
  - constructor.
  - cbn [push_chunks]. unfold bind at 1.
    unfold V12.jpg_encode_stream at 1. unfold bind at 1.
    unfold httpd_resp_send_chunk at 1.
    destruct (is_ok (net_feed (sends w))); cbn [negb ret].
    + destruct ((len =? 0) && gives_up); cbn.
      * repeat constructor.
      * destruct (push_chunks V12.jpg_encode_stream gives_up rest _ _ g
                    (next_send w)) as [[[b g1] w1] t] eqn:Hp.
        cbn. constructor; [reflexivity|].
        specialize (IH (to_uint32 ((if index =? 0 then 0 else j_len) + len))
                       (index + len) g (next_send w)).
        rewrite Hp in IH. exact IH.
    + destruct ((0 =? 0) && gives_up); cbn.
      * repeat constructor.
      * destruct (push_chunks V12.jpg_encode_stream gives_up rest _ _ g
                    (next_send w)) as [[[b g1] w1] t] eqn:Hp.
        cbn. constructor; [reflexivity|].
        specialize (IH (if index =? 0 then 0 else j_len) (index + 0) g
                       (next_send w)).
        rewrite Hp in IH. exact IH.
Qed.

Lemma retry_loop_run g w :
  V12.retry_loop (Z.to_nat V12.MAX_RETRIES) 0 g w =
  (snd (three_attempts w), g, after_attempts w, fst (three_attempts w)).
Proof.
  unfold three_attempts, after_attempts, attempt.
  change (Z.to_nat V12.MAX_RETRIES) with 3%nat.
  rewrite !Nat.add_0_r, !Nat.add_1_r.
  replace (gets w + 2)%nat with (S (S (gets w))) by lia.
  cbn [V12.retry_loop].
  change (0 <? V12.MAX_RETRIES) with true.
  change (0 + 1 <? V12.MAX_RETRIES) with true.
  change (0 + 1 + 1 <? V12.MAX_RETRIES) with true.
  change (0 <? V12.MAX_RETRIES - 1) with true.
  change (0 + 1 <? V12.MAX_RETRIES - 1) with true.
  change (0 + 1 + 1 <? V12.MAX_RETRIES - 1) with false.
  cbv iota. unfold retry_delay.
  run_m. destruct (cam_feed (gets w)); run_m; [reflexivity|].
  cbn [gets next_get]. destruct (cam_feed (S (gets w))); run_m; [reflexivity|].
  cbn [gets next_get]. destruct (cam_feed (S (S (gets w)))); run_m; reflexivity.
Qed.

Lemma frame2jpg_cb_wire fb g w :
  Forall (fun e => is_body e = true \/ e = EvFrame2JpgCb fb 80)
    (trace_of (frame2jpg_cb fb 80 V12.jpg_encode_stream 0 g w)).
Proof.
  unfold frame2jpg_cb. cbv zeta.
  unfold bind at 1, emit. cbn [app]. unfold bind.
  pose proof (push_chunks_wire (cb_gives_up (enc_cb_feed (cbs w)))
                (map to_uint32 (cb_chunks (enc_cb_feed (cbs w)))) 0 0 g
                (next_cb w)) as Hw.
  destruct (push_chunks V12.jpg_encode_stream _ _ 0 0 g (next_cb w))
    as [[[pushed g1] w1] t1].
  cbn [trace_of snd ret] in *. rewrite app_nil_r.
  constructor; [right; reflexivity|].
  eapply Forall_impl; [|exact Hw].
  intros e He. left. destruct e; try discriminate He; reflexivity.
Qed.

Lemma capture_run g w :
  let r := V12.capture_handler g w in
  match three_attempts w with
  | (tries, None) =>
      trace_of r = tries ++ [EvSend500] /\ result r = ESP_FAIL
  | (tries, Some fb) =>
      exists body,
        trace_of r =
        tries ++ capture_headers (after_attempts w) ++ body ++ [EvFbReturn fb]
        /\ Forall (fun e => is_body e = true \/ e = EvFrame2JpgCb fb 80) body
        /\ (if is_jpeg (fb_format fb) then
              body = [EvSend (Some (FbBuf (fb_id fb), fb_len fb)) (result r)]
              /\ result r = net_feed (sends (after_attempts w))
            else
              result r = ESP_OK \/ result r = ESP_FAIL)
  end.
Proof.
  cbv zeta. unfold V12.capture_handler. unfold bind.
  rewrite retry_loop_run.
  destruct (three_attempts w) as [tries [fb|]]; cbn [fst snd].
  - run_m. destruct (is_jpeg (fb_format fb)) eqn:Hj.
    + run_m.
      exists [EvSend (Some (FbBuf (fb_id fb), fb_len fb))
                (net_feed (sends (after_attempts w)))].
      split; [reflexivity|]. split; [|split; reflexivity].
      constructor; [left; reflexivity | constructor].
    + pose proof (frame2jpg_cb_wire fb g (next_type (after_attempts w))) as Hw.
      destruct (frame2jpg_cb fb 80 V12.jpg_encode_stream 0 g
                  (next_type (after_attempts w))) as [[[ok g1] w1] t1].
      cbn [trace_of snd] in Hw. run_m.
      exists (t1 ++ [EvSendChunk ChunkEnd (net_feed (sends w1))]).
      split; [|split].
      * unfold capture_headers. cbn [app]. rewrite <- app_assoc. reflexivity.
      * apply Forall_app. split; [exact Hw|].
        constructor; [left; reflexivity | constructor].
      * destruct ok; auto.
  - run_m. split; reflexivity.
Qed.
End Capture.

(** ** Counting acquisitions and releases *)

Lemma take_out_nat x l l' :
  take_out Nat.eqb x l = Some l' ->
  forall y, count_occ Nat.eq_dec l y =
            ((if Nat.eq_dec x y then 1 else 0) + count_occ Nat.eq_dec l' y)%nat.
Proof.
  revert l'. induction l as [|a l IH]; intros l' H y; [discriminate H|].
  cbn [take_out] in H. destruct (Nat.eqb x a) eqn:Hxa.
  - apply Nat.eqb_eq in Hxa. subst a. inversion H; subst l'. cbn [count_occ].
    destruct (Nat.eq_dec x y); lia.
  - destruct (take_out Nat.eqb x l) as [l1|]; [|discriminate H].
    inversion H; subst l'. cbn [count_occ]. rewrite (IH l1 eq_refl y).
    destruct (Nat.eq_dec a y), (Nat.eq_dec x y); lia.
Qed.

Lemma buf_ptr_eqb_eq p q : buf_ptr_eqb p q = true <-> p = q.
Proof.
  destruct p, q; cbn; try (split; [discriminate | congruence]).
  all: rewrite Nat.eqb_eq; split; congruence.
Qed.

Lemma buf_ptr_eqb_refl p : buf_ptr_eqb p p = true.
Proof. now apply buf_ptr_eqb_eq. Qed.

Lemma take_out_ptr x l l' :
  take_out buf_ptr_eqb x l = Some l' ->
  forall y, count_ptr y l =
            ((if buf_ptr_eqb y x then 1 else 0) + count_ptr y l')%nat.
Proof.
  unfold count_ptr.
  revert l'. induction l as [|a l IH]; intros l' H y; [discriminate H|].
  cbn [take_out] in H. destruct (buf_ptr_eqb x a) eqn:Hxa.
  - apply buf_ptr_eqb_eq in Hxa. subst a. inversion H; subst l'. cbn [filter].
    destruct (buf_ptr_eqb y x); cbn [List.length]; lia.
  - destruct (take_out buf_ptr_eqb x l) as [l1|]; [|discriminate H].
    inversion H; subst l'. cbn [filter]. specialize (IH l1 eq_refl y).
    destruct (buf_ptr_eqb y a), (buf_ptr_eqb y x); cbn [List.length]; lia.
Qed.

(** What the ledger conserves: frames held plus frames acquired are
    frames returned plus frames still held, and likewise for blocks. *)
Lemma audit_conserves t L L' :
  audit t L = Some L' ->
  (forall id, (count_occ Nat.eq_dec (held L) id + acquisitions id t =
               returns id t + count_occ Nat.eq_dec (held L') id)%nat) /\
  (forall p, (count_ptr p (live L) + count_ptr p (encoder_blocks t) =
              count_ptr p (frees t) + count_ptr p (live L'))%nat).
Proof.
  revert L. induction t as [|e t IH]; intros L H.
  - inversion H; subst. split; intros; cbn; lia.
  - cbn [audit] in H. destruct (audit_event e L) as [L1|] eqn:He; [|discriminate H].
    destruct (IH L1 H) as [IHf IHp]. clear IH H.
    unfold acquisitions, returns, encoder_blocks, frees, count_ptr in *.
    cbn [flat_map]. 
    split.
    + intros id. specialize (IHf id).
      destruct e as [[fb|]|fb|fb q ok [[p len]|]|fb q|p| | | | | | | | | |];
        cbn [audit_event] in He; cbn [app].
      all: try (inversion He; subst L1; cbn [held] in *; exact IHf).
      * inversion He; subst L1. cbn [held count_occ] in *.
        destruct (Nat.eq_dec (fb_id fb) id); lia.
      * destruct (take_out Nat.eqb (fb_id fb) (held L)) as [h|] eqn:Ht;
          [|discriminate He].
        inversion He; subst L1. cbn [held count_occ] in *.
        rewrite (take_out_nat _ _ _ Ht id).
        destruct (Nat.eq_dec (fb_id fb) id); lia.
      * destruct (take_out buf_ptr_eqb p (live L)); [|discriminate He].
        inversion He; subst L1. cbn [held] in *. exact IHf.
    + intros p0. specialize (IHp p0).
      destruct e as [[fb|]|fb|fb q ok [[p len]|]|fb q|p| | | | | | | | | |];
        cbn [audit_event] in He; cbn [app].
      all: try (inversion He; subst L1; cbn [live] in *; exact IHp).
      * destruct (take_out Nat.eqb (fb_id fb) (held L)); [|discriminate He].
        inversion He; subst L1. cbn [live] in *. exact IHp.
      * inversion He; subst L1. cbn [live filter] in *.
        destruct (buf_ptr_eqb p0 p); cbn [List.length] in *; lia.
      * destruct (take_out buf_ptr_eqb p (live L)) as [h|] eqn:Ht;
          [|discriminate He].
        inversion He; subst L1. cbn [live filter] in *.
        pose proof (take_out_ptr _ _ _ Ht p0) as Hc. unfold count_ptr in Hc.
        rewrite Hc.
        destruct (buf_ptr_eqb p0 p); cbn [List.length] in *; lia.
Qed.

Lemma balanced_counts t :
  balanced t ->
  (forall id, returns id t = acquisitions id t) /\
  (forall p, count_ptr p (frees t) = count_ptr p (encoder_blocks t)).
Proof.
  intros H. destruct (audit_conserves t nothing nothing H) as [Hf Hp].
  split; [intros id; specialize (Hf id) | intros p; specialize (Hp p)];
    cbn in *; lia.
Qed.

Lemma acquisitions_app id a b :
  acquisitions id (a ++ b) = (acquisitions id a + acquisitions id b)%nat.
Proof. unfold acquisitions. now rewrite flat_map_app, count_occ_app. Qed.

Lemma encoder_blocks_app p a b :
  count_ptr p (encoder_blocks (a ++ b)) =
  (count_ptr p (encoder_blocks a) + count_ptr p (encoder_blocks b))%nat.
Proof.
  unfold count_ptr, encoder_blocks.
  now rewrite flat_map_app, filter_app, length_app.
Qed.

Lemma fresh_ids_nil w : fresh_ids w w [].
Proof.
  unfold fresh_ids, acquisitions, encoder_blocks, count_ptr.
  cbn [flat_map count_occ filter List.length].
  split; [lia|]. split; [lia|].
  split; intros x; (split; [lia|]); intros H; exfalso; lia.
Qed.

Lemma fresh_ids_app w w1 w2 a b :
  fresh_ids w w1 a -> fresh_ids w1 w2 b -> fresh_ids w w2 (a ++ b).
Proof.
  intros (Hg1 & He1 & Hf1 & Hp1) (Hg2 & He2 & Hf2 & Hp2).
  split; [lia|]. split; [lia|]. split.
  - intros id. rewrite acquisitions_app.
    destruct (Hf1 id) as [A1 A2], (Hf2 id) as [B1 B2]. split; lia.
  - intros p. rewrite encoder_blocks_app.
    destruct (Hp1 p) as [A1 A2], (Hp2 p) as [B1 B2]. split.
    + destruct (count_ptr p (encoder_blocks a)) as [|[|?]] eqn:Ca; try lia.
      destruct (count_ptr p (encoder_blocks b)) as [|[|?]] eqn:Cb; try lia.
      destruct (A2 ltac:(lia)) as (k & -> & Hk).
      destruct (B2 ltac:(lia)) as (k' & Heq & Hk').
      inversion Heq. lia.
    + intros H.
      destruct (count_ptr p (encoder_blocks a)) as [|?] eqn:Ca.
      * destruct (B2 ltac:(lia)) as (k & -> & Hk). exists k. split; [reflexivity|lia].
      * destruct (A2 ltac:(lia)) as (k & -> & Hk). exists k. split; [reflexivity|lia].
Qed.

Section Fresh.
Context {P : platform} {E : env}.

Lemma iteration_fresh l g w :
  loop_head l ->
  fresh_ids w (world_of (V12.stream_iteration l g w))
            (trace_of (V12.stream_iteration l g w)).
Proof.
  intros Hhead. at_loop_head l Hhead. run_iteration.
  all: unfold fresh_ids, acquisitions, encoder_blocks, count_ptr.
  all: cbn [flat_map app count_occ filter List.length gets encs next_get
            next_enc next_send fb_id mk_fb].
  all: split; [lia|]; split; [lia|]; split.
  all: try (intros id; destruct (Nat.eq_dec (gets w) id); split; lia).
  all: try (intros p; split; [lia|]; intros H; exfalso; lia).
  all: intros p; destruct (buf_ptr_eqb p (HeapBuf (encs w))) eqn:Hp;
    cbn [List.length]; (split; [lia|]); intros H; try lia.
  all: apply buf_ptr_eqb_eq in Hp; exists (encs w); split; [exact Hp | lia].
Qed.

Lemma loop_fresh fuel l g w :
  loop_head l ->
  fresh_ids w (world_of (V12.stream_loop fuel l g w))
            (trace_of (V12.stream_loop fuel l g w)).
Proof.
  revert l g w. induction fuel as [|fuel IH]; intros l g w Hl.
  - apply fresh_ids_nil.
  - rewrite stream_loop_S. cbv zeta.
    pose proof (iteration_fresh l g w Hl) as Hf.
    destruct (result (V12.stream_iteration l g w)) as [l'|l'] eqn:Hc;
      cbn [trace_of world_of snd fst].
    + eapply fresh_ids_app; [exact Hf|]. apply IH.
      eapply continue_head; eauto.
    + rewrite app_nil_r. exact Hf.
Qed.
End Fresh.

Lemma In_acquisitions fb t :
  In (EvFbGet (Some fb)) t -> (1 <= acquisitions (fb_id fb) t)%nat.
Proof.
  intros H. unfold acquisitions.
  apply (proj1 (count_occ_In Nat.eq_dec _ _)).
  apply in_flat_map. exists (EvFbGet (Some fb)). split; [exact H|now left].
Qed.

Lemma count_ptr_In p l : In p l <-> (1 <= count_ptr p l)%nat.
Proof.
  unfold count_ptr. induction l as [|a l IH]; cbn [filter In List.length].
  - split; [tauto | lia].
  - destruct (buf_ptr_eqb p a) eqn:Hpa; cbn [List.length].
    + apply buf_ptr_eqb_eq in Hpa. split; [lia | now left].
    + rewrite <- IH. split; [intros [H|H]; [|exact H] | now right].
      subst a. rewrite buf_ptr_eqb_refl in Hpa. discriminate.
Qed.

(** Events that do not touch the ledger do not count. *)
Lemma neutral_counts t :
  Forall (fun e => touches_ledger e = false) t ->
  (forall id, acquisitions id t = 0%nat /\ returns id t = 0%nat) /\
  encoder_blocks t = [] /\ frees t = [] /\
  (forall fb, ~ In (EvFbGet (Some fb)) t).
Proof.
  unfold acquisitions, returns, encoder_blocks, frees.
  induction 1 as [|e t He _ (IH1 & IH2 & IH3 & IH4)].
  - repeat split; intros; auto.
  - destruct e as [[?|]| | ? ? ? [[? ?]|] | | | | | | | | | | | |];
      try discriminate He; cbn [flat_map app].
    all: repeat split; try apply IH1; auto.
    all: intros fb0 [Hc|Hc]; [discriminate Hc | exact (IH4 fb0 Hc)].
Qed.

Lemma body_neutral fb body :
  Forall (fun e => is_body e = true \/ e = EvFrame2JpgCb fb 80) body ->
  Forall (fun e => touches_ledger e = false) body.
Proof.
  apply Forall_impl. intros e [H| ->]; [|reflexivity].
  destruct e; try discriminate H; reflexivity.
Qed.

Lemma returns_app id a b :
  returns id (a ++ b) = (returns id a + returns id b)%nat.
Proof. unfold returns. now rewrite flat_map_app, count_occ_app. Qed.

Lemma frees_app a b : frees (a ++ b) = frees a ++ frees b.
Proof. unfold frees. apply flat_map_app. Qed.

Lemma blocks_app a b :
  encoder_blocks (a ++ b) = encoder_blocks a ++ encoder_blocks b.
Proof. unfold encoder_blocks. apply flat_map_app. Qed.

Section Release.
Context {P : platform} {E : env}.

Lemma capture_headers_neutral w :
  Forall (fun e => touches_ledger e = false) (capture_headers w).
Proof. repeat constructor. Qed.

(** The capture handler: the one frame it gets goes back once; it owns
    no encoder block. *)
Lemma capture_release g w :
  let t := trace_of (V12.capture_handler g w) in
  balanced t /\
  (forall fb, In (EvFbGet (Some fb)) t -> returns (fb_id fb) t = 1%nat) /\
  encoder_blocks t = [] /\ frees t = [].
Proof.
  cbv zeta. pose proof (capture_run g w) as H. cbv zeta in H.
  unfold three_attempts in H.
  destruct (attempt w 0) as [f0|];
    [|destruct (attempt w 1) as [f1|]; [|destruct (attempt w 2) as [f2|]]].
  4: { destruct H as [-> _]. repeat split.
       intros fb Hin. cbn in Hin.
       repeat (destruct Hin as [Hin|Hin]; try discriminate Hin). destruct Hin. }
  all: destruct H as (body & -> & Hb & _).
  all: apply body_neutral in Hb.
  all: pose proof (neutral_counts _ Hb) as (Hb1 & Hb2 & Hb3 & Hb4).
  all: pose proof (neutral_counts _ (capture_headers_neutral (after_attempts w)))
         as (Hh1 & Hh2 & Hh3 & Hh4).
  all: repeat split.
  all: try (unfold balanced, retry_delay; rewrite audit_app;
            cbn [audit audit_event]; rewrite audit_app;
            rewrite (audit_neutral _ _ (capture_headers_neutral _));
            rewrite audit_app, (audit_neutral _ _ Hb);
            cbn [audit audit_event held live nothing option_map take_out];
            rewrite Nat.eqb_refl; reflexivity).
  all: try (rewrite !blocks_app, Hb2, Hh2; reflexivity).
  all: try (rewrite !frees_app, Hb3, Hh3; reflexivity).
  all: intros fb Hin; rewrite !returns_app;
    rewrite (proj2 (Hb1 (fb_id fb))), (proj2 (Hh1 (fb_id fb))).
  all: apply in_app_or in Hin; destruct Hin as [Hin|Hin];
    [|apply in_app_or in Hin; destruct Hin as [Hin|Hin];
      [exfalso; exact (Hh4 _ Hin)
      |apply in_app_or in Hin; destruct Hin as [Hin|Hin];
       [exfalso; exact (Hb4 _ Hin)
       |cbn in Hin; destruct Hin as [Hin|[]]; discriminate Hin]]].
  all: cbn in Hin;
    repeat (destruct Hin as [Hin|Hin]; try discriminate Hin);
    try contradiction.
  all: inversion Hin; subst; unfold returns, retry_delay;
    cbn [flat_map app count_occ].
  all: destruct (Nat.eq_dec (fb_id fb) (fb_id fb)); [reflexivity|congruence].
Qed.

(** A stream session, cut off after any number of iterations. *)
Lemma stream_release fuel g w :
  let t := trace_of (V12.stream_handler fuel g w) in
  balanced t /\
  (forall fb, In (EvFbGet (Some fb)) t -> returns (fb_id fb) t = 1%nat) /\
  Forall (fun fb => is_jpeg (fb_format fb) = false) (encoded_frames t) /\
  (forall p, In p (encoder_blocks t) -> count_ptr p (frees t) = 1%nat) /\
  (forall p, In p (frees t) -> exists k, p = HeapBuf k).
Proof.
  cbv zeta.
  pose proof (stream_handler_audit fuel g w nothing) as Hbal.
  destruct (balanced_counts _ Hbal) as [Hf Hp].
  assert (Hfresh : exists w0 w1 t0,
             Forall (fun e => touches_ledger e = false) t0 /\
             encoded_frames t0 = [] /\
             exists t1, trace_of (V12.stream_handler fuel g w) = t0 ++ t1 /\
             fresh_ids w0 w1 t1 /\
             Forall (fun fb => is_jpeg (fb_format fb) = false)
                    (encoded_frames t1)).
  { destruct (is_ok (type_feed (types w))) eqn:Hty.
    - rewrite (stream_handler_accepted fuel g w Hty). cbv zeta.
      exists (next_type w), (world_of (V12.stream_loop fuel loop_entry g (next_type w))),
        session_headers.
      split; [repeat constructor|]. split; [reflexivity|].
      eexists. split; [reflexivity|].
      split; [apply loop_fresh, loop_entry_head
             |apply loop_encoder, loop_entry_head].
    - rewrite (stream_handler_refused fuel g w Hty).
      exists w, w, [EvSetType V12._STREAM_CONTENT_TYPE (type_feed (types w))].
      split; [repeat constructor|]. split; [reflexivity|].
      exists []. split; [reflexivity|].
      split; [apply fresh_ids_nil | constructor]. }
  destruct Hfresh
    as (w0 & w1 & t0 & Hn & Hn0 & t1 & Heq & (_ & _ & Ha & Hb) & Henc).
  pose proof (neutral_counts _ Hn) as (Hn1 & Hn2 & Hn3 & Hn4).
  split; [exact Hbal|]. split; [|split; [|split]].
  - intros fb Hin. rewrite Hf. apply In_acquisitions in Hin.
    rewrite Heq in *. rewrite acquisitions_app in *.
    rewrite (proj1 (Hn1 _)) in *. destruct (Ha (fb_id fb)). lia.
  - rewrite Heq. unfold encoded_frames in *. rewrite flat_map_app, Hn0.
    exact Henc.
  - intros p Hin. rewrite Hp. apply count_ptr_In in Hin.
    rewrite Heq in *. rewrite blocks_app, Hn2 in *. cbn [app] in *.
    destruct (Hb p). lia.
  - intros p Hin. apply count_ptr_In in Hin. rewrite Hp in Hin.
    rewrite Heq, blocks_app, Hn2 in Hin. cbn [app] in Hin.
    destruct (Hb p) as [_ Hk]. destruct (Hk Hin) as (k & -> & _). now exists k.
Qed.
End Release.

(** ** Claim C1: frames and encoder buffers are released exactly once *)

(** C1.  In every run of the capture handler, and in every stream session
    cut off after any number of loop iterations or ended on any exit path,
    the ledger of owned resources is never violated and is empty at the
    end; every frame that was acquired is returned to the pool once;
    [frame2jpg] is called on frames that are not JPEG only, every block it
    allocates is freed once, and nothing but such blocks is ever freed
    (the capture handler allocates and frees none); every single
    iteration of the stream loop is balanced by itself.  That a block is
    never handed to [esp_camera_fb_return] is by the type of that call. *)
Theorem frames_and_buffers_released_once
    {P : platform} {E : env} (g : V12.globals) (w : io) (fuel : nat) :
  let tc := trace_of (V12.capture_handler g w) in
  let ts := trace_of (V12.stream_handler fuel g w) in
  (balanced tc /\
   (forall fb, In (EvFbGet (Some fb)) tc -> returns (fb_id fb) tc = 1%nat) /\
   encoder_blocks tc = [] /\ frees tc = []) /\
  (balanced ts /\
   (forall fb, In (EvFbGet (Some fb)) ts -> returns (fb_id fb) ts = 1%nat) /\
   Forall (fun fb => is_jpeg (fb_format fb) = false) (encoded_frames ts) /\
   (forall p, In p (encoder_blocks ts) -> count_ptr p (frees ts) = 1%nat) /\
   (forall p, In p (frees ts) -> exists k, p = HeapBuf k)) /\
  (forall l, loop_head l -> balanced (trace_of (V12.stream_iteration l g w))).
Proof.
  cbv zeta. split; [apply capture_release|]. split; [apply stream_release|].
  intros l Hl. now apply iteration_audit.
Qed.

(** ** The counter of failed acquisitions *)

Lemma failure_run_app a b n :
  failure_run (a ++ b) n = failure_run b (failure_run a n).
Proof. revert n; induction a as [|e a IH]; intros n; cbn; auto. Qed.

Lemma to_uint32_succ x y :
  to_uint32 x = to_uint32 y -> to_uint32 (x + 1) = to_uint32 (y + 1).
Proof.
  unfold to_uint32, two32. intros H.
  rewrite (Z.add_mod x), (Z.add_mod y), H by lia. reflexivity.
Qed.

Lemma failure_run_mod t x y :
  to_uint32 x = to_uint32 y ->
  to_uint32 (failure_run t x) = to_uint32 (failure_run t y).
Proof.
  revert x y. induction t as [|e t IH]; intros x y H; cbn [failure_run]; auto.
  apply IH. destruct e as [[?|]| | | | | | | | | | | | | |]; cbn; auto.
  now apply to_uint32_succ.
Qed.

Lemma to_uint32_idem x : to_uint32 (to_uint32 x) = to_uint32 x.
Proof. unfold to_uint32, two32. apply Z.mod_mod. lia. Qed.

Section Counter.
Context {P : platform} {E : env}.

Lemma iteration_failure_run l g w :
  loop_head l ->
  V12.error_count (globals_of (V12.stream_iteration l g w)) =
  to_uint32 (failure_run (trace_of (V12.stream_iteration l g w))
                         (V12.error_count g)).
Proof.
  intros Hhead. at_loop_head l Hhead. run_iteration; reflexivity.
Qed.

(** The counter is the length of the current run of failed
    acquisitions, as a 32-bit number; the run continues the one that
    the counter stood for when the loop was entered. *)
Lemma loop_failure_run fuel l g w :
  loop_head l ->
  to_uint32 (V12.error_count (globals_of (V12.stream_loop fuel l g w))) =
  to_uint32 (failure_run (trace_of (V12.stream_loop fuel l g w))
                         (V12.error_count g)).
Proof.
  revert l g w. induction fuel as [|fuel IH]; intros l g w Hl.
  - reflexivity.
  - rewrite stream_loop_S. cbv zeta.
    pose proof (iteration_failure_run l g w Hl) as Hi.
    destruct (result (V12.stream_iteration l g w)) as [l'|l'] eqn:Hc;
      cbn [trace_of globals_of snd fst].
    + rewrite failure_run_app, IH by (eapply continue_head; eauto).
      apply failure_run_mod. rewrite Hi. apply to_uint32_idem.
    + rewrite app_nil_r, Hi. apply to_uint32_idem.
Qed.

Lemma loop_delay_kept fuel l g w :
  loop_head l ->
  V12.stream_delay_ms (globals_of (V12.stream_loop fuel l g w)) =
  V12.stream_delay_ms g.
Proof.
  revert l g w. induction fuel as [|fuel IH]; intros l g w Hl.
  - reflexivity.
  - rewrite stream_loop_S. cbv zeta.
    pose proof (iteration_counter l g w Hl) as Hi.
    destruct (result (V12.stream_iteration l g w)) as [l'|l'] eqn:Hc;
      cbn [trace_of globals_of snd fst].
    + rewrite IH by (eapply continue_head; eauto). now rewrite Hi.
    + now rewrite Hi.
Qed.
End Counter.

(** ** Claim C3: the three guards of the stream loop *)

(** C3, as amended.  From the head of the loop, an iteration of the V1.2
    stream loop leaves the loop if and only if (a) the client connection
    refused one of its chunks (boundary, part header or payload), (b) the
    acquisition failed and the error counter of the handler, incremented
    for it, is above 10, or (c) [frame2jpg] failed on a frame that is not
    JPEG.  On (a) the exit code is the answer of the refused chunk, on (b)
    and (c) it is [ESP_FAIL]; otherwise the iteration ends at the loop
    head again.  The loop stops at the first such iteration and at no
    other: while it runs no chunk was refused and no encoding failed.
    The counter of (b) is the function-static of the handler: a pass takes
    it from the value it finds, which an earlier session may have left
    (C5), to zero on a frame and one up, as a 32-bit number, on a failed
    acquisition; it is not the number of failures of the session. *)
Theorem stream_loop_leaves_on_three_guards
    {P : platform} {E : env} (l : V12.locals) (g : V12.globals) (w : io) :
  loop_head l ->
  let r := V12.stream_iteration l g w in
  let d := trace_of r in
  let l' := locals_of (result r) in
  (is_break (result r) = true <->
     failed_sends d = 1%nat \/
     (count_events is_failed_get d = 1%nat /\
      10 < V12.error_count (globals_of r)) \/
     count_events is_failed_encode d = 1%nat) /\
  (is_break (result r) = true ->
     V12.res l' <> ESP_OK /\
     ((failed_sends d = 0%nat /\ V12.res l' = ESP_FAIL) \/
      (exists c, In (EvSendChunk c (V12.res l')) d))) /\
  (is_break (result r) = false -> loop_head l') /\
  V12.error_count (globals_of r) =
    to_uint32 (failure_run d (V12.error_count g)) /\
  (forall fuel,
     let rest := V12.stream_loop fuel l' (globals_of r) (world_of r) in
     let whole := V12.stream_loop (S fuel) l g w in
     (if is_break (result r)
      then result whole = Some l' /\ trace_of whole = d
      else result whole = result rest /\ trace_of whole = d ++ trace_of rest)
     /\
     match result whole with
     | None =>
         failed_sends (trace_of whole) = 0%nat /\
         count_events is_failed_encode (trace_of whole) = 0%nat
     | Some l'' =>
         V12.res l'' <> ESP_OK /\
         (failed_sends (trace_of whole) = 1%nat \/
          (10 < V12.error_count (globals_of whole) /\
           exists t', trace_of whole = t' ++ [EvFbGet None]) \/
          count_events is_failed_encode (trace_of whole) = 1%nat)
     end).
Proof.
  intros Hl. cbv zeta.
  pose proof (iteration_exit l g w Hl) as [_ Hex].
  pose proof (iteration_locals l g w Hl) as (Hfb & Hbuf & Hres).
  pose proof (iteration_code l g w Hl) as Hcode.
  cbv zeta in *.
  split; [exact Hex|]. split; [|split; [|split]].
  - intros Hb. rewrite Hb in Hres. split; [exact Hres | exact (Hcode Hb)].
  - intros Hb. rewrite Hb in Hres. repeat split; assumption.
  - now apply iteration_failure_run.
  - intros fuel. split.
    + rewrite stream_loop_S. cbv zeta.
      destruct (result (V12.stream_iteration l g w)) as [l0|l0];
        cbn [is_break locals_of result trace_of fst snd].
      * split; reflexivity.
      * split; [reflexivity | apply app_nil_r].
    + pose proof (loop_result (S fuel) l g w Hl) as (_ & _ & Hr).
      cbv zeta in Hr.
      destruct (result (V12.stream_loop (S fuel) l g w)); [|exact Hr].
      destruct Hr as (_ & _ & Hr1 & Hr2). split; assumption.
Qed.

Lemma stream_loop_leaves_on_three_guards_witness :
  loop_head loop_entry /\
  is_break (result (@V12.stream_iteration xiao client_leaves loop_entry
                      V12.boot (io0 None))) = false.
Proof.
  split; [exact loop_entry_head|].
  pose proof (@stream_loop_leaves_on_three_guards xiao client_leaves
                loop_entry V12.boot (io0 None) loop_entry_head) as H.
  cbv zeta in H. destruct H as [H _].
  destruct (is_break _) eqn:Hb; [|reflexivity].
  exfalso. destruct (proj1 H eq_refl) as [Hc | [[Hc _] | Hc]];
    vm_compute in Hc; discriminate Hc.
Defined.

(** C3, as stated, fails: guard (b) is not about a run of more than ten
    failed acquisitions.  With the camera out, a first session ends after
    eleven failed acquisitions and leaves the counter at 11.  A capture
    request then gets a frame at its first attempt.  The next stream
    session ends with [ESP_FAIL] at its first acquisition, the one
    failure since that frame, with no chunk refused and no encoding
    failed. *)
Lemma later_session_ends_at_its_first_failed_acquisition :
  let first :=
    @V12.stream_handler xiao camera_out_then_one_frame 20 V12.boot
      (io0 None) in
  let shot :=
    @V12.capture_handler xiao camera_out_then_one_frame (globals_of first)
      (world_of first) in
  let second :=
    @V12.stream_handler xiao camera_out_then_one_frame 20 (globals_of shot)
      (world_of shot) in
  result first = Some ESP_FAIL /\
  count_events is_failed_get (trace_of first) = 11%nat /\
  result shot = ESP_OK /\
  count_events is_fb_get (trace_of shot) = 1%nat /\
  count_events is_failed_get (trace_of shot) = 0%nat /\
  result second = Some ESP_FAIL /\
  count_events is_fb_get (trace_of second) = 1%nat /\
  count_events is_failed_get (trace_of second) = 1%nat /\
  failed_sends (trace_of second) = 0%nat /\
  count_events is_failed_encode (trace_of second) = 0%nat.
Proof. vm_compute. repeat split; congruence. Qed.

(** ** Claim C4: boundary markers and frames *)

Section Markers.
Context {P : platform} {E : env}.

Lemma iteration_break_counter l g w :
  loop_head l ->
  is_break (result (V12.stream_iteration l g w)) = true ->
  10 < V12.error_count (globals_of (V12.stream_iteration l g w)) \/
  V12.error_count (globals_of (V12.stream_iteration l g w)) = 0.
Proof.
  intros Hhead. at_loop_head l Hhead. run_iteration.
  all: intros H; try discriminate H; try (right; reflexivity).
  left. apply Z.ltb_lt. assumption.
Qed.

Lemma loop_break_counter fuel l g w :
  loop_head l ->
  result (V12.stream_loop fuel l g w) <> None ->
  10 < V12.error_count (globals_of (V12.stream_loop fuel l g w)) \/
  V12.error_count (globals_of (V12.stream_loop fuel l g w)) = 0.
Proof.
  revert l g w. induction fuel as [|fuel IH]; intros l g w Hl.
  - intros H. now contradiction H.
  - rewrite stream_loop_S. cbv zeta.
    pose proof (iteration_break_counter l g w Hl) as Hi.
    destruct (result (V12.stream_iteration l g w)) as [l'|l'] eqn:Hc;
      cbn [result globals_of snd fst is_break] in *.
    + apply IH. eapply continue_head; eauto.
    + intros _. now apply Hi.
Qed.

Lemma session_markers fuel g w :
  let r := V12.stream_handler fuel g w in
  let t := trace_of r in
  boundaries t = ready_frames t /\
  (parts_delivered t + failed_sends t = boundaries t)%nat /\
  (failed_sends t <= 1)%nat /\
  (failed_sends t = 1%nat ->
   exists code, result r = Some code /\ code <> ESP_OK).
Proof.
  cbv zeta. destruct (is_ok (type_feed (types w))) eqn:Hty.
  - rewrite (stream_handler_accepted fuel g w Hty). cbv zeta.
    cbn [trace_of result snd fst].
    pose proof (loop_boundaries fuel loop_entry g (next_type w)
                  loop_entry_head) as Hb.
    pose proof (loop_parts fuel loop_entry g (next_type w) (0%nat, false)
                  loop_entry_head) as Hp.
    pose proof (loop_result fuel loop_entry g (next_type w)
                  loop_entry_head) as (Hs & _ & Hr).
    cbv zeta in *.
    unfold parts_delivered, boundaries, ready_frames, failed_sends in *.
    rewrite scan_parts_app, !count_events_app.
    change (scan_parts session_headers (0%nat, false)) with (0%nat, false).
    change (count_events is_boundary session_headers) with 0%nat.
    change (count_events is_ready_frame session_headers) with 0%nat.
    change (count_events is_failed_send session_headers) with 0%nat.
    cbn [whole_parts plus] in *.
    repeat split; try lia.
    intros Hf.
    destruct (result (V12.stream_loop fuel loop_entry g (next_type w)))
      as [l'|]; [|lia].
    exists (V12.res l'). split; [reflexivity|]. tauto.
  - rewrite (stream_handler_refused fuel g w Hty).
    cbn [trace_of result snd fst].
    unfold parts_delivered, boundaries, ready_frames, failed_sends, count_events.
    cbn. repeat split; try lia.
Qed.
End Markers.

(** C4.  In every V1.2 stream session, cut off after any number of
    iterations, the number of boundary markers handed to the connection
    equals the number of frames that were acquired and, where needed,
    encoded; all of them were accepted, but for the last one when it is the
    chunk that the connection refused.  Every part went out in full or has the one chunk that the
    connection refused, and a refused chunk ends the session: so when the
    connection first refuses a chunk of frame number [n + 1] (of the fifth
    frame, for [n] = 4), the session ends with an error code after exactly
    [n] parts that went out in full, and it holds no frame and no encoder
    block. *)
Theorem boundary_markers_match_ready_frames
    {P : platform} {E : env} (g : V12.globals) (w : io) (fuel : nat) :
  let r := V12.stream_handler fuel g w in
  let t := trace_of r in
  boundaries t = ready_frames t /\
  (accepted_boundaries t <= boundaries t <=
   accepted_boundaries t + failed_sends t)%nat /\
  (parts_delivered t + failed_sends t = boundaries t)%nat /\
  (failed_sends t <= 1)%nat /\
  (failed_sends t = 1%nat ->
   (exists code, result r = Some code /\ code <> ESP_OK) /\
   (forall n, ready_frames t = S n -> parts_delivered t = n) /\
   balanced t).
Proof.
  cbv zeta. pose proof (session_markers fuel g w) as (Hb & Hp & Hs & Hr).
  cbv zeta in *.
  split; [exact Hb|]. split; [apply accepted_or_refused|].
  repeat split; try assumption.
  - now apply Hr.
  - intros n Hn. lia.
  - apply stream_handler_audit.
Qed.

Lemma boundary_markers_match_ready_frames_witness :
  let t := trace_of (@V12.stream_handler xiao client_leaves 8 V12.boot
                       (io0 None)) in
  failed_sends t = 1%nat /\ ready_frames t = 5%nat /\
  boundaries t = 5%nat /\ parts_delivered t = 4%nat /\ balanced t.
Proof.
  cbv zeta.
  pose proof (@boundary_markers_match_ready_frames xiao client_leaves
                V12.boot (io0 None) 8) as H.
  cbv zeta in H. destruct H as (Hb & _ & _ & _ & H).
  assert (Hf : failed_sends (trace_of (@V12.stream_handler xiao client_leaves
                 8 V12.boot (io0 None))) = 1%nat) by (vm_compute; reflexivity).
  assert (Hr : ready_frames (trace_of (@V12.stream_handler xiao client_leaves
                 8 V12.boot (io0 None))) = 5%nat) by (vm_compute; reflexivity).
  destruct (H Hf) as (_ & Hn & Hbal).
  split; [exact Hf|]. split; [exact Hr|]. split; [now rewrite Hb|].
  split; [exact (Hn 4%nat Hr) | exact Hbal].
Defined.

(** ** Claim C5: the error counter *)

(** C5, as amended.  The error counter of the V1.2 stream handler is a
    function-static that all sessions share.  It is zero at boot; an
    iteration leaves it at zero when it acquired a frame (so it is zero
    after every delivered frame) and one higher, as a 32-bit number, when
    the acquisition failed.  A session does not reset it: over a session
    the counter continues the run of failed acquisitions from the value
    it found, and a session that ends leaves it at zero or above 10 (or
    untouched, when the content type was refused). *)
Theorem error_counter_outlives_the_session
    {P : platform} {E : env} (g : V12.globals) (w : io) :
  V12.error_count V12.boot = 0 /\
  (forall l, loop_head l ->
     V12.error_count (globals_of (V12.stream_iteration l g w)) =
     match cam_feed (gets w) with
     | Some _ => 0
     | None => to_uint32 (V12.error_count g + 1)
     end) /\
  (forall fuel,
     let r := V12.stream_handler fuel g w in
     to_uint32 (V12.error_count (globals_of r)) =
       to_uint32 (failure_run (trace_of r) (V12.error_count g)) /\
     (result r <> None ->
        globals_of r = g \/
        V12.error_count (globals_of r) = 0 \/
        10 < V12.error_count (globals_of r))).
Proof.
  split; [reflexivity|]. split.
  - intros l Hl. rewrite (iteration_counter l g w Hl).
    destruct (cam_feed (gets w)); reflexivity.
  - intros fuel. cbv zeta.
    destruct (is_ok (type_feed (types w))) eqn:Hty.
    + rewrite (stream_handler_accepted fuel g w Hty). cbv zeta.
      cbn [trace_of result globals_of snd fst]. split.
      * rewrite failure_run_app.
        change (failure_run session_headers (V12.error_count g))
          with (V12.error_count g).
        apply loop_failure_run, loop_entry_head.
      * intros Hr. right.
        destruct (loop_break_counter fuel loop_entry g (next_type w)
                    loop_entry_head) as [H|H]; [|now right|now left].
        intros Hn. rewrite Hn in Hr. now apply Hr.
    + rewrite (stream_handler_refused fuel g w Hty).
      cbn [trace_of result globals_of snd fst failure_run failure_step].
      split; [reflexivity | intros _; now left].
Qed.

(** C5, as stated, fails: after a session that the acquisition guard
    ended, the next session starts with the counter at 11, and its first
    failed acquisition ends it. *)
Lemma second_session_starts_with_stale_counter :
  let first := @V12.stream_handler xiao dead_camera 20 V12.boot (io0 None) in
  let second :=
    @V12.stream_handler xiao dead_camera 20 (globals_of first)
      (world_of first) in
  result first = Some ESP_FAIL /\
  count_events is_fb_get (trace_of first) = 11%nat /\
  V12.error_count (globals_of first) = 11 /\
  V12.error_count (globals_of first) <> 0 /\
  result second = Some ESP_FAIL /\
  count_events is_fb_get (trace_of second) = 1%nat.
Proof. vm_compute. repeat split; congruence. Qed.

(** ** Firmware V1.1 *)

Ltac run_m11 :=
  cbv beta iota zeta delta
    [V11.stream_iteration V11.acquire V11.frame_stats V11.capture_handler
     V11.startCameraServer bind ret emit
     esp_camera_fb_get esp_camera_fb_return free frame2jpg
     httpd_resp_send_chunk httpd_resp_send httpd_resp_set_type
     httpd_resp_set_hdr httpd_resp_send_404 httpd_resp_send_500 vTaskDelay
     log malloc esp_camera_sensor_get esp_timer_get_time httpd_start
     httpd_register_uri_handler get_globals put_globals V11.modify
     when_some trace_of result globals_of world_of is_break11
     option_map fst snd is_some negb orb andb
     V11.fb V11._jpg_buf V11.res V11._jpg_buf_len V11._timestamp
     jpg_converted jpg_out];
  rewrite ?is_ok_OK, ?is_ok_FAIL;
  cbn [app].

Ltac run_iteration11 :=
  run_m11; repeat (split_match; run_m11); try discriminate.

Section V11Facts.
Context {P : platform} {E : env}.

(** V1.1 waits after a frame only when the delay is set. *)
Lemma v11_iteration_pacing l g w :
  loop_head11 l ->
  let r := V11.stream_iteration l g w in
  is_break11 (result r) = false ->
  if 0 <? V11.stream_delay_ms g
  then paced_by (Z.quot (V11.stream_delay_ms g) portTICK_PERIOD_MS)
                (trace_of r)
  else count_events is_delay (trace_of r) = 0%nat.
Proof.
  intros Hhead. destruct l as [? ? ? ? ?]. unfold loop_head11 in Hhead.
  simpl in Hhead. destruct Hhead as [-> [-> ->]].
  run_iteration11.
  all: intros H; try discriminate H.
  all: cbn [V11.stream_delay_ms V11.set_last_frame V11.set_frame_counter] in *.
  all: repeat match goal with
              | H : (0 <? _) = _ |- _ => rewrite H in *
              end.
  all: try discriminate.
  all: try reflexivity.
  all: unfold paced_by.
  all: match goal with
       | |- exists d, ?a :: ?t = _ /\ _ => exists (removelast (a :: t))
       end.
  all: cbn [removelast app]; split; reflexivity.
Qed.

Lemma v11_push_chunks_wire gives_up chunks j_len index g w :
  Forall (fun e => is_chunk_send e = true)
    (trace_of (push_chunks V11.jpg_encode_stream gives_up chunks j_len index
                 g w)).
Proof.
  revert j_len index g w.
  induction chunks as [|len rest IH]; intros j_len index g w.
  - constructor.
  - cbn [push_chunks]. unfold bind at 1.
    unfold V11.jpg_encode_stream at 1. unfold bind at 1.
    unfold httpd_resp_send_chunk at 1.
    destruct (is_ok (net_feed (sends w))); cbn [negb ret].
    + destruct ((len =? 0) && gives_up); cbn.
      * repeat constructor.
      * destruct (push_chunks V11.jpg_encode_stream gives_up rest _ _ g
                    (next_send w)) as [[[b g1] w1] t] eqn:Hp.
        cbn. constructor; [reflexivity|].
        specialize (IH (to_uint32 ((if index =? 0 then 0 else j_len) + len))
                       (index + len) g (next_send w)).
        rewrite Hp in IH. exact IH.
    + destruct ((0 =? 0) && gives_up); cbn.
      * repeat constructor.
      * destruct (push_chunks V11.jpg_encode_stream gives_up rest _ _ g
                    (next_send w)) as [[[b g1] w1] t] eqn:Hp.
        cbn. constructor; [reflexivity|].
        specialize (IH (if index =? 0 then 0 else j_len) (index + 0) g
                       (next_send w)).
        rewrite Hp in IH. exact IH.
Qed.

(** V1.1 asks the camera once. *)
Lemma v11_capture_run g w :
  let r := V11.capture_handler g w in
  match attempt w 0 with
  | None =>
      trace_of r = [EvFbGet None; EvLog "Camera capture failed"; EvSend500]
      /\ result r = ESP_FAIL
  | Some fb =>
      exists rest, trace_of r = EvFbGet (Some fb) :: rest /\
                   count_events is_fb_get rest = 0%nat /\
                   count_events is_error_reply rest = 0%nat
  end.
Proof.
  cbv zeta. unfold attempt. rewrite Nat.add_0_r.
  run_m11. destruct (cam_feed (gets w)) as [r0|]; run_m11.
  2: { split; reflexivity. }
  match goal with
  | |- context [is_jpeg ?f] => destruct (is_jpeg f) eqn:Hj
  end; run_m11.
  - eexists. split; [reflexivity|]. split; reflexivity.
  - unfold frame2jpg_cb. run_m11.
    pose proof (v11_push_chunks_wire
                  (cb_gives_up (enc_cb_feed (cbs (next_type (next_get w)))))
                  (map to_uint32
                     (cb_chunks (enc_cb_feed (cbs (next_type (next_get w))))))
                  0 0 g (next_cb (next_type (next_get w)))) as Hw.
    destruct (push_chunks V11.jpg_encode_stream _ _ 0 0 g
                (next_cb (next_type (next_get w)))) as [[[pushed g1] w1] t1].
    cbn [trace_of snd] in Hw. run_m11.
    eexists. split; [reflexivity|].
    unfold count_events. cbn [filter is_fb_get is_error_reply is_client_error
                               is_server_error status_code orb List.length].
    rewrite <- !app_assoc, !filter_app, !length_app. cbn.
    assert (Hz : forall f, (forall e, is_chunk_send e = true -> f e = false) ->
                           List.length (filter f t1) = 0%nat).
    { intros f Hf. clear -Hw Hf. induction Hw as [|e t He _ IH]; [reflexivity|].
      cbn [filter]. rewrite (Hf e He). exact IH. }
    rewrite !Hz; [split; reflexivity| |].
    + intros e He. destruct e; try discriminate He; reflexivity.
    + intros e He. destruct e; try discriminate He; reflexivity.
Qed.

(** V1.1 starts both servers on every call. *)
Lemma v11_start_always g w :
  count_events is_httpd_start (trace_of (V11.startCameraServer g w)) = 2%nat.
Proof.
  run_m11. repeat (split_match; run_m11); reflexivity.
Qed.
End V11Facts.

Lemma no_delay_count d :
  Forall (fun e => match e with EvDelay _ => False | _ => True end) d ->
  count_events is_delay d = 0%nat.
Proof.
  unfold count_events. induction 1 as [|e d He _ IH]; [reflexivity|].
  destruct e; cbn [filter is_delay]; try exact IH. contradiction.
Qed.

(** ** Claim C8: pacing *)

(** C8, as amended.  In V1.2 an iteration of the stream loop that got a
    frame and sent it ends in the wait of the configured inter-frame delay
    (in ticks), before the next acquisition, whatever the delay is, zero
    included.  In V1.1 the iteration ends in that wait only when the
    configured delay is above zero; at zero it does not wait at all. *)
Theorem pacing_wait_after_each_sent_frame
    {P : platform} {E : env}
    (l : V12.locals) (g : V12.globals) (l1 : V11.locals) (g1 : V11.globals)
    (w : io) :
  loop_head l -> loop_head11 l1 ->
  (is_break (result (V12.stream_iteration l g w)) = false ->
   cam_feed (gets w) <> None ->
   paced_by (Z.quot (V12.stream_delay_ms g) portTICK_PERIOD_MS)
            (trace_of (V12.stream_iteration l g w))) /\
  (is_break11 (result (V11.stream_iteration l1 g1 w)) = false ->
   if 0 <? V11.stream_delay_ms g1
   then paced_by (Z.quot (V11.stream_delay_ms g1) portTICK_PERIOD_MS)
                 (trace_of (V11.stream_iteration l1 g1 w))
   else count_events is_delay (trace_of (V11.stream_iteration l1 g1 w)) = 0%nat).
Proof.
  intros Hl Hl1. split.
  - intros Hb Hc.
    destruct (iteration_pacing l g w Hl Hb Hc) as (d & Hd & Hn).
    exists d. split; [exact Hd | now apply no_delay_count].
  - now apply v11_iteration_pacing.
Qed.

Lemma pacing_wait_after_each_sent_frame_witness :
  loop_head loop_entry /\ loop_head11 loop_entry11 /\
  paced_by 0
    (trace_of (@V12.stream_iteration xiao calm loop_entry
                 (V12.set_stream_delay_ms 0 V12.boot) (io0 None))) /\
  count_events is_delay
    (trace_of (@V11.stream_iteration xiao calm loop_entry11 V11.boot
                 (io0 None))) = 0%nat.
Proof.
  assert (H1 : loop_head11 loop_entry11) by (repeat split).
  pose proof (@pacing_wait_after_each_sent_frame xiao calm loop_entry
                (V12.set_stream_delay_ms 0 V12.boot) loop_entry11 V11.boot
                (io0 None) loop_entry_head H1) as [A B].
  split; [exact loop_entry_head|]. split; [exact H1|]. split.
  - apply A; [vm_compute; reflexivity | discriminate].
  - apply B. vm_compute. reflexivity.
Defined.

(** C8, as stated, fails on V1.1: with the delay at zero, its value at
    boot, an iteration that sent its frame goes on to the next
    acquisition without any wait. *)
Lemma v11_does_not_wait_at_delay_zero :
  let r := @V11.stream_iteration xiao calm loop_entry11 V11.boot (io0 None) in
  V11.stream_delay_ms V11.boot = 0 /\
  is_break11 (result r) = false /\
  count_events is_failed_send (trace_of r) = 0%nat /\
  count_events is_delay (trace_of r) = 0%nat.
Proof. vm_compute. repeat split. Qed.

(** ** Claim C2: the capture handler retries the acquisition *)

Section CaptureFacts.
Context {P : platform} {E : env}.

Lemma three_attempts_none w :
  snd (three_attempts w) = None <->
  attempt w 0 = None /\ attempt w 1 = None /\ attempt w 2 = None.
Proof.
  unfold three_attempts.
  destruct (attempt w 0); [cbn; split; [discriminate|intros [H _]; discriminate]|].
  destruct (attempt w 1);
    [cbn; split; [discriminate|intros (_ & H & _); discriminate]|].
  destruct (attempt w 2);
    [cbn; split; [discriminate|intros (_ & _ & H); discriminate]|].
  cbn. tauto.
Qed.

Lemma body_counts fb body f :
  Forall (fun e => is_body e = true \/ e = EvFrame2JpgCb fb 80) body ->
  (forall e, is_body e = true -> f e = false) ->
  f (EvFrame2JpgCb fb 80) = false ->
  count_events f body = 0%nat.
Proof.
  intros Hb Hf Hcb. unfold count_events.
  induction Hb as [|e t He _ IH]; [reflexivity|].
  cbn [filter]. destruct He as [He| ->]; [rewrite (Hf e He)|rewrite Hcb];
    exact IH.
Qed.

Lemma capture_reply g w :
  let t := trace_of (V12.capture_handler g w) in
  (count_events is_fb_get t <= 3)%nat /\
  (snd (three_attempts w) = None ->
   count_events is_server_error t = 1%nat /\ count_events is_body t = 0%nat) /\
  (snd (three_attempts w) <> None ->
   count_events is_error_reply t = 0%nat /\
   In (EvSetType "image/jpeg" (type_feed (types (after_attempts w)))) t).
Proof.
  cbv zeta. pose proof (capture_run g w) as H. cbv zeta in H.
  unfold three_attempts in *.
  destruct (attempt w 0) as [f0|];
    [|destruct (attempt w 1) as [f1|]; [|destruct (attempt w 2) as [f2|]]];
    cbn [snd].
  4: { destruct H as [-> _]. unfold count_events, retry_delay. cbn.
       split; [lia|]. split; [intros _; split; reflexivity|].
       intros Hn. now contradiction Hn. }
  all: destruct H as (body & -> & Hb & _).
  all: pose proof (body_counts _ _ is_fb_get Hb) as B1.
  all: pose proof (body_counts _ _ is_error_reply Hb) as B2.
  all: rewrite !count_events_app.
  all: rewrite B1, ?B2;
    try (intros e He; destruct e; try discriminate He; reflexivity);
    try reflexivity.
  all: unfold count_events, retry_delay; cbn [filter is_fb_get List.length
         capture_headers is_error_reply is_client_error is_server_error
         status_code orb].
  all: split; [lia|]; split; [intros Hn; discriminate Hn|].
  all: intros _; split; [reflexivity|].
  all: apply in_or_app; right; apply in_or_app; left; left; reflexivity.
Qed.
End CaptureFacts.

Section CaptureWire.
Context {P : platform} {E : env}.

Lemma sends_iter n w : sends (Nat.iter n next_send w) = (sends w + n)%nat.
Proof.
  induction n as [|n IH]; simpl; [lia|].
  rewrite IH. lia.
Qed.

Lemma iter_next_send n w :
  Nat.iter n next_send (next_send w) = Nat.iter (S n) next_send w.
Proof.
  induction n as [|n IH]; [reflexivity|].
  simpl in *. now rewrite IH.
Qed.

Lemma push_chunks_run gives_up chunks j_len index g w :
  let enc := encoder_chunks gives_up chunks (sends w) in
  push_chunks V12.jpg_encode_stream gives_up chunks j_len index g w =
  (snd enc, g, Nat.iter (List.length (fst enc)) next_send w, fst enc).
Proof.
  revert j_len index g w.
  induction chunks as [|len rest IH]; intros j_len index g w; cbv zeta.
  - reflexivity.
  - cbn [push_chunks encoder_chunks]. unfold bind at 1.
    unfold V12.jpg_encode_stream at 1. unfold bind at 1.
    unfold httpd_resp_send_chunk at 1.
    destruct (is_ok (net_feed (sends w))) eqn:Hok; cbn [negb ret orb].
    + destruct ((len =? 0) && gives_up); [reflexivity|].
      rewrite IH. cbv zeta. cbn [sends next_send].
      destruct (encoder_chunks gives_up rest (S (sends w))) as [t' th].
      cbn [fst snd app List.length]. rewrite iter_next_send. reflexivity.
    + change (0 =? 0) with true. cbn [andb].
      destruct gives_up; [reflexivity|].
      rewrite IH. cbv zeta. cbn [sends next_send].
      destruct (encoder_chunks false rest (S (sends w))) as [t' th].
      cbn [fst snd app List.length]. rewrite iter_next_send. reflexivity.
Qed.

Lemma frame2jpg_cb_run fb g w :
  let cbr := enc_cb_feed (cbs w) in
  let enc := encoder_chunks (cb_gives_up cbr) (map to_uint32 (cb_chunks cbr))
               (sends w) in
  frame2jpg_cb fb 80 V12.jpg_encode_stream 0 g w =
  (snd enc && cb_verdict cbr, g,
   Nat.iter (List.length (fst enc)) next_send (next_cb w),
   EvFrame2JpgCb fb 80 :: fst enc).
Proof.
  cbv zeta. unfold frame2jpg_cb. cbv zeta.
  unfold bind at 1, emit. unfold bind. rewrite push_chunks_run. cbv zeta.
  cbn [sends next_cb ret app]. rewrite app_nil_r. reflexivity.
Qed.

Lemma after_attempts_streams w :
  cbs (after_attempts w) = cbs w /\ sends (after_attempts w) = sends w.
Proof.
  unfold after_attempts.
  destruct (attempt w 0); [split; reflexivity|].
  destruct (attempt w 1); split; reflexivity.
Qed.

(** The capture handler of V1.2 on a frame that is not JPEG. *)
Lemma capture_encoded g w fb :
  snd (three_attempts w) = Some fb ->
  is_jpeg (fb_format fb) = false ->
  let r := V12.capture_handler g w in
  let cbr := enc_cb_feed (cbs w) in
  let enc := encoder_chunks (cb_gives_up cbr) (map to_uint32 (cb_chunks cbr))
               (sends w) in
  trace_of r =
    fst (three_attempts w) ++ capture_headers (after_attempts w) ++
    (EvFrame2JpgCb fb 80 :: fst enc ++
     [EvSendChunk ChunkEnd (net_feed (sends w + List.length (fst enc)))]) ++
    [EvFbReturn fb] /\
  result r = (if snd enc && cb_verdict cbr then ESP_OK else ESP_FAIL).
Proof.
  intros Hfb Hj. cbv zeta. unfold V12.capture_handler. unfold bind.
  rewrite retry_loop_run. rewrite Hfb.
  run_m. rewrite Hj. run_m.
  rewrite frame2jpg_cb_run. cbv zeta. run_m.
  rewrite sends_iter. cbn [cbs sends next_type next_cb].
  destruct (after_attempts_streams w) as [-> ->].
  unfold capture_headers. cbn [app]. split; reflexivity.
Qed.

End CaptureWire.

(** C2, as amended.  The capture handler of V1.2 attempts the acquisition
    up to three times, with a wait of 50 ms (in ticks) between two
    attempts.  When all three yield no frame, and only then, it replies
    with a server error and no body, and returns [ESP_FAIL].  When an
    attempt yields a frame it sends no error status (so the status is
    the default, 200), sets the type to image/jpeg and sends the frame.
    A JPEG frame goes out in one piece, and the handler returns the result
    of that send.  Another frame goes through the encoder at quality 80:
    the reply is every chunk that the encoder hands to the callback,
    up to the one at which the encoder gives up, then the chunk that
    ends the reply, and the handler returns [ESP_OK] when the encoder got
    through and reported success and [ESP_FAIL] otherwise.  The capture
    handler of V1.1 makes one attempt and replies with a server error
    when that one fails. *)
Theorem capture_retries_the_acquisition
    {P : platform} {E : env} (g : V12.globals) (g1 : V11.globals) (w : io) :
  let r := V12.capture_handler g w in
  let r1 := V11.capture_handler g1 w in
  match three_attempts w with
  | (tries, None) => trace_of r = tries ++ [EvSend500] /\ result r = ESP_FAIL
  | (tries, Some fb) =>
      exists body,
        trace_of r =
        tries ++ capture_headers (after_attempts w) ++ body ++ [EvFbReturn fb]
        /\ Forall (fun e => is_body e = true \/ e = EvFrame2JpgCb fb 80) body
        /\ (if is_jpeg (fb_format fb) then
              body = [EvSend (Some (FbBuf (fb_id fb), fb_len fb)) (result r)]
              /\ result r = net_feed (sends (after_attempts w))
            else
              let cbr := enc_cb_feed (cbs w) in
              let enc :=
                encoder_chunks (cb_gives_up cbr)
                  (map to_uint32 (cb_chunks cbr)) (sends w) in
              body =
                EvFrame2JpgCb fb 80 :: fst enc ++
                [EvSendChunk ChunkEnd
                   (net_feed (sends w + List.length (fst enc)))]
              /\ result r =
                 (if snd enc && cb_verdict cbr then ESP_OK else ESP_FAIL))
  end /\
  (snd (three_attempts w) = None <->
   attempt w 0 = None /\ attempt w 1 = None /\ attempt w 2 = None) /\
  (count_events is_fb_get (trace_of r) <= 3)%nat /\
  (snd (three_attempts w) = None ->
   count_events is_server_error (trace_of r) = 1%nat /\
   count_events is_body (trace_of r) = 0%nat) /\
  (snd (three_attempts w) <> None ->
   count_events is_error_reply (trace_of r) = 0%nat /\
   In (EvSetType "image/jpeg" (type_feed (types (after_attempts w))))
      (trace_of r)) /\
  match attempt w 0 with
  | None =>
      trace_of r1 = [EvFbGet None; EvLog "Camera capture failed"; EvSend500]
      /\ result r1 = ESP_FAIL
  | Some fb =>
      exists rest, trace_of r1 = EvFbGet (Some fb) :: rest /\
                   count_events is_fb_get rest = 0%nat /\
                   count_events is_error_reply rest = 0%nat
  end.
Proof.
  cbv zeta. split.
  - pose proof (capture_run g w) as H. cbv zeta in H.
    pose proof (capture_encoded g w) as He. cbv zeta in He.
    destruct (three_attempts w) as [tries [fb|]]; [|exact H].
    destruct H as (body & Ht & Hb & Hr). exists body.
    split; [exact Ht|]. split; [exact Hb|].
    destruct (is_jpeg (fb_format fb)) eqn:Hj; [exact Hr|].
    destruct (He fb eq_refl Hj) as [He1 He2]. cbn [fst] in He1.
    split; [|exact He2].
    rewrite Ht in He1.
    apply app_inv_head in He1. apply app_inv_head in He1.
    apply app_inv_tail in He1. exact He1.
  - split; [apply three_attempts_none|].
    pose proof (capture_reply g w) as (H1 & H2 & H3). cbv zeta in *.
    split; [exact H1|]. split; [exact H2|]. split; [exact H3|].
    apply v11_capture_run.
Qed.

(** C2, as stated, fails on V1.1: with a camera that fails twice and then
    delivers, the request is answered with a server error after the first
    failed acquisition, whereas V1.2 delivers the frame on the third
    attempt. *)
Lemma v11_capture_gives_up_after_one_attempt :
  let r1 := V11.capture_handler (E := two_failures) V11.boot (io0 None) in
  let r := @V12.capture_handler xiao two_failures V12.boot (io0 None) in
  trace_of r1 = [EvFbGet None; EvLog "Camera capture failed"; EvSend500] /\
  result r1 = ESP_FAIL /\
  result r = ESP_OK /\
  count_events is_fb_get (trace_of r) = 3%nat /\
  count_events is_error_reply (trace_of r) = 0%nat.
Proof. vm_compute. repeat split. Qed.

(** ** Claims C9 and C10: starting the servers *)

Section Start.
Context {P : platform} {E : env}.

Lemma start_when_running g w :
  is_some (V12.camera_httpd g) = true ->
  V12.startCameraServer g w = (tt, V12.set_server_started true g, w, []).
Proof.
  intros H. unfold V12.startCameraServer, bind, get_globals.
  rewrite H. reflexivity.
Qed.

Lemma start_again_when_running n g w :
  is_some (V12.camera_httpd g) = true ->
  start_again (S n) g w = (tt, V12.set_server_started true g, w, []).
Proof.
  intros H. revert g H. induction n as [|n IH]; intros g H.
  - cbn [start_again]. unfold bind. rewrite (start_when_running g w H).
    reflexivity.
  - change (start_again (S (S n)))
      with (bind V12.startCameraServer (fun _ => start_again (S n))).
    unfold bind. rewrite (start_when_running g w H).
    rewrite IH by exact H. reflexivity.
Qed.

Lemma start_port81_fails g w :
  V12.camera_httpd g = None ->
  is_ok (start_feed (starts w)) = true ->
  is_ok (start_feed (S (starts w))) = false ->
  V12.startCameraServer g w =
  (tt,
   V12.set_server_started false (V12.set_camera_httpd (Some (starts w)) g),
   next_start (next_start w),
   EvHttpdStart 80 8 ESP_OK :: port80_handlers (Some (starts w)) ++
   [EvHttpdStart 81 2 (start_feed (S (starts w)))]).
Proof.
  intros Hnone H80 H81.
  unfold V12.startCameraServer, bind, get_globals, httpd_start,
    httpd_register_uri_handler, V12.modify, emit.
  rewrite Hnone. cbn [is_some]. rewrite H80. cbn [negb].
  cbn [starts next_start]. rewrite H81. cbn [negb app port80_handlers].
  apply is_ok_true in H80. rewrite H80.
  destruct g; reflexivity.
Qed.
End Start.

(** C9.  In V1.2 a call of [startCameraServer] while the handle of the
    port-80 server exists sets the server-started flag and does nothing
    else: it starts no server, registers no handler, and leaves the
    handles, every other variable and the world as they are; so does
    every run of such calls.  (The sketch of V1.1 calls its
    [startCameraServer] once, from [setup], while no handle exists; see
    [v11_sketch_starts_the_servers_once].) *)
Theorem second_start_is_a_noop
    {E : env} (g : V12.globals) (w : io) (n : nat) :
  is_some (V12.camera_httpd g) = true ->
  let r := V12.startCameraServer g w in
  r = (tt, V12.set_server_started true g, w, []) /\
  V12.server_started (globals_of r) = true /\
  V12.camera_httpd (globals_of r) = V12.camera_httpd g /\
  V12.snapshot_httpd (globals_of r) = V12.snapshot_httpd g /\
  count_events is_httpd_start (trace_of r) = 0%nat /\
  count_events is_register (trace_of r) = 0%nat /\
  start_again (S n) g w = (tt, V12.set_server_started true g, w, []).
Proof.
  intros H. cbv zeta. rewrite (start_when_running g w H).
  cbn [globals_of trace_of fst snd]. destruct g.
  repeat split. exact (start_again_when_running n _ w H).
Qed.

Lemma second_start_is_a_noop_witness :
  let g := V12.set_camera_httpd (Some 0%nat) V12.boot in
  is_some (V12.camera_httpd g) = true /\
  V12.startCameraServer (E := calm) g (io0 None) =
    (tt, V12.set_server_started true g, io0 None, []).
Proof.
  cbv zeta. split; [reflexivity|].
  exact (proj1 (second_start_is_a_noop (E := calm)
                  (V12.set_camera_httpd (Some 0%nat) V12.boot)
                  (io0 None) 0 eq_refl)).
Defined.

(** C10.  When the port-80 server starts and the port-81 server does not,
    [startCameraServer] of V1.2 returns with the server-started flag false,
    the handle of the port-80 server set and its six handlers
    registered (index, status, control, capture, stream, health), and the
    snapshot handle as it was.  Every later call, and every run of later
    calls, sets the flag to true and does nothing else: no [httpd_start],
    no registration, the snapshot handle as it was. *)
Theorem snapshot_server_is_never_retried
    {E : env} (g : V12.globals) (w : io) :
  V12.camera_httpd g = None ->
  is_ok (start_feed (starts w)) = true ->
  is_ok (start_feed (S (starts w))) = false ->
  let r := V12.startCameraServer g w in
  let g' := globals_of r in
  V12.server_started g' = false /\
  V12.camera_httpd g' = Some (starts w) /\
  V12.snapshot_httpd g' = V12.snapshot_httpd g /\
  trace_of r =
    EvHttpdStart 80 8 ESP_OK :: port80_handlers (Some (starts w)) ++
    [EvHttpdStart 81 2 (start_feed (S (starts w)))] /\
  forall n w',
    let r' := start_again (S n) g' w' in
    V12.server_started (globals_of r') = true /\
    V12.camera_httpd (globals_of r') = Some (starts w) /\
    V12.snapshot_httpd (globals_of r') = V12.snapshot_httpd g /\
    trace_of r' = [] /\ world_of r' = w'.
Proof.
  intros Hnone H80 H81. cbv zeta.
  rewrite (start_port81_fails g w Hnone H80 H81).
  cbn [globals_of trace_of fst snd].
  split; [reflexivity|]. split; [reflexivity|]. split; [reflexivity|].
  split; [reflexivity|].
  intros n w'. rewrite start_again_when_running by reflexivity.
  repeat split.
Qed.

Lemma snapshot_server_is_never_retried_witness :
  let r := V12.startCameraServer (E := port81_taken) V12.boot (io0 None) in
  V12.camera_httpd V12.boot = None /\
  V12.server_started (globals_of r) = false /\
  V12.camera_httpd (globals_of r) = Some 0%nat /\
  V12.snapshot_httpd (globals_of r) = None /\
  V12.server_started
    (globals_of (start_again (E := port81_taken) 3 (globals_of r)
                   (world_of r))) = true /\
  V12.snapshot_httpd
    (globals_of (start_again (E := port81_taken) 3 (globals_of r)
                   (world_of r))) = None.
Proof.
  cbv zeta.
  pose proof (snapshot_server_is_never_retried (E := port81_taken)
                V12.boot (io0 None) eq_refl eq_refl eq_refl) as H.
  cbv zeta in H. destruct H as (A & B & C & _ & D).
  destruct (D 2%nat (world_of (V12.startCameraServer (E := port81_taken)
                                V12.boot (io0 None)))) as (D1 & _ & D3 & _).
  repeat split; assumption.
Defined.

(** ** The control handler of V1.2 *)

Lemma clamp_max_min lo hi val :
  lo <= hi -> V12.clamp lo hi val = Z.max lo (Z.min hi val).
Proof.
  intros H. unfold V12.clamp.
  destruct (val <? lo) eqn:H1; [apply Z.ltb_lt in H1 | apply Z.ltb_ge in H1].
  - destruct (hi <? lo) eqn:H2; [apply Z.ltb_lt in H2 | apply Z.ltb_ge in H2];
      lia.
  - destruct (hi <? val) eqn:H2; [apply Z.ltb_lt in H2 | apply Z.ltb_ge in H2];
      lia.
Qed.

Lemma clamp_delay_fits val : V12.clamp 33 500 val mod 65536 = V12.clamp 33 500 val.
Proof. rewrite clamp_max_min by lia. apply Z.mod_small. lia. Qed.

Ltac run_cmd1 :=
  cbv beta iota zeta delta
    [V12.cmd_handler V12.apply_control bind ret emit free malloc
     httpd_resp_send httpd_resp_set_hdr httpd_resp_send_404
     httpd_resp_send_500 log esp_camera_sensor_get sensor_set
     get_globals V12.modify trace_of result globals_of world_of
     option_map fst snd setting_of well_formed
     url_query_len url_query_str query_var query_val];
  rewrite ?is_ok_OK, ?is_ok_FAIL;
  cbn [negb andb orb app sensor next_malloc next_send with_sensor mallocs
       sends].

Ltac run_cmd := run_cmd1; run_cmd1; run_cmd1.

Section Control.
Context {P : platform} {E : env}.

Lemma requested_valid k value :
  platform_ok P -> valid_value k (requested k value).
Proof.
  intros (H0 & H1 & H2). destruct k; cbn [valid_value requested]; try lia.
  unfold V12.framesize_from_value.
  split.
  - destruct (negb psramFound && (FRAMESIZE_SVGA <? _)); [lia|].
    destruct (strcaseeq value "svga"); [lia|].
    destruct (strcaseeq value "fhd" || strcaseeq value "1080p"); [lia|].
    destruct ((0 <=? atoi value) && (atoi value <? FRAMESIZE_INVALID)) eqn:Hi;
      [|lia].
    apply andb_prop in Hi. destruct Hi as [Ha Hb].
    apply Z.leb_le in Ha. apply Z.ltb_lt in Hb. lia.
  - intros Hp. rewrite Hp. cbn [negb andb].
    destruct (FRAMESIZE_SVGA <? _) eqn:Hc; [lia|].
    apply Z.ltb_ge in Hc. exact Hc.
Qed.

(** A request that is not well-formed: a client error (a server error
    when [malloc] fails), nothing changes. *)
Lemma control_malformed req g w :
  well_formed req = false ->
  let r := V12.cmd_handler req g w in
  result r = ESP_FAIL /\ globals_of r = g /\
  sensor (world_of r) = sensor w /\
  trace_of r =
    if url_query_len req =? 0 then [EvSend404]
    else if malloc_feed (mallocs w)
         then [EvFree (QueryBuf (mallocs w)); EvSend404]
         else [EvSend500].
Proof.
  destruct req as [qlen qstr [vr var] [lr val]].
  unfold well_formed. cbn [url_query_len url_query_str query_var query_val fst].
  cbv zeta. run_cmd.
  destruct (qlen =? 0); run_cmd; [intros _; repeat split|].
  destruct (malloc_feed (mallocs w)); run_cmd; [|intros _; repeat split].
  destruct (is_ok qstr); run_cmd; [|intros _; repeat split].
  destruct (is_ok vr); run_cmd; [|intros _; repeat split].
  destruct (is_ok lr); run_cmd; [|intros _; repeat split].
  intros Hw. discriminate Hw.
Qed.

(** A variable that is not known: a server error, nothing changes. *)
Lemma control_unknown req g w :
  well_formed req = true ->
  setting_of (snd (query_var req)) = None ->
  let r := V12.cmd_handler req g w in
  result r = ESP_FAIL /\ globals_of r = g /\
  sensor (world_of r) = sensor w /\
  trace_of r =
    if malloc_feed (mallocs w)
    then [EvFree (QueryBuf (mallocs w)); EvSend500]
    else [EvSend500].
Proof.
  destruct req as [qlen qstr [vr var] [lr val]].
  unfold well_formed.
  cbn [url_query_len url_query_str query_var query_val fst snd].
  intros Hw Hs. cbv zeta.
  apply andb_prop in Hw. destruct Hw as [Hw H4].
  apply andb_prop in Hw. destruct Hw as [Hw H3].
  apply andb_prop in Hw. destruct Hw as [H1 H2].
  apply negb_true_iff in H1.
  unfold setting_of in Hs. run_cmd. rewrite H1, H2, H3, H4. run_cmd.
  destruct (malloc_feed (mallocs w)); run_cmd; [|repeat split].
  destruct (sensor w) as [s|] eqn:Hsen; run_cmd; [|repeat split; auto].
  destruct (streq var "framesize"); [discriminate Hs|].
  destruct (streq var "quality"); [discriminate Hs|].
  destruct (streq var "stream_delay"); [discriminate Hs|].
  destruct (streq var "vflip"); [discriminate Hs|].
  destruct (streq var "hmirror"); [discriminate Hs|].
  run_cmd. repeat split; auto.
Qed.

(** A well-formed request that cannot be served: [malloc] fails or there
    is no sensor.  A server error, nothing changes. *)
Lemma control_unavailable req g w :
  well_formed req = true ->
  malloc_feed (mallocs w) = false \/ sensor w = None ->
  let r := V12.cmd_handler req g w in
  result r = ESP_FAIL /\ globals_of r = g /\
  sensor (world_of r) = sensor w /\
  count_events is_server_error (trace_of r) = 1%nat /\
  count_events is_error_reply (trace_of r) = 1%nat.
Proof.
  destruct req as [qlen qstr [vr var] [lr val]].
  unfold well_formed.
  cbn [url_query_len url_query_str query_var query_val fst snd].
  intros Hw Hs. cbv zeta.
  apply andb_prop in Hw. destruct Hw as [Hw H4].
  apply andb_prop in Hw. destruct Hw as [Hw H3].
  apply andb_prop in Hw. destruct Hw as [H1 H2].
  apply negb_true_iff in H1.
  run_cmd. rewrite H1, H2, H3, H4. run_cmd.
  destruct (malloc_feed (mallocs w)); run_cmd; [|repeat split].
  destruct Hs as [Hs|Hs]; [discriminate Hs|]. rewrite Hs. run_cmd.
  repeat split; auto.
Qed.

(** A well-formed request for a known setting, with a sensor: the
    value is brought into range and handed to the setter, or stored as
    the stream delay; the reply is an error only if the driver reports
    one. *)
Lemma control_applies req g w k s :
  well_formed req = true ->
  setting_of (snd (query_var req)) = Some k ->
  malloc_feed (mallocs w) = true ->
  sensor w = Some s ->
  let v := requested k (snd (query_val req)) in
  let r := V12.cmd_handler req g w in
  match setter_of k s with
  | Some set =>
      globals_of r = g /\
      sensor (world_of r) = Some (with_status s (snd (set (status s) v)))
  | None =>
      globals_of r = V12.set_stream_delay_ms v g /\
      sensor (world_of r) = Some s
  end /\
  if accepts s k v
  then count_events is_error_reply (trace_of r) = 0%nat /\
       result r = net_feed (sends w) /\
       In (EvSend None (net_feed (sends w))) (trace_of r)
  else result r = ESP_FAIL /\
       count_events is_server_error (trace_of r) = 1%nat.
Proof.
  destruct req as [qlen qstr [vr var] [lr val]].
  unfold well_formed.
  cbn [url_query_len url_query_str query_var query_val fst snd].
  intros Hw Hs Hm Hsen. cbv zeta.
  apply andb_prop in Hw. destruct Hw as [Hw H4].
  apply andb_prop in Hw. destruct Hw as [Hw H3].
  apply andb_prop in Hw. destruct Hw as [H1 H2].
  apply negb_true_iff in H1.
  unfold setting_of in Hs. unfold accepts.
  run_cmd. rewrite H1, H2, H3, H4, Hm. run_cmd. rewrite Hsen. run_cmd.
  destruct (streq var "framesize");
    [|destruct (streq var "quality");
      [|destruct (streq var "stream_delay");
        [|destruct (streq var "vflip");
          [|destruct (streq var "hmirror"); [|discriminate Hs]]]]];
    inversion Hs; subst k; cbn [setter_of requested]; run_cmd.
  all: rewrite <- ?clamp_max_min by lia; rewrite ?clamp_delay_fits.
  2-5: repeat match goal with
         | |- context [set_quality ?s0 ?a ?b] =>
             destruct (set_quality s0 a b) as [rc st'] eqn:Hset
         | |- context [set_vflip ?s0 ?a ?b] =>
             destruct (set_vflip s0 a b) as [rc st'] eqn:Hset
         | |- context [set_hmirror ?s0 ?a ?b] =>
             destruct (set_hmirror s0 a b) as [rc st'] eqn:Hset
         end; run_cmd;
       try (destruct (is_ok rc); run_cmd);
       unfold count_events; cbn; repeat split; auto.
  destruct (negb psramFound &&
            (FRAMESIZE_SVGA <? V12.framesize_from_value (Some val)));
    run_cmd.
  all: match goal with
       | |- context [set_framesize ?s0 ?a ?b] =>
           destruct (set_framesize s0 a b) as [rc st'] eqn:Hset
       end; run_cmd; destruct (is_ok rc); run_cmd;
    unfold count_events; cbn; repeat split; auto.
Qed.
End Control.

Section ControlRange.
Context {P : platform} {E : env}.

Lemma store_in_range k s st v set :
  setter_of k s = Some set ->
  faithful s ->
  status_in_range st -> valid_value k v ->
  status_in_range (snd (set st v)) /\
  (is_ok (fst (set st v)) = true ->
   match k with
   | Framesize => framesize (snd (set st v)) = v
   | Quality => quality (snd (set st v)) = v
   | VFlip => vflip (snd (set st v)) = v
   | HMirror => hmirror (snd (set st v)) = v
   | StreamDelay => True
   end) /\
  (is_ok (fst (set st v)) = false -> snd (set st v) = st).
Proof.
  intros Hk (F1 & F2 & F3 & F4) HR Hv.
  destruct k; cbn [setter_of] in Hk; inversion Hk; subst set; clear Hk.
  - rewrite (F1 st v). destruct (is_ok (fst (set_framesize s st v)));
      unfold status_in_range, valid_value in *;
      cbn [framesize quality vflip hmirror store_framesize];
      intuition (try discriminate; try lia).
  - rewrite (F2 st v). destruct (is_ok (fst (set_quality s st v)));
      unfold status_in_range, valid_value in *;
      cbn [framesize quality vflip hmirror store_quality];
      intuition (try discriminate; try lia).
  - rewrite (F3 st v). destruct (is_ok (fst (set_vflip s st v)));
      unfold status_in_range, valid_value in *;
      cbn [framesize quality vflip hmirror store_vflip];
      intuition (try discriminate; try lia).
  - rewrite (F4 st v). destruct (is_ok (fst (set_hmirror s st v)));
      unfold status_in_range, valid_value in *;
      cbn [framesize quality vflip hmirror store_hmirror];
      intuition (try discriminate; try lia).
Qed.

Lemma control_unchanged req g w :
  well_formed req = false \/ setting_of (snd (query_var req)) = None \/
  malloc_feed (mallocs w) = false \/ sensor w = None ->
  let r := V12.cmd_handler req g w in
  result r = ESP_FAIL /\ globals_of r = g /\ sensor (world_of r) = sensor w.
Proof.
  intros H. cbv zeta. destruct (well_formed req) eqn:Hw.
  - destruct H as [H|[H|H]]; [discriminate H| |].
    + destruct (control_unknown req g w Hw H) as (A & B & C & _). auto.
    + destruct (control_unavailable req g w Hw H) as (A & B & C & _). auto.
  - destruct (control_malformed req g w Hw) as (A & B & C & _). auto.
Qed.

Lemma control_keeps_range req g w :
  platform_ok P -> sensor_faithful w -> config_in_range g w ->
  let r := V12.cmd_handler req g w in
  config_in_range (globals_of r) (world_of r) /\
  sensor_faithful (world_of r).
Proof.
  intros HP HF HR. cbv zeta.
  assert (Hsame : forall r : esp_err_t * V12.globals * io * list event,
             globals_of r = g -> sensor (world_of r) = sensor w ->
             config_in_range (globals_of r) (world_of r) /\
             sensor_faithful (world_of r)).
  { intros r Hg Hs. unfold config_in_range, sensor_faithful in *.
    rewrite Hg, Hs. auto. }
  destruct (well_formed req) eqn:Hw.
  2: { destruct (control_unchanged req g w (or_introl Hw)) as (_ & A & B).
       now apply Hsame. }
  destruct (setting_of (snd (query_var req))) as [k|] eqn:Hk.
  2: { destruct (control_unchanged req g w (or_intror (or_introl Hk)))
         as (_ & A & B). now apply Hsame. }
  destruct (malloc_feed (mallocs w)) eqn:Hm.
  2: { destruct (control_unchanged req g w
                   (or_intror (or_intror (or_introl Hm)))) as (_ & A & B).
       now apply Hsame. }
  destruct (sensor w) as [s|] eqn:Hs.
  2: { destruct (control_unchanged req g w
                   (or_intror (or_intror (or_intror Hs)))) as (_ & A & B).
       apply Hsame; [exact A | now rewrite B]. }
  pose proof (control_applies req g w k s Hw Hk Hm Hs) as [Hst _].
  cbv zeta in Hst.
  pose proof (requested_valid k (snd (query_val req)) HP) as Hv.
  unfold config_in_range, sensor_faithful in *. rewrite Hs in *.
  destruct HR as [Rd Rs].
  destruct (setter_of k s) as [set|] eqn:Hset.
  - destruct Hst as [-> ->]. cbn [status with_status].
    destruct (store_in_range k s (status s) _ set Hset HF Rs Hv) as (A & _).
    split; [split; [exact Rd | exact A]|].
    destruct HF as (F1 & F2 & F3 & F4). repeat split; assumption.
  - destruct Hst as [-> ->].
    destruct k; cbn [setter_of] in Hset; try discriminate Hset.
    cbn [V12.stream_delay_ms V12.set_stream_delay_ms].
    split; [split; [exact Hv | exact Rs] | exact HF].
Qed.
End ControlRange.

(** ** Claim C7: control brings values into range *)

(** C7.  Given a platform whose [framesize_t] is numbered in order and a
    driver whose setters store what they accept, a /control request leaves
    every field of the capture configuration within its range when it
    was within range before.  A well-formed request for a known setting is
    never refused for its value: the value is brought into the range of the
    setting (quality into 5..63, so that 999 gives 63; the stream delay
    into 33..500; flip and mirror into 0..1; the frame size into the
    enumeration, and down to SVGA when it is above SVGA and there is no
    PSRAM) and stored, with an empty success reply, unless the driver
    itself reports an error. *)
Theorem control_keeps_configuration_in_range
    {P : platform} {E : env} (req : httpd_req_t) (g : V12.globals) (w : io) :
  platform_ok P -> sensor_faithful w -> config_in_range g w ->
  let r := V12.cmd_handler req g w in
  config_in_range (globals_of r) (world_of r) /\
  (forall k s,
     well_formed req = true ->
     setting_of (snd (query_var req)) = Some k ->
     malloc_feed (mallocs w) = true ->
     sensor w = Some s ->
     let v := requested k (snd (query_val req)) in
     valid_value k v /\
     if accepts s k v
     then setting_value k (globals_of r) (world_of r) = Some v /\
          count_events is_error_reply (trace_of r) = 0%nat /\
          In (EvSend None (net_feed (sends w))) (trace_of r) /\
          result r = net_feed (sends w)
     else capture_config (globals_of r) (world_of r) = capture_config g w /\
          result r = ESP_FAIL) /\
  requested Quality "999" = 63 /\
  (forall value, psramFound = false ->
     FRAMESIZE_SVGA < V12.framesize_from_value (Some value) ->
     requested Framesize value = FRAMESIZE_SVGA).
Proof.
  intros HP HF HR. cbv zeta.
  split; [apply (control_keeps_range req g w HP HF HR)|].
  split; [|split; [reflexivity|]].
  - intros k s Hw Hk Hm Hs.
    pose proof (control_applies req g w k s Hw Hk Hm Hs) as [Hst Hrep].
    cbv zeta in *.
    pose proof (requested_valid k (snd (query_val req)) HP) as Hv.
    split; [exact Hv|].
    unfold sensor_faithful, config_in_range in *. rewrite Hs in *.
    destruct HR as [_ Rs].
    unfold accepts in *. unfold capture_config, setting_value.
    destruct (setter_of k s) as [set|] eqn:Hset.
    + destruct Hst as [Hg Hsen]. rewrite Hg, Hsen, Hs.
      cbn [option_map status with_status].
      destruct (store_in_range k s (status s) _ set Hset HF Rs Hv)
        as (_ & A & B).
      destruct (is_ok (fst (set (status s) (requested k (snd (query_val req))))));
        [|destruct Hrep as [Hr _]; rewrite (B eq_refl); auto].
      destruct Hrep as (R1 & R2 & R3). specialize (A eq_refl).
      split; [|auto].
      destruct k; cbn [setter_of] in Hset; try discriminate Hset; now rewrite A.
    + destruct Hst as [Hg Hsen]. rewrite Hg.
      destruct k; cbn [setter_of] in Hset; try discriminate Hset.
      destruct Hrep as (R1 & R2 & R3). auto.
  - intros value Hp Hlt. cbn [requested]. rewrite Hp. cbn [negb andb].
    apply Z.ltb_lt in Hlt. now rewrite Hlt.
Qed.

Lemma plain_sensor_faithful : faithful plain_sensor.
Proof. repeat split. Qed.

Lemma control_keeps_configuration_in_range_witness :
  let w := io0 (Some plain_sensor) in
  let r := V12.cmd_handler (P := xiao) (E := calm)
             (control_request "quality" "999") V12.boot w in
  platform_ok xiao /\ sensor_faithful w /\
  config_in_range (P := xiao) (E := calm) V12.boot w /\
  setting_value Quality (globals_of r) (world_of r) = Some 63 /\
  count_events is_error_reply (trace_of r) = 0%nat /\
  result r = ESP_OK.
Proof.
  cbv zeta.
  assert (HP : platform_ok xiao) by (vm_compute; repeat split; discriminate).
  assert (HF : sensor_faithful (io0 (Some plain_sensor)))
    by exact plain_sensor_faithful.
  assert (HR : config_in_range (P := xiao) (E := calm) V12.boot
                 (io0 (Some plain_sensor)))
    by (vm_compute; repeat split; discriminate).
  pose proof (control_keeps_configuration_in_range (P := xiao) (E := calm)
                (control_request "quality" "999") V12.boot
                (io0 (Some plain_sensor)) HP HF HR) as H.
  cbv zeta in H. destruct H as (_ & H & _ & _).
  specialize (H Quality plain_sensor eq_refl eq_refl eq_refl eq_refl).
  cbv zeta in H. destruct H as (_ & H).
  change (accepts plain_sensor Quality
            (requested (P := xiao) (E := calm) Quality
               (snd (query_val (control_request "quality" "999")))))
    with true in H.
  cbv iota in H. destruct H as (A & B & _ & C).
  split; [exact HP|]. split; [exact HF|]. split; [exact HR|].
  split; [exact A|]. split; [exact B | exact C].
Defined.

(** ** Claim C6: requests that /control rejects *)

(** C6, as amended.  A /control request that is not well-formed (no query
    string, or no [var], or no [val]) or that names a variable that is not
    known is answered with one error reply and no body, and it changes
    nothing: the globals and the status of the sensor, hence the capture
    configuration, are as before.  The reply to a malformed request is a
    client error (404), or a server error when the copy of the query
    cannot be allocated; the reply to a well-formed request for an unknown
    variable is a server error (500), not a client error. *)
Theorem control_rejects_without_change
    {P : platform} {E : env} (req : httpd_req_t) (g : V12.globals) (w : io) :
  well_formed req = false \/ setting_of (snd (query_var req)) = None ->
  let r := V12.cmd_handler req g w in
  result r = ESP_FAIL /\
  globals_of r = g /\ sensor (world_of r) = sensor w /\
  capture_config (globals_of r) (world_of r) = capture_config g w /\
  count_events is_error_reply (trace_of r) = 1%nat /\
  count_events is_body (trace_of r) = 0%nat /\
  (well_formed req = false ->
   if (url_query_len req =? 0) || malloc_feed (mallocs w)
   then In EvSend404 (trace_of r) /\
        count_events is_client_error (trace_of r) = 1%nat
   else In EvSend500 (trace_of r)) /\
  (well_formed req = true ->
   In EvSend500 (trace_of r) /\
   count_events is_server_error (trace_of r) = 1%nat /\
   count_events is_client_error (trace_of r) = 0%nat).
Proof.
  intros H. cbv zeta. unfold capture_config.
  destruct (well_formed req) eqn:Hw.
  - destruct H as [H|H]; [discriminate H|].
    destruct (control_unknown req g w Hw H) as (A & B & C & D).
    rewrite A, B, C, D. unfold count_events.
    destruct (malloc_feed (mallocs w)); cbn;
      repeat split; auto; discriminate.
  - destruct (control_malformed req g w Hw) as (A & B & C & D).
    rewrite A, B, C, D. unfold count_events.
    destruct (url_query_len req =? 0); [|destruct (malloc_feed (mallocs w))];
      cbn; repeat split; auto; discriminate.
Qed.

Lemma control_rejects_without_change_witness :
  let w := io0 (Some plain_sensor) in
  let r := V12.cmd_handler (P := xiao) (E := calm)
             (request_without_val "quality") V12.boot w in
  well_formed (request_without_val "quality") = false /\
  result r = ESP_FAIL /\
  capture_config (globals_of r) (world_of r) = capture_config V12.boot w /\
  count_events is_client_error (trace_of r) = 1%nat.
Proof.
  cbv zeta.
  pose proof (control_rejects_without_change (P := xiao) (E := calm)
                (request_without_val "quality") V12.boot
                (io0 (Some plain_sensor)) (or_introl eq_refl)) as H.
  cbv zeta in H. destruct H as (A & _ & _ & B & _ & _ & C & _).
  specialize (C eq_refl).
  change ((url_query_len (request_without_val "quality") =? 0)
          || @malloc_feed calm (mallocs (io0 (Some plain_sensor))))
    with true in C.
  cbv iota in C. destruct C as [_ C].
  split; [reflexivity|]. split; [exact A|]. split; [exact B | exact C].
Defined.

(** C6, as stated, fails: a request for a variable that is not known is
    answered with a server error, not with a client error. *)
Lemma unknown_variable_gets_a_server_error :
  let r := V12.cmd_handler (P := xiao) (E := calm)
             (control_request "zoom" "2") V12.boot (io0 (Some plain_sensor)) in
  well_formed (control_request "zoom" "2") = true /\
  setting_of "zoom" = None /\
  trace_of r = [EvFree (QueryBuf 0); EvSend500] /\
  count_events is_client_error (trace_of r) = 0%nat /\
  count_events is_server_error (trace_of r) = 1%nat.
Proof. vm_compute. repeat split. Qed.

(** ** The camera warm-up *)

Section Warmup.
Context {P : platform} {E : env}.

Lemma warmup_run g w :
  Rest12.warmupCamera g w =
  (tt, g, next_get (next_get (next_get w)),
   warm_pass w 0 ++ warm_pass w 1 ++ warm_pass w 2).
Proof.
  unfold Rest12.warmupCamera, warm_pass, attempt.
  rewrite !Nat.add_0_r, !Nat.add_1_r.
  replace (gets w + 2)%nat with (S (S (gets w))) by lia.
  cbn [Rest12.warmup_loop].
  change (0 <? 3) with true. change (0 + 1 <? 3) with true.
  change (0 + 1 + 1 <? 3) with true. cbv iota.
  run_m.
  destruct (cam_feed (gets w)); run_m; cbn [gets next_get];
    destruct (cam_feed (S (gets w))); run_m; cbn [gets next_get];
    destruct (cam_feed (S (S (gets w)))); run_m; reflexivity.
Qed.

Lemma warm_pass_audit w k L : audit (warm_pass w k) L = Some L.
Proof.
  unfold warm_pass. destruct (attempt w k) as [fb|]; cbn [audit audit_event];
    [|reflexivity].
  cbn [held live take_out]. rewrite Nat.eqb_refl. cbn [option_map].
  destruct L; reflexivity.
Qed.

Lemma warm_pass_counts w k :
  count_events is_fb_get (warm_pass w k) = 1%nat /\
  count_events is_delay (warm_pass w k) =
  count_events is_frame (warm_pass w k) /\
  (forall id, returns id (warm_pass w k) = acquisitions id (warm_pass w k)) /\
  Forall (fun e => is_delay e = true ->
                   e = EvDelay (Z.quot 100 portTICK_PERIOD_MS))
         (warm_pass w k) /\
  encoded_frames (warm_pass w k) = [] /\ frees (warm_pass w k) = [].
Proof.
  unfold warm_pass. destruct (attempt w k) as [fb|].
  - repeat split; try reflexivity.
    repeat constructor; discriminate.
  - repeat split; try reflexivity.
    repeat constructor; discriminate.
Qed.

End Warmup.

(** X1 ([warmupCamera], V1.2): the warm-up is three passes, whatever the
    camera answers, and each pass asks the camera for a frame once: a
    frame is handed back to the pool at once and followed by a wait of
    100 ms, a failed acquisition is followed by nothing.  So the warm-up
    asks for a frame exactly three times and ends owning nothing; it
    calls no encoder, frees nothing, and leaves the globals, the failure
    counter of the stream handler among them, as they were. *)
Theorem warmup_takes_three_frames_and_keeps_none
    {P : platform} {E : env} (g : V12.globals) (w : io) :
  let r := Rest12.warmupCamera g w in
  trace_of r = warm_pass w 0 ++ warm_pass w 1 ++ warm_pass w 2 /\
  count_events is_fb_get (trace_of r) = 3%nat /\
  gets (world_of r) = (gets w + 3)%nat /\
  balanced (trace_of r) /\
  (forall id, returns id (trace_of r) = acquisitions id (trace_of r)) /\
  count_events is_delay (trace_of r) = count_events is_frame (trace_of r) /\
  Forall (fun e => is_delay e = true ->
                   e = EvDelay (Z.quot 100 portTICK_PERIOD_MS))
         (trace_of r) /\
  encoded_frames (trace_of r) = [] /\ frees (trace_of r) = [] /\
  globals_of r = g.
Proof.
  cbv zeta. rewrite warmup_run. cbn [trace_of world_of globals_of fst snd].
  pose proof (warm_pass_counts w 0) as (A0 & B0 & C0 & D0 & E0 & F0).
  pose proof (warm_pass_counts w 1) as (A1 & B1 & C1 & D1 & E1 & F1).
  pose proof (warm_pass_counts w 2) as (A2 & B2 & C2 & D2 & E2 & F2).
  split; [reflexivity|].
  repeat split.
  - rewrite !count_events_app. lia.
  - cbn [gets next_get]. lia.
  - unfold balanced. repeat (rewrite audit_app, warm_pass_audit).
    apply warm_pass_audit.
  - intros id. rewrite !returns_app, !acquisitions_app. congruence.
  - rewrite !count_events_app. lia.
  - repeat (apply Forall_app; split); assumption.
  - unfold encoded_frames in *. rewrite !flat_map_app.
    rewrite E0, E1, E2. reflexivity.
  - rewrite !frees_app, F0, F1, F2. reflexivity.
Qed.

(** ** Frame sizes and their names *)

(** A text whose first character is not a blank, a sign or a digit holds no
    number for [atoi]. *)
Lemma atoi_no_number c rest :
  isspace c = false -> isdigit c = false -> c <> "-"%char -> c <> "+"%char ->
  atoi (String c rest) = 0.
Proof.
  intros Hs Hd Hm Hp. unfold atoi. cbn [skip_spaces]. rewrite Hs.
  assert (Hv : digits_value (String c rest) 0 = 0).
  { cbn [digits_value]. now rewrite Hd. }
  destruct (Ascii.eqb c "-") eqn:E1; [apply Ascii.eqb_eq in E1; contradiction|].
  destruct (Ascii.eqb c "+") eqn:E2; [apply Ascii.eqb_eq in E2; contradiction|].
  destruct c as [[] [] [] [] [] [] [] []]; try discriminate E1;
    try discriminate E2; try (exfalso; apply Hm; reflexivity);
    try (exfalso; apply Hp; reflexivity); rewrite Hv; reflexivity.
Qed.

Lemma atoi_empty : atoi EmptyString = 0.
Proof. reflexivity. Qed.

Section Framesize.
Context {P : platform}.

Lemma v11_framesize_same value :
  Rest11.framesize_from_value value = V12.framesize_from_value value.
Proof. reflexivity. Qed.

Lemma framesize_from_value_range value :
  platform_ok P -> 0 <= V12.framesize_from_value value < FRAMESIZE_INVALID.
Proof.
  intros (H0 & H1 & H2). unfold V12.framesize_from_value.
  destruct value as [s|]; [|lia].
  destruct (strcaseeq s "svga"); [lia|].
  destruct (strcaseeq s "fhd" || strcaseeq s "1080p"); [lia|].
  destruct ((0 <=? atoi s) && (atoi s <? FRAMESIZE_INVALID)) eqn:Hi; [|lia].
  apply andb_prop in Hi. destruct Hi as [Ha Hb].
  apply Z.leb_le in Ha. apply Z.ltb_lt in Hb. lia.
Qed.

End Framesize.

(** X2 ([framesize_from_value], V1.2 and V1.1, which are the same
    function).  With the enumeration [framesize_t] in its order, the
    function answers a member of the enumeration for every input: a null
    pointer gives SVGA; a text that is none of the three names gives the
    number [atoi] reads from it when that is a member of the enumeration,
    and SVGA when it is negative or beyond the end marker; so the empty
    text and every text that does not begin with a number, the name of
    another frame size for one, give the frame size 0 and not SVGA. *)
Theorem framesize_from_value_stays_in_the_enumeration
    {P : platform} (value : option string) :
  platform_ok P ->
  let f := V12.framesize_from_value value in
  0 <= f < FRAMESIZE_INVALID /\
  Rest11.framesize_from_value value = f /\
  (value = None -> f = FRAMESIZE_SVGA) /\
  (forall s, value = Some s ->
     strcaseeq s "svga" = false -> strcaseeq s "fhd" = false ->
     strcaseeq s "1080p" = false ->
     (atoi s < 0 \/ FRAMESIZE_INVALID <= atoi s -> f = FRAMESIZE_SVGA) /\
     (0 <= atoi s < FRAMESIZE_INVALID -> f = atoi s) /\
     (s = EmptyString -> f = 0) /\
     (forall c rest,
        s = String c rest -> isspace c = false -> isdigit c = false ->
        c <> "-"%char -> c <> "+"%char -> f = 0)).
Proof.
  intros HP. cbv zeta. split; [now apply framesize_from_value_range|].
  split; [reflexivity|]. split; [intros ->; reflexivity|].
  intros s -> H1 H2 H3. destruct HP as (P0 & P1 & P2).
  unfold V12.framesize_from_value. rewrite H1, H2, H3. cbn [orb].
  assert (Hz : atoi s = 0 ->
               (if (0 <=? atoi s) && (atoi s <? FRAMESIZE_INVALID)
                then atoi s else FRAMESIZE_SVGA) = 0).
  { intros ->. replace (0 <? FRAMESIZE_INVALID) with true; [reflexivity|].
    symmetry. apply Z.ltb_lt. lia. }
  repeat split.
  - intros [Hn|Hn].
    + replace (0 <=? atoi s) with false; [reflexivity|].
      symmetry. apply Z.leb_gt. exact Hn.
    + replace (atoi s <? FRAMESIZE_INVALID) with false;
        [now rewrite andb_false_r|].
      symmetry. apply Z.ltb_ge. exact Hn.
  - intros [Ha Hb]. apply Z.leb_le in Ha. apply Z.ltb_lt in Hb.
    now rewrite Ha, Hb.
  - intros ->. apply Hz. reflexivity.
  - intros c rest -> Hs Hd Hm Hp. apply Hz. now apply atoi_no_number.
Qed.

Lemma framesize_from_value_stays_in_the_enumeration_witness :
  platform_ok xiao /\
  V12.framesize_from_value (P := xiao) (Some "uxga") = 0 /\
  V12.framesize_from_value (P := xiao) (Some "40") = 9 /\
  V12.framesize_from_value (P := xiao) (Some "13") = 13.
Proof.
  assert (HP : platform_ok xiao) by (unfold platform_ok; cbn; lia).
  split; [exact HP|].
  pose proof (framesize_from_value_stays_in_the_enumeration (P := xiao)
                (Some "uxga") HP) as H1.
  pose proof (framesize_from_value_stays_in_the_enumeration (P := xiao)
                (Some "40") HP) as H2.
  pose proof (framesize_from_value_stays_in_the_enumeration (P := xiao)
                (Some "13") HP) as H3.
  cbv zeta in H1, H2, H3.
  destruct H1 as (_ & _ & _ & H1). destruct H2 as (_ & _ & _ & H2).
  destruct H3 as (_ & _ & _ & H3).
  destruct (H1 "uxga" eq_refl eq_refl eq_refl eq_refl) as (_ & _ & _ & A).
  destruct (H2 "40" eq_refl eq_refl eq_refl eq_refl) as (B & _).
  destruct (H3 "13" eq_refl eq_refl eq_refl eq_refl) as (_ & C & _).
  split; [|split].
  - apply (A "u"%char "xga"); try reflexivity; intros Hc; discriminate Hc.
  - apply B. right. vm_compute. discriminate.
  - apply C. vm_compute. split; [discriminate | reflexivity].
Defined.

(** X3 ([framesize_name] and [framesize_from_value]).  The names that
    the status reply shows read back as the frame sizes they name: the name
    of FHD and of SVGA gives that frame size again, whatever the numbering
    of the enumeration; the name CUSTOM, shown for every other frame
    size, reads back as frame size 0.  The other way round, the texts
    svga, fhd and 1080p, in any case of letters, select a frame size that
    is shown as SVGA and FHD. *)
Theorem framesize_names_read_back
    {P : platform} (size : Z) :
  platform_ok P ->
  V12.framesize_from_value (Some (V12.framesize_name size)) =
    (if (size =? FRAMESIZE_FHD) || (size =? FRAMESIZE_SVGA) then size else 0) /\
  (V12.framesize_name size = "CUSTOM" <->
   size <> FRAMESIZE_FHD /\ size <> FRAMESIZE_SVGA) /\
  (forall s, strcaseeq s "svga" = true ->
     V12.framesize_name (V12.framesize_from_value (Some s)) = "SVGA") /\
  (forall s, strcaseeq s "fhd" = true \/ strcaseeq s "1080p" = true ->
     strcaseeq s "svga" = false ->
     V12.framesize_name (V12.framesize_from_value (Some s)) = "FHD").
Proof.
  intros (P0 & P1 & P2). repeat split.
  - unfold V12.framesize_name.
    destruct (size =? FRAMESIZE_FHD) eqn:H1.
    + apply Z.eqb_eq in H1. subst size. reflexivity.
    + destruct (size =? FRAMESIZE_SVGA) eqn:H2.
      * apply Z.eqb_eq in H2. subst size. reflexivity.
      * cbn [orb]. unfold V12.framesize_from_value.
        change (strcaseeq "CUSTOM" "svga") with false.
        change (strcaseeq "CUSTOM" "fhd" || strcaseeq "CUSTOM" "1080p")
          with false.
        change (atoi "CUSTOM") with 0. cbv iota.
        replace (0 <? FRAMESIZE_INVALID) with true; [reflexivity|].
        symmetry. apply Z.ltb_lt. lia.
  - unfold V12.framesize_name in H.
    destruct (size =? FRAMESIZE_FHD) eqn:H1; [discriminate H|].
    now apply Z.eqb_neq.
  - unfold V12.framesize_name in H.
    destruct (size =? FRAMESIZE_FHD) eqn:H1; [discriminate H|].
    destruct (size =? FRAMESIZE_SVGA) eqn:H2; [discriminate H|].
    now apply Z.eqb_neq.
  - intros [H1 H2]. unfold V12.framesize_name.
    apply Z.eqb_neq in H1, H2. now rewrite H1, H2.
  - intros s Hs. unfold V12.framesize_from_value. rewrite Hs.
    unfold V12.framesize_name.
    replace (FRAMESIZE_SVGA =? FRAMESIZE_FHD) with false
      by (symmetry; apply Z.eqb_neq; lia).
    now rewrite Z.eqb_refl.
  - intros s Hs Hn. unfold V12.framesize_from_value. rewrite Hn.
    replace (strcaseeq s "fhd" || strcaseeq s "1080p") with true
      by (symmetry; apply orb_true_iff; exact Hs).
    unfold V12.framesize_name. now rewrite Z.eqb_refl.
Qed.

Lemma framesize_names_read_back_witness :
  platform_ok xiao /\
  V12.framesize_from_value (P := xiao)
    (Some (V12.framesize_name (P := xiao) 14)) = 14 /\
  V12.framesize_from_value (P := xiao)
    (Some (V12.framesize_name (P := xiao) 13)) = 0 /\
  V12.framesize_name (P := xiao)
    (V12.framesize_from_value (P := xiao) (Some "1080P")) = "FHD".
Proof.
  assert (HP : platform_ok xiao) by (unfold platform_ok; cbn; lia).
  split; [exact HP|].
  split; [exact (proj1 (framesize_names_read_back (P := xiao) 14 HP))|].
  split; [exact (proj1 (framesize_names_read_back (P := xiao) 13 HP))|].
  destruct (framesize_names_read_back (P := xiao) 0 HP) as (_ & _ & _ & H).
  apply H; [right; reflexivity | reflexivity].
Defined.

(** ** Starting the servers of V1.2 from scratch *)

Section FirstStart.
Context {E : env}.

Lemma start_port80_fails g w :
  V12.camera_httpd g = None ->
  is_ok (start_feed (starts w)) = false ->
  V12.startCameraServer g w =
  (tt, V12.set_server_started false g, next_start w,
   [EvHttpdStart 80 8 (start_feed (starts w))]).
Proof.
  intros Hnone H80.
  unfold V12.startCameraServer, bind, get_globals, httpd_start, V12.modify.
  rewrite Hnone. cbn [is_some]. rewrite H80. cbn [negb app].
  destruct g; cbn in *; subst; reflexivity.
Qed.

Lemma start_both g w :
  V12.camera_httpd g = None ->
  is_ok (start_feed (starts w)) = true ->
  is_ok (start_feed (S (starts w))) = true ->
  V12.startCameraServer g w =
  (tt,
   V12.set_server_started true
     (V12.set_snapshot_httpd (Some (S (starts w)))
        (V12.set_camera_httpd (Some (starts w)) g)),
   next_start (next_start w),
   EvHttpdStart 80 8 ESP_OK :: port80_handlers (Some (starts w)) ++
   [EvHttpdStart 81 2 ESP_OK;
    EvRegister (Some (S (starts w))) "/snapshot" capture_handler_]).
Proof.
  intros Hnone H80 H81.
  unfold V12.startCameraServer, bind, get_globals, httpd_start,
    httpd_register_uri_handler, V12.modify, emit.
  rewrite Hnone. cbn [is_some]. rewrite H80. cbn [negb].
  cbn [starts next_start]. rewrite H81. cbn [negb app port80_handlers].
  apply is_ok_true in H80, H81. rewrite H80, H81.
  destruct g; reflexivity.
Qed.

End FirstStart.

(** X4 ([startCameraServer], V1.2, port 80 fails).  When no server runs
    and [httpd_start] fails for port 80, the call stops there: it does not
    ask for port 81, registers no handler, and leaves the handles null and
    the server-started flag false.  Since the guard of the function looks
    at the handle of port 80, the next call is no no-op: it asks for port
    80 again, and brings both servers up when they start then. *)
Theorem failed_port80_start_is_tried_again
    {E : env} (g : V12.globals) (w : io) :
  V12.camera_httpd g = None ->
  is_ok (start_feed (starts w)) = false ->
  let r := V12.startCameraServer g w in
  let r' := V12.startCameraServer (globals_of r) (world_of r) in
  trace_of r = [EvHttpdStart 80 8 (start_feed (starts w))] /\
  globals_of r = V12.set_server_started false g /\
  V12.camera_httpd (globals_of r) = None /\
  (exists rest,
     trace_of r' = EvHttpdStart 80 8 (start_feed (S (starts w))) :: rest) /\
  (is_ok (start_feed (S (starts w))) = true ->
   is_ok (start_feed (S (S (starts w)))) = true ->
   V12.server_started (globals_of r') = true /\
   V12.camera_httpd (globals_of r') = Some (S (starts w)) /\
   V12.snapshot_httpd (globals_of r') = Some (S (S (starts w)))).
Proof.
  intros Hnone H80. cbv zeta. rewrite (start_port80_fails g w Hnone H80).
  cbn [trace_of globals_of world_of fst snd].
  split; [reflexivity|]. split; [reflexivity|].
  split; [exact Hnone|]. split.
  - destruct (is_ok (start_feed (S (starts w)))) eqn:H1.
    + destruct (is_ok (start_feed (S (S (starts w))))) eqn:H2.
      * rewrite (start_both (V12.set_server_started false g) (next_start w)
                   Hnone H1 H2).
        apply is_ok_true in H1. cbn [starts next_start]. rewrite H1.
        eexists. reflexivity.
      * rewrite (start_port81_fails (V12.set_server_started false g)
                   (next_start w) Hnone H1 H2).
        apply is_ok_true in H1. cbn [starts next_start]. rewrite H1.
        eexists. reflexivity.
    + rewrite (start_port80_fails (V12.set_server_started false g)
                 (next_start w) Hnone H1).
      eexists. reflexivity.
  - intros H1 H2.
    rewrite (start_both (V12.set_server_started false g) (next_start w));
      [repeat split | exact Hnone | exact H1 | exact H2].
Qed.

Lemma failed_port80_start_is_tried_again_witness :
  let E := with_start calm (fun n => if Nat.eqb n 0 then ESP_FAIL else ESP_OK) in
  let r := V12.startCameraServer (E := E) V12.boot (io0 None) in
  let r' := V12.startCameraServer (E := E) (globals_of r) (world_of r) in
  V12.camera_httpd V12.boot = None /\
  trace_of r = [EvHttpdStart 80 8 ESP_FAIL] /\
  V12.server_started (globals_of r') = true.
Proof.
  cbv zeta.
  pose proof (failed_port80_start_is_tried_again
                (E := with_start calm
                        (fun n => if Nat.eqb n 0 then ESP_FAIL else ESP_OK))
                V12.boot (io0 None) eq_refl eq_refl) as H.
  cbv zeta in H. destruct H as (A & _ & _ & _ & B).
  split; [reflexivity|]. split; [exact A|].
  exact (proj1 (B eq_refl eq_refl)).
Defined.

(** X5 ([startCameraServer], V1.2, both servers start).  A first start
    that succeeds asks for port 80 with room for 8 handlers, registers the
    six handlers of the user interface there (index, status, control,
    capture, stream, health), then asks for port 81 with room for 2 and
    registers /snapshot there and nowhere else; it sets both handles and
    the server-started flag. *)
Theorem first_start_puts_snapshot_on_port81
    {E : env} (g : V12.globals) (w : io) :
  V12.camera_httpd g = None ->
  is_ok (start_feed (starts w)) = true ->
  is_ok (start_feed (S (starts w))) = true ->
  let r := V12.startCameraServer g w in
  trace_of r =
    EvHttpdStart 80 8 ESP_OK :: port80_handlers (Some (starts w)) ++
    [EvHttpdStart 81 2 ESP_OK;
     EvRegister (Some (S (starts w))) "/snapshot" capture_handler_] /\
  V12.server_started (globals_of r) = true /\
  V12.camera_httpd (globals_of r) = Some (starts w) /\
  V12.snapshot_httpd (globals_of r) = Some (S (starts w)) /\
  (forall h uri f, In (EvRegister h uri f) (trace_of r) ->
     (uri = "/snapshot" <-> h = Some (S (starts w)))) /\
  V12.stream_delay_ms (globals_of r) = V12.stream_delay_ms g /\
  V12.error_count (globals_of r) = V12.error_count g.
Proof.
  intros Hnone H80 H81. cbv zeta. rewrite (start_both g w Hnone H80 H81).
  cbn [trace_of globals_of fst snd].
  split; [reflexivity|]. split; [reflexivity|]. split; [reflexivity|].
  split; [reflexivity|]. split; [|split; reflexivity].
  intros h uri f Hin. cbn [port80_handlers app In] in Hin.
  repeat (destruct Hin as [Hin|Hin]; try discriminate Hin);
    try contradiction.
  all: inversion Hin; subst; split; intros H; try discriminate H;
    try reflexivity.
  all: inversion H; lia.
Qed.

Lemma first_start_puts_snapshot_on_port81_witness :
  let r := V12.startCameraServer (E := calm) V12.boot (io0 None) in
  V12.camera_httpd V12.boot = None /\
  V12.server_started (globals_of r) = true /\
  V12.camera_httpd (globals_of r) = Some 0%nat /\
  V12.snapshot_httpd (globals_of r) = Some 1%nat.
Proof.
  cbv zeta.
  pose proof (first_start_puts_snapshot_on_port81 (E := calm) V12.boot
                (io0 None) eq_refl eq_refl eq_refl) as H.
  cbv zeta in H. destruct H as (_ & A & B & C & _).
  repeat split; assumption.
Defined.

(** ** The parts of the V1.2 stream on the wire *)

Ltac know_answers :=
  repeat match goal with
         | H : is_ok ?r = true |- _ => apply is_ok_true in H; rewrite ?H
         end.

(** The chunk that was refused is the [n]-th of its part. *)
Ltac refused_at :=
  match goal with
  | H : is_ok ?rc = false |- _ =>
      first [ exists 0%nat, rc; split; [cbn; lia|]; split; [exact H|];
              reflexivity
            | exists 1%nat, rc; split; [cbn; lia|]; split; [exact H|];
              reflexivity
            | exists 2%nat, rc; split; [cbn; lia|]; split; [exact H|];
              reflexivity ]
  end.

Section Parts.
Context {P : platform} {E : env}.

Lemma iteration_chunks l g w :
  loop_head l ->
  let r := V12.stream_iteration l g w in
  match next_image w with
  | None => chunks_sent (trace_of r) = []
  | Some (len, ts, p) =>
      if is_break (result r)
      then exists n rc,
             (n < List.length (part_chunks len ts p))%nat /\
             is_ok rc = false /\
             chunks_sent (trace_of r) =
             accepted_then (part_chunks len ts p) n (Some rc)
      else chunks_sent (trace_of r) =
           map (fun c => (c, ESP_OK)) (part_chunks len ts p)
  end.
Proof.
  intros Hhead. at_loop_head l Hhead. cbv zeta.
  unfold next_image, attempt. rewrite Nat.add_0_r. tidy.
  destruct (cam_feed (gets w)) as [raw|]; tidy.
  2: { destruct (10 <? _); reflexivity. }
  cbn [mk_fb fb_format fb_len fb_id fb_timestamp encs next_get].
  destruct (is_jpeg (raw_format raw)); tidy.
  - repeat (split_match; tidy); try discriminate.
    all: know_answers; unfold part_chunks, accepted_then; use_tests.
    all: cbn [chunks_sent flat_map app map firstn nth_error List.length].
    all: try reflexivity.
    all: refused_at.
  - cbn [encs next_get].
    destruct (enc_feed (encs w)) as [conv [len|]]; tidy.
    2: { destruct conv; reflexivity. }
    destruct conv; tidy; [|reflexivity].
    destruct (to_uint32 len =? 0) eqn:Hlen; tidy; [reflexivity|].
    repeat (split_match; tidy); try discriminate.
    all: know_answers; unfold part_chunks, accepted_then; use_tests.
    all: cbn [chunks_sent flat_map app map firstn nth_error List.length].
    all: try reflexivity.
    all: refused_at.
Qed.
End Parts.

(** X6 ([stream_handler], V1.2, the loop body from "Send boundary" on).
    What one pass of the stream loop puts on the wire.  When the camera and
    the encoder yield a JPEG image, the pass sends its part and nothing
    else: the boundary marker, then the part header, whose Content-Length
    is the length of the image and whose X-Timestamp is the capture time of
    the frame, then the image with exactly that length (no third chunk for
    an image of no bytes).  The pass goes on to the next frame when the
    connection accepted all of them; it sends no further chunk after
    the first one that the connection refused, and stops then.  A pass
    without an image sends no chunk. *)
Theorem stream_part_announces_what_it_sends
    {P : platform} {E : env} (l : V12.locals) (g : V12.globals) (w : io) :
  loop_head l ->
  let r := V12.stream_iteration l g w in
  match next_image w with
  | None => chunks_sent (trace_of r) = []
  | Some (len, ts, p) =>
      if is_break (result r)
      then exists n rc,
             (n < List.length (part_chunks len ts p))%nat /\
             is_ok rc = false /\
             chunks_sent (trace_of r) =
             accepted_then (part_chunks len ts p) n (Some rc)
      else chunks_sent (trace_of r) =
           map (fun c => (c, ESP_OK)) (part_chunks len ts p)
  end.
Proof. intros H. now apply iteration_chunks. Qed.

Lemma stream_part_announces_what_it_sends_witness :
  loop_head loop_entry /\
  chunks_sent
    (trace_of (V12.stream_iteration (P := xiao) (E := calm) loop_entry
                 V12.boot (io0 None))) =
  [(ChunkText V12._STREAM_BOUNDARY, ESP_OK);
   (ChunkText (V12._STREAM_PART 20000 12 345), ESP_OK);
   (ChunkData (Some (FbBuf 0)) 20000, ESP_OK)].
Proof.
  split; [apply loop_entry_head|].
  exact (stream_part_announces_what_it_sends (P := xiao) (E := calm)
           loop_entry V12.boot (io0 None) loop_entry_head).
Defined.

(** ** Firmware V1.1: frames and buffers *)

Ltac at_loop_head11 l H :=
  destruct l as [? ? ? ? ?]; unfold loop_head11 in H; simpl in H;
  destruct H as [-> [-> ->]].

Section V11Release.
Context {P : platform} {E : env}.

Lemma v11_iteration_audit l g w L :
  loop_head11 l ->
  audit (trace_of (V11.stream_iteration l g w)) L = Some L.
Proof.
  intros Hhead. at_loop_head11 l Hhead. run_iteration11.
  all: cbn [audit audit_event option_map take_out fb_id mk_fb held live
            buf_ptr_eqb]; rewrite ?Nat.eqb_refl.
  all: cbn [audit audit_event option_map take_out fb_id mk_fb held live
            buf_ptr_eqb]; rewrite ?Nat.eqb_refl; cbn [option_map audit].
  all: destruct L; reflexivity.
Qed.

Lemma v11_iteration_locals l g w l' :
  loop_head11 l ->
  result (V11.stream_iteration l g w) = V11.Continue l' -> loop_head11 l'.
Proof.
  intros Hhead. at_loop_head11 l Hhead. run_iteration11.
  all: intros H; inversion H; subst; unfold loop_head11; cbn.
  all: repeat split; try reflexivity.
  all: try (apply is_ok_true; assumption).
Qed.

Lemma v11_stream_loop_S fuel l g w :
  V11.stream_loop (S fuel) l g w =
  let r := V11.stream_iteration l g w in
  match result r with
  | V11.Break l' => (Some l', globals_of r, world_of r, trace_of r ++ [])
  | V11.Continue l' =>
      let r' := V11.stream_loop fuel l' (globals_of r) (world_of r) in
      (result r', globals_of r', world_of r', trace_of r ++ trace_of r')
  end.
Proof.
  cbn [V11.stream_loop]. unfold bind.
  destruct (V11.stream_iteration l g w) as [[[c g1] w1] d].
  destruct c as [l'|l']; cbn; [|reflexivity].
  destruct (V11.stream_loop fuel l' g1 w1) as [[[o g2] w2] t]. reflexivity.
Qed.

Lemma v11_loop_audit fuel l g w L :
  loop_head11 l -> audit (trace_of (V11.stream_loop fuel l g w)) L = Some L.
Proof.
  revert l g w. induction fuel as [|fuel IH]; intros l g w Hl.
  - reflexivity.
  - rewrite v11_stream_loop_S. cbv zeta.
    destruct (result (V11.stream_iteration l g w)) as [l'|l'] eqn:Hc;
      cbn [trace_of snd]; rewrite audit_app, v11_iteration_audit by exact Hl.
    + apply IH. eapply v11_iteration_locals; eauto.
    + reflexivity.
Qed.

Lemma v11_stream_audit fuel g w L :
  audit (trace_of (V11.stream_handler fuel g w)) L = Some L.
Proof.
  unfold V11.stream_handler, bind, httpd_resp_set_type.
  destruct (is_ok (type_feed (types w))) eqn:Hty; cbn [negb];
    [|reflexivity].
  apply is_ok_true in Hty. rewrite Hty. fold loop_entry11.
  unfold httpd_resp_set_hdr, emit.
  pose proof (v11_loop_audit fuel loop_entry11 g (next_type w) L
                (conj eq_refl (conj eq_refl eq_refl))) as Ha.
  destruct (V11.stream_loop fuel loop_entry11 g (next_type w))
    as [[[o g1] w1] t].
  cbn [trace_of snd] in Ha. destruct o; cbn; rewrite ?app_nil_r; exact Ha.
Qed.

Lemma v11_capture_audit g w L :
  audit (trace_of (V11.capture_handler g w)) L = Some L.
Proof.
  run_m11. destruct (cam_feed (gets w)) as [r0|]; run_m11; [|reflexivity].
  match goal with
  | |- context [is_jpeg ?f] => destruct (is_jpeg f) eqn:Hj
  end; run_m11.
  - cbn [audit audit_event option_map take_out fb_id mk_fb held live].
    rewrite Nat.eqb_refl. destruct L; reflexivity.
  - unfold frame2jpg_cb. run_m11.
    pose proof (v11_push_chunks_wire
                  (cb_gives_up (enc_cb_feed (cbs (next_type (next_get w)))))
                  (map to_uint32
                     (cb_chunks (enc_cb_feed (cbs (next_type (next_get w))))))
                  0 0 g (next_cb (next_type (next_get w)))) as Hw.
    destruct (push_chunks V11.jpg_encode_stream _ _ 0 0 g
                (next_cb (next_type (next_get w)))) as [[[pushed g1] w1] t1].
    cbn [trace_of snd] in Hw. run_m11.
    assert (Hn : Forall (fun e => touches_ledger e = false) t1).
    { eapply Forall_impl; [|exact Hw].
      intros e He. destruct e; try discriminate He; reflexivity. }
    cbn [audit audit_event fb_id mk_fb held live].
    rewrite <- !app_assoc, !audit_app.
    rewrite (audit_neutral _ _ Hn).
    cbn [app audit audit_event option_map take_out fb_id mk_fb held live].
    rewrite Nat.eqb_refl. destruct L; reflexivity.
Qed.

(** The stream loop of V1.1 does not outlive a failed acquisition. *)
Lemma v11_iteration_failed_get l g w :
  loop_head11 l ->
  let r := V11.stream_iteration l g w in
  (count_events is_failed_get (trace_of r) <= 1)%nat /\
  (count_events is_failed_get (trace_of r) = 1%nat ->
   cam_feed (gets w) = None /\
   globals_of r = g /\
   trace_of r = [EvFbGet None; EvLog "Camera capture failed"] /\
   exists l', result r = V11.Break l' /\ V11.res l' = ESP_FAIL) /\
  (cam_feed (gets w) = None ->
   count_events is_failed_get (trace_of r) = 1%nat).
Proof.
  intros Hhead. at_loop_head11 l Hhead. run_iteration11.
  all: unfold count_events; cbn [filter is_failed_get List.length].
  all: split; [lia|]; split.
  all: try (intros H; discriminate H).
  all: intros _; repeat split; eauto.
Qed.

Lemma v11_loop_failed_get fuel l g w :
  loop_head11 l ->
  let r := V11.stream_loop fuel l g w in
  (count_events is_failed_get (trace_of r) <= 1)%nat /\
  (count_events is_failed_get (trace_of r) = 1%nat ->
   (exists l', result r = Some l' /\ V11.res l' = ESP_FAIL) /\
   exists t', trace_of r =
              t' ++ [EvFbGet None; EvLog "Camera capture failed"]).
Proof.
  revert l g w. induction fuel as [|fuel IH]; intros l g w Hl.
  - cbn. unfold count_events; cbn. split; [lia|]. intros H; discriminate H.
  - rewrite v11_stream_loop_S. cbv zeta.
    pose proof (v11_iteration_failed_get l g w Hl) as (H1 & H2 & _).
    cbv zeta in H1, H2.
    destruct (result (V11.stream_iteration l g w)) as [l'|l'] eqn:Hc;
      cbn [trace_of result snd fst].
    + assert (H0 : count_events is_failed_get
                     (trace_of (V11.stream_iteration l g w)) = 0%nat).
      { destruct (count_events is_failed_get
                    (trace_of (V11.stream_iteration l g w))) as [|[|n]];
          [reflexivity| |lia].
        destruct (H2 eq_refl) as (_ & _ & _ & l2 & Hb & _).
        discriminate Hb. }
      specialize (IH l' (globals_of (V11.stream_iteration l g w))
                     (world_of (V11.stream_iteration l g w))
                     (v11_iteration_locals _ _ _ _ Hl Hc)).
      cbv zeta in IH. destruct IH as [IH1 IH2].
      rewrite count_events_app, H0. cbn [Nat.add].
      split; [exact IH1|]. intros H. destruct (IH2 H) as [A [t' B]].
      split; [exact A|]. exists (trace_of (V11.stream_iteration l g w) ++ t').
      rewrite B. now rewrite app_assoc.
    + rewrite app_nil_r. split; [exact H1|]. intros H.
      destruct (H2 H) as (_ & _ & Ht & l2 & Hb & Hr).
      inversion Hb; subst l2.
      split; [exists l'; split; [reflexivity | exact Hr]|].
      exists []. exact Ht.
Qed.

End V11Release.

Section V11Session.
Context {P : platform} {E : env}.

Lemma v11_stream_handler_accepted fuel g w :
  is_ok (type_feed (types w)) = true ->
  let lr := V11.stream_loop fuel loop_entry11 g (next_type w) in
  V11.stream_handler fuel g w =
  (option_map V11.res (result lr), globals_of lr, world_of lr,
   [EvSetType V11._STREAM_CONTENT_TYPE ESP_OK;
    EvSetHdr "Access-Control-Allow-Origin" "*"] ++ trace_of lr).
Proof.
  intros Hty. cbv zeta.
  unfold V11.stream_handler, bind, httpd_resp_set_type. rewrite Hty.
  cbn [negb]. apply is_ok_true in Hty. rewrite Hty. fold loop_entry11.
  unfold httpd_resp_set_hdr, emit.
  destruct (V11.stream_loop fuel loop_entry11 g (next_type w))
    as [[[o g1] w1] t].
  destruct o; cbn; rewrite ?app_nil_r; reflexivity.
Qed.

Lemma v11_stream_handler_refused fuel g w :
  is_ok (type_feed (types w)) = false ->
  V11.stream_handler fuel g w =
  (Some (type_feed (types w)), g, next_type w,
   [EvSetType V11._STREAM_CONTENT_TYPE (type_feed (types w))]).
Proof.
  intros H. unfold V11.stream_handler, bind, httpd_resp_set_type.
  rewrite H. reflexivity.
Qed.

End V11Session.

(** X7 ([capture_handler] and [stream_handler], V1.1).  The handlers of
    V1.1 keep the ledger of frames and encoder blocks as those of V1.2 do:
    in every run of the capture handler and in every stream session, cut
    off after any number of passes or ended by a failure, no frame is
    returned that is not held and no pointer is freed that is not a live
    block of the encoder, and at the end nothing is held; so every frame
    was returned as often as it was handed out, and every block freed as
    often as it was allocated. *)
Theorem v11_frames_and_buffers_go_back
    {P : platform} {E : env} (g : V11.globals) (w : io) (fuel : nat) :
  let tc := trace_of (V11.capture_handler g w) in
  let ts := trace_of (V11.stream_handler fuel g w) in
  (balanced tc /\
   (forall id, returns id tc = acquisitions id tc) /\
   (forall p, count_ptr p (frees tc) = count_ptr p (encoder_blocks tc))) /\
  (balanced ts /\
   (forall id, returns id ts = acquisitions id ts) /\
   (forall p, count_ptr p (frees ts) = count_ptr p (encoder_blocks ts))) /\
  (forall l, loop_head11 l -> balanced (trace_of (V11.stream_iteration l g w))).
Proof.
  cbv zeta.
  pose proof (v11_capture_audit g w nothing) as Hc.
  pose proof (v11_stream_audit fuel g w nothing) as Hs.
  split; [split; [exact Hc | exact (balanced_counts _ Hc)]|].
  split; [split; [exact Hs | exact (balanced_counts _ Hs)]|].
  intros l Hl. now apply v11_iteration_audit.
Qed.

(** X8 ([stream_handler], V1.1).  The stream loop of V1.1 has no
    tolerance for acquisition failures: a stream session sees one failed
    acquisition at most, and that one ends it, with [ESP_FAIL], the failure
    logged, and no chunk sent after it.  A pass of the loop in which the
    camera yields no frame is such an end, whatever went before. *)
Theorem v11_stream_ends_at_the_first_failed_acquisition
    {P : platform} {E : env} (g : V11.globals) (w : io) (fuel : nat) :
  let r := V11.stream_handler fuel g w in
  (count_events is_failed_get (trace_of r) <= 1)%nat /\
  (count_events is_failed_get (trace_of r) = 1%nat ->
   result r = Some ESP_FAIL /\
   exists t', trace_of r =
              t' ++ [EvFbGet None; EvLog "Camera capture failed"]) /\
  (forall l g0 w0,
     loop_head11 l -> cam_feed (gets w0) = None ->
     let it := V11.stream_iteration l g0 w0 in
     trace_of it = [EvFbGet None; EvLog "Camera capture failed"] /\
     globals_of it = g0 /\
     exists l', result it = V11.Break l' /\ V11.res l' = ESP_FAIL).
Proof.
  cbv zeta. split; [|split].
  - destruct (is_ok (type_feed (types w))) eqn:Hty.
    + rewrite (v11_stream_handler_accepted fuel g w Hty). cbv zeta.
      cbn [trace_of snd]. rewrite count_events_app.
      pose proof (v11_loop_failed_get fuel loop_entry11 g (next_type w)
                    (conj eq_refl (conj eq_refl eq_refl))) as [H _].
      cbv zeta in H. unfold count_events at 1. cbn. exact H.
    + rewrite (v11_stream_handler_refused fuel g w Hty).
      unfold count_events. cbn. lia.
  - destruct (is_ok (type_feed (types w))) eqn:Hty.
    + rewrite (v11_stream_handler_accepted fuel g w Hty). cbv zeta.
      cbn [trace_of result fst snd]. rewrite count_events_app.
      pose proof (v11_loop_failed_get fuel loop_entry11 g (next_type w)
                    (conj eq_refl (conj eq_refl eq_refl))) as [_ H].
      cbv zeta in H. unfold count_events at 1. cbn [filter is_failed_get
        List.length Nat.add]. intros Hone.
      destruct (H Hone) as [(l' & Hr & Hf) (t' & Ht)].
      rewrite Hr, Ht. cbn [option_map]. rewrite Hf.
      split; [reflexivity|].
      eexists. rewrite app_assoc. reflexivity.
    + rewrite (v11_stream_handler_refused fuel g w Hty).
      unfold count_events. cbn. intros H; discriminate H.
  - intros l g0 w0 Hl Hcam.
    pose proof (v11_iteration_failed_get l g0 w0 Hl) as (_ & H2 & H3).
    cbv zeta in H2, H3. destruct (H2 (H3 Hcam)) as (_ & A & B & C).
    repeat split; assumption.
Qed.

(** ** The control handler of V1.1 *)

Ltac run_cmd11a :=
  cbv beta iota zeta delta
    [Rest11.cmd_handler Rest11.apply_control bind ret emit free malloc
     httpd_resp_send httpd_resp_set_hdr httpd_resp_send_404
     httpd_resp_send_500 log esp_camera_sensor_get sensor_set
     get_globals V11.modify trace_of result globals_of world_of
     option_map fst snd well_formed
     url_query_len url_query_str query_var query_val];
  rewrite ?is_ok_OK, ?is_ok_FAIL;
  cbn [negb andb orb app sensor next_malloc next_send with_sensor mallocs
       sends].

Ltac run_cmd11 := run_cmd11a; run_cmd11a; run_cmd11a.

Lemma clamp_delay11_fits val :
  V12.clamp 0 500 val mod 65536 = Z.max 0 (Z.min 500 val).
Proof. rewrite clamp_max_min by lia. apply Z.mod_small. lia. Qed.

Section Control11.
Context {P : platform} {E : env}.

Lemma v11_control_run req g w s :
  well_formed req = true ->
  malloc_feed (mallocs w) = true ->
  sensor w = Some s ->
  let var := snd (query_var req) in
  let val := snd (query_val req) in
  let r := Rest11.cmd_handler req g w in
  let refused := [EvFree (QueryBuf (mallocs w)); EvSend500] in
  let done := [EvFree (QueryBuf (mallocs w));
               EvSetHdr "Access-Control-Allow-Origin" "*";
               EvSend None (net_feed (sends w))] in
  if streq var "framesize" then
    let v := requested Framesize val in
    globals_of r = g /\
    sensor (world_of r) =
      Some (with_status s (snd (set_framesize s (status s) v))) /\
    (if is_ok (fst (set_framesize s (status s) v))
     then trace_of r = done /\ result r = net_feed (sends w)
     else trace_of r = refused /\ result r = ESP_FAIL)
  else if streq var "quality" then
    let v := requested Quality val in
    globals_of r = g /\
    sensor (world_of r) =
      Some (with_status s (snd (set_quality s (status s) v))) /\
    (if is_ok (fst (set_quality s (status s) v))
     then trace_of r = done /\ result r = net_feed (sends w)
     else trace_of r = refused /\ result r = ESP_FAIL)
  else if streq var "stream_delay" then
    globals_of r = V11.set_stream_delay_ms (Z.max 0 (Z.min 500 (atoi val))) g /\
    sensor (world_of r) = Some s /\
    trace_of r = done /\ result r = net_feed (sends w)
  else
    globals_of r = g /\ sensor (world_of r) = Some s /\
    trace_of r = refused /\ result r = ESP_FAIL.
Proof.
  destruct req as [qlen qstr [vr var] [lr val]].
  unfold well_formed.
  cbn [url_query_len url_query_str query_var query_val fst snd].
  intros Hw Hm Hsen. cbv zeta.
  apply andb_prop in Hw. destruct Hw as [Hw H4].
  apply andb_prop in Hw. destruct Hw as [Hw H3].
  apply andb_prop in Hw. destruct Hw as [H1 H2].
  apply negb_true_iff in H1.
  run_cmd11. rewrite H1, H2, H3, H4, Hm. run_cmd11. rewrite Hsen. run_cmd11.
  destruct (streq var "framesize");
    [|destruct (streq var "quality");
      [|destruct (streq var "stream_delay")]];
    cbn [requested]; run_cmd11.
  all: rewrite <- ?clamp_max_min by lia; rewrite ?clamp_delay11_fits.
  - change Rest11.framesize_from_value with V12.framesize_from_value.
    destruct (negb psramFound &&
              (FRAMESIZE_SVGA <? V12.framesize_from_value (Some val)));
      run_cmd11.
    all: match goal with
         | |- context [set_framesize ?s0 ?a ?b] =>
             destruct (set_framesize s0 a b) as [rc st'] eqn:Hset
         end; run_cmd11; destruct (is_ok rc); run_cmd11;
      repeat split; auto.
  - match goal with
    | |- context [set_quality ?s0 ?a ?b] =>
        destruct (set_quality s0 a b) as [rc st'] eqn:Hset
    end; run_cmd11; destruct (is_ok rc); run_cmd11; repeat split; auto.
  - rewrite ?clamp_max_min by lia. repeat split; auto.
  - repeat split; auto.
Qed.

End Control11.

(** X9 ([cmd_handler], V1.1).  The control handler of V1.1 knows three
    settings.  For a well-formed request, with the query copy allocated and
    a sensor present: a variable that is none of framesize, quality and
    stream_delay, vflip and hmirror among them, gets a server error and
    changes nothing; quality is brought into 5..63 and framesize into the
    enumeration (and down to SVGA without PSRAM) and handed to the
    driver, whose status is the result; stream_delay is brought into
    0..500, not 33..500, and stored; so a request for a delay that is zero,
    negative or no number is answered with success and turns the pacing of
    the V1.1 stream off. *)
Theorem v11_control_knows_three_settings
    {P : platform} {E : env}
    (req : httpd_req_t) (g : V11.globals) (w : io) (s : sensor_t) :
  well_formed req = true ->
  malloc_feed (mallocs w) = true ->
  sensor w = Some s ->
  let var := snd (query_var req) in
  let val := snd (query_val req) in
  let r := Rest11.cmd_handler req g w in
  (streq var "framesize" = false -> streq var "quality" = false ->
   streq var "stream_delay" = false ->
   result r = ESP_FAIL /\ globals_of r = g /\ sensor (world_of r) = sensor w /\
   trace_of r = [EvFree (QueryBuf (mallocs w)); EvSend500]) /\
  (var = "vflip" \/ var = "hmirror" ->
   result r = ESP_FAIL /\ globals_of r = g /\ sensor (world_of r) = sensor w) /\
  (var = "framesize" ->
   globals_of r = g /\
   sensor (world_of r) =
     Some (with_status s
             (snd (set_framesize s (status s) (requested Framesize val))))) /\
  (var = "quality" ->
   globals_of r = g /\
   sensor (world_of r) =
     Some (with_status s
             (snd (set_quality s (status s)
                     (Z.max 5 (Z.min 63 (atoi val))))))) /\
  (var = "stream_delay" ->
   V11.stream_delay_ms (globals_of r) = Z.max 0 (Z.min 500 (atoi val)) /\
   sensor (world_of r) = sensor w /\
   result r = net_feed (sends w) /\
   count_events is_error_reply (trace_of r) = 0%nat /\
   (atoi val <= 0 ->
    forall l w',
      loop_head11 l ->
      let it := V11.stream_iteration l (globals_of r) w' in
      is_break11 (result it) = false ->
      count_events is_delay (trace_of it) = 0%nat)).
Proof.
  intros Hw Hm Hs. cbv zeta.
  pose proof (v11_control_run req g w s Hw Hm Hs) as H. cbv zeta in H.
  split; [|split; [|split; [|split]]].
  - intros H1 H2 H3. rewrite H1, H2, H3 in H.
    destruct H as (A & B & C & D). rewrite Hs. auto.
  - intros Hv.
    assert (Hn : streq (snd (query_var req)) "framesize" = false /\
                 streq (snd (query_var req)) "quality" = false /\
                 streq (snd (query_var req)) "stream_delay" = false).
    { destruct Hv as [-> | ->]; repeat split. }
    destruct Hn as (H1 & H2 & H3). rewrite H1, H2, H3 in H.
    destruct H as (A & B & C & D). rewrite Hs. auto.
  - intros Hv. rewrite Hv in H. change (streq "framesize" "framesize") with true in H.
    cbv iota in H. destruct H as (A & B & _). auto.
  - intros Hv. rewrite Hv in H.
    change (streq "quality" "framesize") with false in H.
    change (streq "quality" "quality") with true in H.
    cbv iota in H. destruct H as (A & B & _). auto.
  - intros Hv. rewrite Hv in H.
    change (streq "stream_delay" "framesize") with false in H.
    change (streq "stream_delay" "quality") with false in H.
    change (streq "stream_delay" "stream_delay") with true in H.
    cbv iota in H. destruct H as (A & B & C & D).
    rewrite A, B, C, D, Hs. cbn [V11.stream_delay_ms V11.set_stream_delay_ms].
    repeat split.
    intros Hz l w' Hl Hb.
    pose proof (v11_iteration_pacing l
                  (V11.set_stream_delay_ms
                     (Z.max 0 (Z.min 500 (atoi (snd (query_val req))))) g)
                  w' Hl Hb) as Hp.
    cbn [V11.stream_delay_ms V11.set_stream_delay_ms] in Hp.
    replace (Z.max 0 (Z.min 500 (atoi (snd (query_val req))))) with 0 in *
      by lia.
    exact Hp.
Qed.

Lemma v11_control_knows_three_settings_witness :
  let req := control_request "vflip" "1" in
  let w := io0 (Some plain_sensor) in
  well_formed req = true /\
  result (Rest11.cmd_handler (P := xiao) (E := calm) req V11.boot w)
    = ESP_FAIL /\
  V11.stream_delay_ms
    (globals_of (Rest11.cmd_handler (P := xiao) (E := calm)
                   (control_request "stream_delay" "1000") V11.boot w)) = 500.
Proof.
  cbv zeta. split; [reflexivity|].
  pose proof (v11_control_knows_three_settings (P := xiao) (E := calm)
                (control_request "vflip" "1") V11.boot
                (io0 (Some plain_sensor)) plain_sensor
                eq_refl eq_refl eq_refl) as H1.
  pose proof (v11_control_knows_three_settings (P := xiao) (E := calm)
                (control_request "stream_delay" "1000") V11.boot
                (io0 (Some plain_sensor)) plain_sensor
                eq_refl eq_refl eq_refl) as H2.
  cbv zeta in H1, H2.
  destruct H1 as (_ & A & _). destruct H2 as (_ & _ & _ & _ & B).
  split.
  - exact (proj1 (A (or_introl eq_refl))).
  - exact (proj1 (B eq_refl)).
Defined.

(** ** The replies of /status and /health *)

Lemma substring_all n s :
  (String.length s <= n)%nat -> substring 0 n s = s.
Proof.
  revert n. induction s as [|c s IH]; intros n H.
  - destruct n; reflexivity.
  - destruct n as [|n]; cbn [String.length] in H; [lia|].
    cbn [substring]. rewrite IH by lia. reflexivity.
Qed.

(** A text shorter than the buffer is stored whole. *)
Lemma snprintf_fits size text :
  (String.length text < size)%nat ->
  snprintf size text = (text, Z.of_nat (String.length text)).
Proof.
  intros H. unfold snprintf. rewrite substring_all by lia. reflexivity.
Qed.

Lemma framesize_name_length {P : platform} size :
  (String.length (V12.framesize_name size) <= 6)%nat.
Proof.
  unfold V12.framesize_name.
  destruct (size =? FRAMESIZE_FHD); [cbn; lia|].
  destruct (size =? FRAMESIZE_SVGA); cbn; lia.
Qed.

Lemma status_json_length {P : platform} st d rssi :
  (String.length (Rest12.status_json st d rssi) <= 161)%nat.
Proof.
  unfold Rest12.status_json, quoted.
  pose proof (fmt_u_length (framesize st)) as H1.
  pose proof (fmt_u_length (quality st)) as H2.
  pose proof (fmt_u_length d) as H3.
  pose proof (fmt_u_length (vflip st)) as H4.
  pose proof (fmt_u_length (hmirror st)) as H5.
  pose proof (fmt_d_width_length 0 rssi) as H6.
  pose proof (framesize_name_length (framesize st)) as H7.
  unfold fmt_d. revert H1 H2 H3 H4 H5 H6 H7.
  generalize (fmt_u (framesize st)) (fmt_u (quality st)) (fmt_u d)
    (fmt_u (vflip st)) (fmt_u (hmirror st)) (fmt_d_width 0 rssi)
    (V12.framesize_name (framesize st)).
  intros a b c e f h n H1 H2 H3 H4 H5 H6 H7.
  rewrite !append_length. cbn [String.length dquote]. lia.
Qed.

Lemma v11_status_json_length {P : platform} st d :
  (String.length (Rest11.status_json st d) <= 97)%nat.
Proof.
  unfold Rest11.status_json, quoted.
  pose proof (fmt_u_length (framesize st)) as H1.
  pose proof (fmt_u_length (quality st)) as H2.
  pose proof (fmt_u_length d) as H3.
  pose proof (framesize_name_length (framesize st)) as H7.
  change (Rest11.framesize_name (framesize st))
    with (V12.framesize_name (framesize st)).
  revert H1 H2 H3 H7.
  generalize (fmt_u (framesize st)) (fmt_u (quality st)) (fmt_u d)
    (V12.framesize_name (framesize st)).
  intros a b c n H1 H2 H3 H7.
  rewrite !append_length. cbn [String.length dquote]. lia.
Qed.

Lemma health_json_length status c w s :
  (String.length status <= 5)%nat ->
  (String.length (Rest12.health_json status c w s) <= 61)%nat.
Proof.
  intros H. unfold Rest12.health_json, quoted, json_bool.
  rewrite !append_length. cbn [String.length dquote].
  destruct c, w, s; cbn [String.length]; lia.
Qed.

Ltac run_b :=
  cbv beta iota zeta delta
    [bindB retB lift getB modifyB emitB whenB millis WiFi_status WiFi_RSSI
     WiFi_localIP httpd_resp_send_text httpd_resp_send_500_code
     pinModeOutput digitalWrite delay Serial_print Serial_println
     Serial_printf value_of state_of board_of acts_of
     bind ret emit esp_camera_sensor_get httpd_resp_set_type
     httpd_resp_set_hdr get_globals
     fst snd];
  cbn [app map http calls with_http next_call sensor types sends next_type
       next_send].

Section Replies.
Context {P : platform} {E : env} {C : core}.

Lemma status_run g b s :
  sensor (http b) = Some s ->
  let text := Rest12.status_json (status s) (V12.stream_delay_ms g)
                (rssi_feed (calls b)) in
  Rest12.status_handler g b =
  (net_feed (sends (http b)), g,
   with_http (next_call b) (next_send (next_type (http b))),
   [Http (EvSetType "application/json" (type_feed (types (http b))));
    Http (EvSetHdr "Access-Control-Allow-Origin" "*");
    SendText text (Z.of_nat (String.length text)) (net_feed (sends (http b)))]).
Proof.
  intros Hs. cbv zeta. unfold Rest12.status_handler. run_b. rewrite Hs.
  run_b. rewrite snprintf_fits.
  2: { pose proof (status_json_length (status s) (V12.stream_delay_ms g)
                     (rssi_feed (calls b))). lia. }
  run_b. reflexivity.
Qed.

Lemma status_run_none g b :
  sensor (http b) = None ->
  Rest12.status_handler g b =
  (net_feed (sends (http b)), g, with_http b (next_send (http b)),
   [Send500 (net_feed (sends (http b)))]).
Proof.
  intros Hs. unfold Rest12.status_handler. run_b. rewrite Hs. reflexivity.
Qed.

Lemma v11_status_run g b s :
  sensor (http b) = Some s ->
  let text := Rest11.status_json (status s) (V11.stream_delay_ms g) in
  Rest11.status_handler g b =
  (net_feed (sends (http b)), g,
   with_http b (next_send (next_type (http b))),
   [Http (EvSetType "application/json" (type_feed (types (http b))));
    Http (EvSetHdr "Access-Control-Allow-Origin" "*");
    SendText text (Z.of_nat (String.length text)) (net_feed (sends (http b)))]).
Proof.
  intros Hs. cbv zeta. unfold Rest11.status_handler. run_b. rewrite Hs.
  run_b. rewrite snprintf_fits.
  2: { pose proof (v11_status_json_length (status s) (V11.stream_delay_ms g)).
       lia. }
  run_b. reflexivity.
Qed.

Lemma v11_status_run_none g b :
  sensor (http b) = None ->
  Rest11.status_handler g b =
  (net_feed (sends (http b)), g, with_http b (next_send (http b)),
   [Send500 (net_feed (sends (http b)))]).
Proof.
  intros Hs. unfold Rest11.status_handler. run_b. rewrite Hs. reflexivity.
Qed.

Lemma health_run g b :
  let camera_ok := is_some (sensor (http b)) in
  let wifi_ok := is_connected (wifi_feed (calls b)) in
  let server_ok := is_some (V12.camera_httpd g) in
  let verdict := if camera_ok && wifi_ok && server_ok then "OK" else "ERROR" in
  let text := Rest12.health_json verdict camera_ok wifi_ok server_ok in
  Rest12.health_handler g b =
  (net_feed (sends (http b)), g,
   with_http (next_call b) (next_send (next_type (http b))),
   [Http (EvSetType "application/json" (type_feed (types (http b))));
    Http (EvSetHdr "Access-Control-Allow-Origin" "*");
    SendText text (Z.of_nat (String.length text)) (net_feed (sends (http b)))]).
Proof.
  cbv zeta. unfold Rest12.health_handler. run_b.
  rewrite snprintf_fits.
  2: { match goal with
       | |- (String.length (Rest12.health_json ?v ?a ?b ?c) < _)%nat =>
           pose proof (health_json_length v a b c) as H
       end.
       assert (Hv : (String.length
                       (if is_some (sensor (http b)) &&
                           is_connected (wifi_feed (calls b)) &&
                           is_some (V12.camera_httpd g)
                        then "OK" else "ERROR") <= 5)%nat).
       { destruct (_ && _ && _); cbn; lia. }
       specialize (H Hv). lia. }
  run_b. reflexivity.
Qed.

End Replies.

(** X10 ([status_handler], V1.2 and V1.1).  The status reply is the
    whole JSON text.  With a sensor, the handler types the reply
    application/json and sends the text that its format produces from the
    frame size and its name, the quality, the stream delay, and in V1.2 the
    flip and mirror flags and the WiFi signal strength, as they are at
    that moment; the text is 161 characters at most in V1.2 and 97 in V1.1,
    so it is never cut by the buffer of 256 and of 128 bytes, and the length
    that is sent is the length of the text.  Without a sensor the reply is a
    server error and nothing else.  Either way the handler returns what
    the send returned and leaves the globals and the sensor as they were. *)
Theorem status_reply_is_the_whole_json
    {P : platform} {E : env} {C : core}
    (g : V12.globals) (g1 : V11.globals) (b : board) :
  let r := Rest12.status_handler g b in
  let r1 := Rest11.status_handler g1 b in
  let sent := net_feed (sends (http b)) in
  let headers :=
    [Http (EvSetType "application/json" (type_feed (types (http b))));
     Http (EvSetHdr "Access-Control-Allow-Origin" "*")] in
  value_of r = sent /\ state_of r = g /\
  sensor (http (board_of r)) = sensor (http b) /\
  value_of r1 = sent /\ state_of r1 = g1 /\
  sensor (http (board_of r1)) = sensor (http b) /\
  match sensor (http b) with
  | None => acts_of r = [Send500 sent] /\ acts_of r1 = [Send500 sent]
  | Some s =>
      let text := Rest12.status_json (status s) (V12.stream_delay_ms g)
                    (rssi_feed (calls b)) in
      let text1 := Rest11.status_json (status s) (V11.stream_delay_ms g1) in
      acts_of r =
        headers ++ [SendText text (Z.of_nat (String.length text)) sent] /\
      (String.length text <= 161)%nat /\
      acts_of r1 =
        headers ++ [SendText text1 (Z.of_nat (String.length text1)) sent] /\
      (String.length text1 <= 97)%nat
  end.
Proof.
  cbv zeta. destruct (sensor (http b)) as [s|] eqn:Hs.
  - rewrite (status_run g b s Hs), (v11_status_run g1 b s Hs). cbv zeta.
    cbn [value_of state_of board_of acts_of fst snd http with_http next_call
         sensor next_send next_type app].
    repeat split; try assumption.
    + apply status_json_length.
    + apply v11_status_json_length.
  - rewrite (status_run_none g b Hs), (v11_status_run_none g1 b Hs).
    cbn [value_of state_of board_of acts_of fst snd http with_http
         sensor next_send].
    repeat split; assumption.
Qed.

(** X12 ([health_handler], V1.2).  The health check always answers with a
    JSON body and never with an error status: the verdict is in the body.
    The body names the camera as up when the driver has a sensor handle,
    the WiFi as up when its status is connected, the server as up when the
    handle of the port-80 server is set; the status is OK when all three
    are up and ERROR otherwise.  The text is 61 characters at most, so the
    buffer of 128 bytes never cuts it; the globals and the sensor are left as
    they were. *)
Theorem health_reports_in_the_body
    {P : platform} {E : env} {C : core} (g : V12.globals) (b : board) :
  let r := Rest12.health_handler g b in
  let camera_ok := is_some (sensor (http b)) in
  let wifi_ok := is_connected (wifi_feed (calls b)) in
  let server_ok := is_some (V12.camera_httpd g) in
  let verdict := if camera_ok && wifi_ok && server_ok then "OK" else "ERROR" in
  let text := Rest12.health_json verdict camera_ok wifi_ok server_ok in
  acts_of r =
    [Http (EvSetType "application/json" (type_feed (types (http b))));
     Http (EvSetHdr "Access-Control-Allow-Origin" "*");
     SendText text (Z.of_nat (String.length text))
       (net_feed (sends (http b)))] /\
  (String.length text <= 61)%nat /\
  count_acts is_error_act (acts_of r) = 0%nat /\
  value_of r = net_feed (sends (http b)) /\
  state_of r = g /\ sensor (http (board_of r)) = sensor (http b) /\
  (verdict = "OK" <->
   sensor (http b) <> None /\ wifi_feed (calls b) = WL_CONNECTED /\
   V12.camera_httpd g <> None).
Proof.
  cbv zeta. rewrite health_run. cbv zeta.
  cbn [value_of state_of board_of acts_of fst snd http with_http next_call
       sensor next_send next_type].
  split; [reflexivity|]. split.
  { apply health_json_length. destruct (_ && _ && _); cbn; lia. }
  split; [reflexivity|]. split; [reflexivity|]. split; [reflexivity|].
  split; [reflexivity|].
  destruct (sensor (http b)) as [s|]; destruct (wifi_feed (calls b));
    destruct (V12.camera_httpd g) as [h|]; cbn [is_some is_connected andb];
    split; intros H; try discriminate H; try reflexivity.
  all: try (repeat split; discriminate).
  all: destruct H as (H1 & H2 & H3); try discriminate H2; try congruence.
Qed.

Lemma count_acts_app f a b :
  count_acts f (a ++ b) = (count_acts f a + count_acts f b)%nat.
Proof. unfold count_acts. now rewrite filter_app, length_app. Qed.

Lemma count_acts_http t :
  count_acts is_error_act (map Http t) = count_events is_error_reply t.
Proof.
  unfold count_acts, count_events. induction t as [|e t IH]; [reflexivity|].
  cbn [map filter is_error_act]. destruct (is_error_reply e); cbn; now rewrite IH.
Qed.

Lemma http_events_app a b :
  http_events (a ++ b) = http_events a ++ http_events b.
Proof. unfold http_events. apply flat_map_app. Qed.

Lemma http_events_other a l :
  match a with Http _ => false | _ => true end = true ->
  http_events (a :: l) = http_events l.
Proof. destruct a; intros H; try discriminate H; reflexivity. Qed.

Lemma http_events_map t : http_events (map Http t) = t.
Proof.
  unfold http_events. induction t as [|e t IH]; [reflexivity|].
  cbn [map flat_map app]. now rewrite IH.
Qed.

Lemma last_of_three {A} (l : list A) x y z d :
  last (l ++ [x; y; z]) d = z.
Proof.
  replace (l ++ [x; y; z]) with ((l ++ [x; y]) ++ [z])
    by (rewrite <- app_assoc; reflexivity).
  apply last_last.
Qed.

Lemma config_value_store k s st v set :
  setter_of k s = Some set ->
  faithful s ->
  is_ok (fst (set st v)) = true ->
  forall d,
    config_value k (snd (set st v)) d = v /\
    (forall k', setting_eqb k' k = false ->
       config_value k' (snd (set st v)) d = config_value k' st d).
Proof.
  intros Hk (F1 & F2 & F3 & F4) Hok d.
  destruct k; cbn [setter_of] in Hk; inversion Hk; subst set; clear Hk.
  - rewrite (F1 st v), Hok. split; [reflexivity|].
    intros [] H; try discriminate H; reflexivity.
  - rewrite (F2 st v), Hok. split; [reflexivity|].
    intros [] H; try discriminate H; reflexivity.
  - rewrite (F3 st v), Hok. split; [reflexivity|].
    intros [] H; try discriminate H; reflexivity.
  - rewrite (F4 st v), Hok. split; [reflexivity|].
    intros [] H; try discriminate H; reflexivity.
Qed.

(** X11 ([cmd_handler] then [status_handler], V1.2).  What /control
    stored, /status shows.  After a well-formed request for a known
    setting that the driver accepts (its setters store what they accept),
    the status reply that follows is the JSON text of a configuration in
    which that setting has the value that was asked for, brought into its
    range, and every other setting the value it had before; neither reply
    is an error. *)
Theorem status_shows_what_control_stored
    {P : platform} {E : env} {C : core}
    (req : httpd_req_t) (g : V12.globals) (b : board)
    (k : setting) (s : sensor_t) :
  well_formed req = true ->
  setting_of (snd (query_var req)) = Some k ->
  malloc_feed (mallocs (http b)) = true ->
  sensor (http b) = Some s ->
  faithful s ->
  accepts s k (requested k (snd (query_val req))) = true ->
  let r := control_then_status req g b in
  exists st' d' rssi sent,
    let text := Rest12.status_json st' d' rssi in
    last (acts_of r) (Http EvSend404) =
      SendText text (Z.of_nat (String.length text)) sent /\
    config_value k st' d' = requested k (snd (query_val req)) /\
    (forall k', setting_eqb k' k = false ->
       config_value k' st' d' =
       config_value k' (status s) (V12.stream_delay_ms g)) /\
    count_acts is_error_act (acts_of r) = 0%nat.
Proof.
  intros Hw Hk Hm Hs HF Hacc. cbv zeta.
  pose proof (control_applies req g (http b) k s Hw Hk Hm Hs) as [Hst Hrep].
  cbv zeta in Hst, Hrep. rewrite Hacc in Hrep. destruct Hrep as (Herr & _).
  unfold control_then_status, bindB, lift.
  destruct (V12.cmd_handler req g (http b)) as [[[a g'] w'] t].
  cbn [globals_of world_of trace_of fst snd] in *.
  unfold accepts in Hacc.
  destruct (setter_of k s) as [set|] eqn:Hset.
  - destruct Hst as [-> Hsen].
    rewrite (status_run g (with_http b w') _ Hsen). cbv zeta.
    cbn [acts_of snd status with_status http with_http calls].
    destruct (config_value_store k s (status s) _ set Hset HF Hacc
                (V12.stream_delay_ms g)) as [A B].
    eexists _, _, _, _. split; [|split; [exact A|split; [exact B|]]].
    + apply last_of_three.
    + rewrite count_acts_app, count_acts_http, Herr. reflexivity.
  - destruct Hst as [-> Hsen].
    rewrite (status_run _ (with_http b w') s Hsen). cbv zeta.
    cbn [acts_of snd http with_http calls].
    destruct k; cbn [setter_of] in Hset; try discriminate Hset.
    eexists _, _, _, _. split; [|split; [|split]].
    + apply last_of_three.
    + reflexivity.
    + intros [] H; try discriminate H; reflexivity.
    + rewrite count_acts_app, count_acts_http, Herr. reflexivity.
Qed.

Lemma status_shows_what_control_stored_witness :
  let req := control_request "quality" "20" in
  let b := board0 (Some plain_sensor) in
  let r := control_then_status (P := xiao) (E := calm) (C := bench)
             req V12.boot b in
  well_formed req = true /\
  accepts plain_sensor Quality
    (requested (P := xiao) (E := calm) Quality "20") = true /\
  count_acts is_error_act (acts_of r) = 0%nat /\
  exists st' d' rssi sent,
    last (acts_of r) (Http EvSend404) =
      SendText (Rest12.status_json (P := xiao) st' d' rssi)
        (Z.of_nat (String.length (Rest12.status_json (P := xiao) st' d' rssi)))
        sent /\
    quality st' = 20.
Proof.
  cbv zeta. split; [reflexivity|]. split; [reflexivity|].
  pose proof (status_shows_what_control_stored (P := xiao) (E := calm)
                (C := bench) (control_request "quality" "20") V12.boot
                (board0 (Some plain_sensor)) Quality plain_sensor
                eq_refl eq_refl eq_refl eq_refl plain_sensor_faithful eq_refl)
    as H.
  cbv zeta in H. destruct H as (st' & d' & rssi & sent & A & B & _ & D).
  split; [exact D|].
  exists st', d', rssi, sent. split; [exact A | exact B].
Defined.


(** ** The sketch of V1.2: the status LED *)

Ltac run_s :=
  cbv beta iota zeta delta
    [Sketch.setLedMode Sketch.blink Sketch.updateLed Sketch.checkWiFiStatus
     Sketch.connectWiFi Sketch.on_app
     bindB retB lift getB modifyB emitB whenB millis WiFi_status WiFi_RSSI
     WiFi_localIP pinModeOutput digitalWrite delay Serial_print
     Serial_println Serial_printf value_of state_of board_of acts_of
     fst snd
     Sketch.app Sketch.led_mode Sketch.led_state Sketch.last_led_toggle_ms
     Sketch.camera_initialized Sketch.wifi_connected
     Sketch.wifi_connect_start_ms
     Sketch.set_app Sketch.set_led_mode Sketch.set_led_state
     Sketch.set_last_led_toggle_ms Sketch.set_camera_initialized
     Sketch.set_wifi_connected Sketch.set_wifi_connect_start_ms];
  cbn [app map http calls with_http next_call negb].

(** The difference of two readings of the 32-bit clock is the time that
    passed between them, also when the clock wrapped in between. *)
Lemma clock_difference last d :
  0 <= d < two32 ->
  to_uint32 (to_uint32 (last + d) - last) = d.
Proof.
  intros Hd. unfold to_uint32, two32 in *.
  rewrite Zminus_mod_idemp_l.
  replace (last + d - last) with d by lia.
  apply Z.mod_small. exact Hd.
Qed.

Section Led.
Context {C : core}.

Lemma updateLed_run s b :
  let now := to_uint32 (millis_feed (calls b)) in
  Sketch.updateLed s b =
  match blink_interval (Sketch.led_mode s) with
  | None => (tt, s, next_call b, [])
  | Some interval =>
      if interval <=? to_uint32 (now - Sketch.last_led_toggle_ms s)
      then (tt,
            Sketch.set_last_led_toggle_ms now
              (Sketch.set_led_state (negb (Sketch.led_state s)) s),
            next_call b,
            [DigitalWrite Sketch.USER_LED_GPIO
               (if negb (Sketch.led_state s)
                then Sketch.LED_ON else Sketch.LED_OFF)])
      else (tt, s, next_call b, [])
  end.
Proof.
  destruct s as [g m st last ci wc ws]. run_s.
  destruct m; cbn [blink_interval]; run_s; try reflexivity.
  all: destruct (_ <=? _); reflexivity.
Qed.

Lemma setLedMode_run mode s b :
  Sketch.setLedMode mode s b =
  (tt,
   Sketch.set_led_state
     (match mode with Sketch.LED_MODE_READY => true | _ => false end)
     (Sketch.set_last_led_toggle_ms (to_uint32 (millis_feed (calls b)))
        (Sketch.set_led_mode mode s)),
   next_call b,
   [DigitalWrite Sketch.USER_LED_GPIO
      (match mode with
       | Sketch.LED_MODE_READY => Sketch.LED_ON
       | _ => Sketch.LED_OFF
       end)]).
Proof. destruct s, mode; reflexivity. Qed.

End Led.

Lemma led_pin_app a b lv : led_pin (a ++ b) lv = led_pin b (led_pin a lv).
Proof.
  revert lv. induction a as [|x a IH]; intros lv; [reflexivity|].
  destruct x; cbn [app led_pin]; apply IH.
Qed.

Lemma led_pin_http t lv : led_pin (map Http t) lv = lv.
Proof. induction t as [|e t IH]; [reflexivity | exact IH]. Qed.

Create HintDb led.

Lemma leaves_keeps {A} (m : MB Sketch.state A) : leaves_led m -> keeps_led m.
Proof.
  intros H s b lv [H1 H2]. destruct (H s b) as (A1 & A2 & A3).
  unfold led_ok. rewrite A1, A2, A3. auto.
Qed.

Lemma leaves_bind {A B} (m : MB Sketch.state A) (k : A -> MB Sketch.state B) :
  leaves_led m -> (forall a, leaves_led (k a)) -> leaves_led (bindB m k).
Proof.
  intros Hm Hk s b. unfold bindB. specialize (Hm s b).
  destruct (m s b) as [[[a s1] b1] t1].
  specialize (Hk a s1 b1). destruct (k a s1 b1) as [[[c s2] b2] t2].
  cbn [state_of acts_of fst snd] in *.
  destruct Hm as (A1 & A2 & A3). destruct Hk as (B1 & B2 & B3).
  repeat split; try congruence.
  intros lv. now rewrite led_pin_app, A3, B3.
Qed.

Lemma keeps_bind {A B} (m : MB Sketch.state A) (k : A -> MB Sketch.state B) :
  keeps_led m -> (forall a, keeps_led (k a)) -> keeps_led (bindB m k).
Proof.
  intros Hm Hk s b lv H. unfold bindB. specialize (Hm s b lv H).
  destruct (m s b) as [[[a s1] b1] t1].
  cbn [state_of acts_of fst snd] in Hm.
  specialize (Hk a s1 b1 _ Hm). destruct (k a s1 b1) as [[[c s2] b2] t2].
  cbn [state_of acts_of fst snd] in *. now rewrite led_pin_app.
Qed.

Lemma keeps_if {A} (c : bool) (m1 m2 : MB Sketch.state A) :
  keeps_led m1 -> keeps_led m2 -> keeps_led (if c then m1 else m2).
Proof. destruct c; auto. Qed.

Lemma leaves_if {A} (c : bool) (m1 m2 : MB Sketch.state A) :
  leaves_led m1 -> leaves_led m2 -> leaves_led (if c then m1 else m2).
Proof. destruct c; auto. Qed.

Lemma keeps_when (c : bool) (m : MB Sketch.state unit) :
  keeps_led m -> keeps_led (whenB c m).
Proof.
  intros H. destruct c; [exact H|]. intros s b lv Hl. exact Hl.
Qed.

Lemma leaves_when (c : bool) (m : MB Sketch.state unit) :
  leaves_led m -> leaves_led (whenB c m).
Proof.
  intros H. destruct c; [exact H|]. intros s b. repeat split.
Qed.

Lemma leaves_ret {A} (a : A) : leaves_led (retB a).
Proof. intros s b. repeat split. Qed.

Lemma leaves_get : leaves_led getB.
Proof. intros s b. repeat split. Qed.

Lemma leaves_emit a : is_pin_write a = false -> leaves_led (emitB a).
Proof.
  intros H s b. repeat split. intros lv.
  destruct a; try discriminate H; reflexivity.
Qed.

Lemma leaves_modify f :
  (forall s, Sketch.led_state (f s) = Sketch.led_state s /\
             Sketch.led_mode (f s) = Sketch.led_mode s) ->
  leaves_led (modifyB f).
Proof.
  intros H s b. destruct (H s) as [A1 A2]. repeat split; assumption.
Qed.

Lemma leaves_lift {A} (m : M Sketch.state A) :
  (forall s w, globals_of (m s w) = s) -> leaves_led (lift m).
Proof.
  intros H s b. unfold lift. specialize (H s (http b)).
  destruct (m s (http b)) as [[[a s1] w1] t].
  cbn [globals_of state_of acts_of fst snd] in *. subst s1.
  repeat split. intros lv. apply led_pin_http.
Qed.

Lemma leaves_on_app {A} (m : M V12.globals A) : leaves_led (Sketch.on_app m).
Proof.
  intros s b. unfold Sketch.on_app.
  destruct (m (Sketch.app s) (http b)) as [[[a g1] w1] t].
  cbn [state_of acts_of fst snd]. destruct s; repeat split.
  intros lv. apply led_pin_http.
Qed.

Section LedFrames.
Context {E : env} {C : core}.

Lemma leaves_millis : leaves_led millis.
Proof. intros s b. repeat split. Qed.

Lemma leaves_status : leaves_led WiFi_status.
Proof. intros s b. repeat split. Qed.

Lemma leaves_rssi : leaves_led WiFi_RSSI.
Proof. intros s b. repeat split. Qed.

Lemma leaves_ip : leaves_led WiFi_localIP.
Proof. intros s b. repeat split. Qed.

Lemma leaves_println text : leaves_led (Serial_println text).
Proof. apply leaves_emit. reflexivity. Qed.

Lemma leaves_print text : leaves_led (Serial_print text).
Proof. apply leaves_emit. reflexivity. Qed.

Lemma leaves_printf format args : leaves_led (Serial_printf format args).
Proof. apply leaves_emit. reflexivity. Qed.

Lemma leaves_delay ms : leaves_led (delay ms).
Proof. apply leaves_emit. reflexivity. Qed.

Lemma leaves_pin_mode pin : leaves_led (pinModeOutput pin).
Proof. apply leaves_emit. reflexivity. Qed.

Lemma leaves_camera_init config : leaves_led (esp_camera_init config).
Proof.
  intros s b. unfold esp_camera_init.
  destruct (camera_init_feed (calls b)) as [r o]. repeat split.
Qed.

Lemma leaves_sensor_call name setter v :
  leaves_led (sensor_call name setter v).
Proof.
  intros s b. unfold sensor_call. destruct (sensor (http b)) as [s0|];
    [|repeat split].
  destruct (setter s0 (status s0) v) as [r st]. repeat split.
Qed.

Lemma leaves_sensor_tune k v : leaves_led (sensor_tune k v).
Proof.
  intros s b. unfold sensor_tune. destruct (sensor (http b)) as [s0|];
    repeat split.
Qed.

Lemma leaves_sensor_get :
  leaves_led (lift (G := Sketch.state) esp_camera_sensor_get).
Proof. apply leaves_lift. reflexivity. Qed.

End LedFrames.

#[local] Hint Resolve leaves_bind leaves_if leaves_when leaves_ret leaves_get
  leaves_on_app leaves_millis leaves_status leaves_rssi leaves_ip
  leaves_println leaves_print leaves_printf leaves_delay leaves_pin_mode
  leaves_camera_init leaves_sensor_call leaves_sensor_tune leaves_sensor_get
  : led.

Ltac keeps_step :=
  first [ solve [auto 10 with led]
        | apply keeps_bind; [|intros]
        | apply keeps_if
        | apply keeps_when ].

Ltac leaves_step :=
  first [ solve [auto 10 with led]
        | apply leaves_bind; [|intros]
        | apply leaves_if
        | apply leaves_when
        | apply leaves_emit; reflexivity ].

(** After a computation that leaves the LED alone, and after one that sets
    it right whatever it was. *)
Lemma bind_leaves_then {A B} (m : MB Sketch.state A)
    (k : A -> MB Sketch.state B) (Q : Sketch.state -> level -> Prop) :
  leaves_led m ->
  (forall a s b lv, Q (state_of (k a s b)) (led_pin (acts_of (k a s b)) lv)) ->
  forall s b lv,
    Q (state_of (bindB m k s b)) (led_pin (acts_of (bindB m k s b)) lv).
Proof.
  intros Hm Hk s b lv. unfold bindB.
  destruct (m s b) as [[[a s1] b1] t1].
  specialize (Hk a s1 b1 (led_pin t1 lv)).
  destruct (k a s1 b1) as [[[c s2] b2] t2].
  cbn [state_of acts_of fst snd] in *. now rewrite led_pin_app.
Qed.

Lemma bind_sets_then {A B} (m : MB Sketch.state A)
    (k : A -> MB Sketch.state B) :
  (forall s b lv, led_ok (state_of (m s b)) (led_pin (acts_of (m s b)) lv)) ->
  (forall a, keeps_led (k a)) ->
  forall s b lv,
    led_ok (state_of (bindB m k s b)) (led_pin (acts_of (bindB m k s b)) lv).
Proof.
  intros Hm Hk s b lv. unfold bindB. specialize (Hm s b lv).
  destruct (m s b) as [[[a s1] b1] t1].
  cbn [state_of acts_of fst snd] in Hm.
  specialize (Hk a s1 b1 _ Hm). destruct (k a s1 b1) as [[[c s2] b2] t2].
  cbn [state_of acts_of fst snd] in *. now rewrite led_pin_app.
Qed.

Section LedKeeps.
Context {P : platform} {E : env} {C : core}.

Lemma setLedMode_sets mode s b lv :
  led_ok (state_of (Sketch.setLedMode mode s b))
         (led_pin (acts_of (Sketch.setLedMode mode s b)) lv).
Proof.
  rewrite setLedMode_run. destruct s, mode; split; cbn; congruence.
Qed.

Lemma keeps_setLedMode mode : keeps_led (Sketch.setLedMode mode).
Proof. intros s b lv _. apply setLedMode_sets. Qed.

Lemma keeps_updateLed : keeps_led Sketch.updateLed.
Proof.
  intros s b lv [H1 H2]. rewrite updateLed_run. cbv zeta.
  destruct s as [g m st last ci wc ws]. cbn in H1, H2.
  destruct m;
    cbn [blink_interval Sketch.led_mode Sketch.last_led_toggle_ms
         Sketch.led_state].
  2: { split; [exact H1 | exact H2]. }
  all: match goal with
       | |- context [?x <=? ?y] => destruct (x <=? y)
       end; cbn; (split; [|discriminate]); try exact H1.
  all: rewrite H1; destruct lv; reflexivity.
Qed.

Lemma leaves_set_wifi_connected ok :
  leaves_led (modifyB (Sketch.set_wifi_connected ok)).
Proof. apply leaves_modify. intros []; split; reflexivity. Qed.

Lemma leaves_set_wifi_start t :
  leaves_led (modifyB (Sketch.set_wifi_connect_start_ms t)).
Proof. apply leaves_modify. intros []; split; reflexivity. Qed.

Lemma leaves_set_camera_initialized ok :
  leaves_led (modifyB (Sketch.set_camera_initialized ok)).
Proof. apply leaves_modify. intros []; split; reflexivity. Qed.

Lemma leaves_lower_flag :
  leaves_led
    (modifyB (fun s => Sketch.set_app
                         (V12.set_server_started false (Sketch.app s)) s)).
Proof. apply leaves_modify. intros []; split; reflexivity. Qed.

Hint Resolve leaves_set_wifi_connected leaves_set_wifi_start
  leaves_set_camera_initialized leaves_lower_flag : led.
Hint Resolve leaves_keeps keeps_setLedMode keeps_updateLed : led.

Lemma keeps_checkWiFiStatus : keeps_led Sketch.checkWiFiStatus.
Proof.
  unfold Sketch.checkWiFiStatus.
  apply keeps_bind; [auto with led|]. intros s.
  apply keeps_if.
  - repeat keeps_step.
  - apply keeps_bind; [auto with led|]. intros st.
    destruct st; repeat keeps_step.
Qed.

Lemma leaves_report_ready : leaves_led Sketch.report_ready.
Proof. unfold Sketch.report_ready. repeat leaves_step. Qed.

Hint Resolve keeps_checkWiFiStatus leaves_report_ready : led.

Lemma keeps_start_server : keeps_led Sketch.start_server.
Proof. unfold Sketch.start_server. repeat keeps_step. Qed.

Hint Resolve keeps_start_server : led.

Lemma keeps_loop : keeps_led Sketch.loop.
Proof. unfold Sketch.loop. repeat keeps_step. Qed.

Lemma keeps_loops n : keeps_led (Sketch.loops n).
Proof.
  induction n as [|n IH]; cbn [Sketch.loops].
  - auto with led.
  - apply keeps_bind; [apply keeps_loop | intros; exact IH].
Qed.

Lemma leaves_applySensorDefaults s : leaves_led (Sketch.applySensorDefaults s).
Proof.
  destruct s as [s|]; cbn [Sketch.applySensorDefaults]; repeat leaves_step.
Qed.

Hint Resolve leaves_applySensorDefaults : led.

Lemma leaves_initCamera : leaves_led Sketch.initCamera.
Proof.
  unfold Sketch.initCamera.
  do 3 (apply leaves_bind; [repeat leaves_step|]; intros).
  apply leaves_if; [repeat leaves_step|].
  apply leaves_bind; [auto with led|]. intros s.
  destruct s as [s|]; repeat leaves_step.
Qed.

Lemma leaves_connectWiFi : leaves_led Sketch.connectWiFi.
Proof. unfold Sketch.connectWiFi. repeat leaves_step. Qed.

Hint Resolve leaves_initCamera leaves_connectWiFi keeps_loops : led.

Lemma setup_sets_led s b lv :
  led_ok (state_of (Sketch.setup s b)) (led_pin (acts_of (Sketch.setup s b)) lv).
Proof.
  unfold Sketch.setup.
  do 11 (apply bind_leaves_then; [repeat leaves_step|]; intros).
  apply bind_sets_then; [intros; apply setLedMode_sets|]. intros.
  repeat keeps_step.
Qed.

End LedKeeps.

(** X13 ([setLedMode], [updateLed], [checkWiFiStatus], [setup], [loop]).
    The LED shows what the sketch means to show.  After [setup] and any
    number of passes of [loop], from any state of the variables and any
    level of the pin, whatever the clock, the WiFi, the camera and the HTTP
    server answer: the variable [led_state] is true exactly when the pin of
    the LED is low, which lights it; and in the mode READY the LED is lit.
    Every pass of [loop] keeps this by itself. *)
Theorem led_pin_follows_led_state
    {P : platform} {E : env} {C : core}
    (n : nat) (s : Sketch.state) (b : board) (lv : level) :
  let r := power_up n s b in
  let pin := led_pin (acts_of r) lv in
  Sketch.led_state (state_of r) = led_lit pin /\
  (Sketch.led_mode (state_of r) = Sketch.LED_MODE_READY ->
   led_lit pin = true) /\
  (forall s' b' lv',
     led_ok s' lv' ->
     led_ok (state_of (Sketch.loop s' b'))
            (led_pin (acts_of (Sketch.loop s' b')) lv')).
Proof.
  cbv zeta.
  assert (H : led_ok (state_of (power_up n s b))
                     (led_pin (acts_of (power_up n s b)) lv)).
  { unfold power_up. apply bind_sets_then.
    - apply setup_sets_led.
    - intros _. apply keeps_loops. }
  destruct H as [H1 H2]. split; [exact H1|]. split.
  - intros Hm. rewrite <- H1. now apply H2.
  - intros s' b' lv' H. now apply keeps_loop.
Qed.

(** X14 ([updateLed]).  The blinking keeps its period across the wrap of
    the 32-bit millisecond clock.  When [d] milliseconds have passed since
    the last toggle, [updateLed] toggles the LED exactly when [d] is at
    least the half period of the mode, 500 ms while connecting and 175 ms
    on error, also when the clock has wrapped to zero in between; a toggle
    negates [led_state], writes the new level to the pin and notes the time.
    In the mode READY it changes nothing and writes nothing. *)
Theorem led_blinks_across_the_clock_wrap
    {C : core} (s : Sketch.state) (b : board) (d : Z) :
  0 <= d < two32 ->
  to_uint32 (millis_feed (calls b)) =
    to_uint32 (Sketch.last_led_toggle_ms s + d) ->
  let now := to_uint32 (millis_feed (calls b)) in
  let r := Sketch.updateLed s b in
  match blink_interval (Sketch.led_mode s) with
  | None => state_of r = s /\ acts_of r = []
  | Some interval =>
      if interval <=? d
      then state_of r =
             Sketch.set_last_led_toggle_ms now
               (Sketch.set_led_state (negb (Sketch.led_state s)) s) /\
           acts_of r =
             [DigitalWrite Sketch.USER_LED_GPIO
                (if Sketch.led_state s then HIGH else LOW)]
      else state_of r = s /\ acts_of r = []
  end.
Proof.
  intros Hd Hnow. cbv zeta. rewrite updateLed_run. cbv zeta.
  rewrite Hnow, clock_difference by exact Hd.
  destruct (blink_interval (Sketch.led_mode s)) as [interval|];
    [|split; reflexivity].
  destruct (interval <=? d); split; try reflexivity.
  cbn [acts_of snd]. destruct (Sketch.led_state s); reflexivity.
Qed.

Lemma led_blinks_across_the_clock_wrap_witness :
  let r := Sketch.updateLed (C := after_wrap) before_wrap (board0 None) in
  0 <= 600 < two32 /\
  to_uint32 (Sketch.last_led_toggle_ms before_wrap + 600) = 400 /\
  Sketch.led_state (state_of r) = true /\
  Sketch.last_led_toggle_ms (state_of r) = 400 /\
  acts_of r = [DigitalWrite Sketch.USER_LED_GPIO LOW].
Proof.
  cbv zeta.
  assert (Hd : 0 <= 600 < two32) by (unfold two32; lia).
  split; [exact Hd|]. split; [reflexivity|].
  pose proof (led_blinks_across_the_clock_wrap (C := after_wrap) before_wrap
                (board0 None) 600 Hd eq_refl) as H.
  cbv zeta in H. cbn [blink_interval before_wrap Sketch.led_mode
                      Sketch.set_last_led_toggle_ms Sketch.boot] in H.
  change (500 <=? 600) with true in H. cbv iota in H.
  destruct H as (A & B). rewrite A, B. repeat split.
Defined.


(** ** The sketch of V1.2: the WiFi connection *)

Section WiFi.
Context {C : core}.

Lemma checkWiFi_connected s b :
  Sketch.wifi_connected s = true ->
  Sketch.checkWiFiStatus s b =
  if is_connected (wifi_feed (calls b)) then (tt, s, next_call b, [])
  else
    (tt,
     Sketch.set_led_state false
       (Sketch.set_last_led_toggle_ms
          (to_uint32 (millis_feed (S (calls b))))
          (Sketch.set_led_mode Sketch.LED_MODE_ERROR
             (Sketch.set_app (V12.set_server_started false (Sketch.app s))
                (Sketch.set_wifi_connected false s)))),
     next_call (next_call b),
     [SerialPrintln "WARNING: WiFi connection lost!";
      DigitalWrite Sketch.USER_LED_GPIO Sketch.LED_OFF]).
Proof.
  intros H. destruct s as [g m st last ci wc ws]. cbn in H. subst wc.
  run_s. destruct (is_connected (wifi_feed (calls b))); reflexivity.
Qed.

Lemma checkWiFi_connecting s b :
  Sketch.wifi_connected s = false ->
  let now := to_uint32 (millis_feed (S (calls b))) in
  let elapsed := to_uint32 (now - Sketch.wifi_connect_start_ms s) in
  let timeout :=
    if Sketch.WIFI_CONNECT_TIMEOUT_MS <? elapsed
    then (tt,
          Sketch.set_led_state false
            (Sketch.set_last_led_toggle_ms
               (to_uint32 (millis_feed (S (S (calls b)))))
               (Sketch.set_led_mode Sketch.LED_MODE_ERROR s)),
          next_call (next_call (next_call b)),
          [SerialPrintln "ERROR: WiFi connection timeout";
           DigitalWrite Sketch.USER_LED_GPIO Sketch.LED_OFF])
    else (tt, s, next_call (next_call b), []) in
  let waiting :=
    (tt, s, next_call (next_call b),
     if elapsed mod 2000 <? 100 then [SerialPrint "."] else []) in
  Sketch.checkWiFiStatus s b =
  match wifi_feed (calls b) with
  | WL_CONNECTED =>
      (tt, Sketch.set_wifi_connected true s,
       next_call (next_call (next_call b)),
       [SerialPrintln EmptyString; SerialPrintln "WiFi connected!";
        SerialPrintf ("IP address: %d.%d.%d.%d" ++ LF) (ip_feed (S (calls b)));
        SerialPrintf ("RSSI: %d dBm" ++ LF) [rssi_feed (S (S (calls b)))]])
  | WL_CONNECT_FAILED | WL_NO_SSID_AVAIL => timeout
  | _ => waiting
  end.
Proof.
  intros H. destruct s as [g m st last ci wc ws]. cbn in H. subst wc.
  cbv zeta. run_s.
  destruct (wifi_feed (calls b)); run_s; try reflexivity.
  all: match goal with
       | |- context [if ?c then _ else _] => destruct c
       end; reflexivity.
Qed.

End WiFi.

(** X15 ([checkWiFiStatus], WiFi was connected).  While the WiFi status
    is connected the check changes nothing.  When it is anything else, the
    check marks the WiFi as not connected and the server as not started, puts
    the LED in the error mode and switches it off; it leaves the handles
    of the two HTTP servers, the stream delay and the camera flag as they
    are and calls no function of the HTTP server: the listeners are not
    stopped. *)
Theorem wifi_loss_lowers_the_flags_only
    {C : core} (s : Sketch.state) (b : board) :
  Sketch.wifi_connected s = true ->
  let r := Sketch.checkWiFiStatus s b in
  let s' := state_of r in
  if is_connected (wifi_feed (calls b))
  then s' = s /\ acts_of r = []
  else
    Sketch.wifi_connected s' = false /\
    V12.server_started (Sketch.app s') = false /\
    Sketch.led_mode s' = Sketch.LED_MODE_ERROR /\
    Sketch.led_state s' = false /\
    acts_of r = [SerialPrintln "WARNING: WiFi connection lost!";
                 DigitalWrite Sketch.USER_LED_GPIO HIGH] /\
    http_events (acts_of r) = [] /\
    V12.camera_httpd (Sketch.app s') = V12.camera_httpd (Sketch.app s) /\
    V12.snapshot_httpd (Sketch.app s') = V12.snapshot_httpd (Sketch.app s) /\
    V12.stream_delay_ms (Sketch.app s') = V12.stream_delay_ms (Sketch.app s) /\
    Sketch.camera_initialized s' = Sketch.camera_initialized s.
Proof.
  intros H. cbv zeta. rewrite (checkWiFi_connected s b H).
  destruct (is_connected (wifi_feed (calls b))).
  - split; reflexivity.
  - destruct s as [[] ? ? ? ? ? ?]. repeat split.
Qed.

Lemma wifi_loss_lowers_the_flags_only_witness :
  let r := Sketch.checkWiFiStatus (C := wifi_lost) serving
             (board0 (Some plain_sensor)) in
  Sketch.wifi_connected serving = true /\
  Sketch.wifi_connected (state_of r) = false /\
  V12.server_started (Sketch.app (state_of r)) = false /\
  Sketch.led_mode (state_of r) = Sketch.LED_MODE_ERROR /\
  V12.camera_httpd (Sketch.app (state_of r)) = Some 0%nat /\
  V12.snapshot_httpd (Sketch.app (state_of r)) = Some 1%nat.
Proof.
  cbv zeta. split; [reflexivity|].
  pose proof (wifi_loss_lowers_the_flags_only (C := wifi_lost) serving
                (board0 (Some plain_sensor)) eq_refl) as H.
  cbv zeta in H. cbn [is_connected wifi_feed wifi_lost with_wifi] in H.
  destruct H as (A & B & C & _ & _ & _ & D & F & _).
  repeat split; assumption.
Defined.


(** X16 ([checkWiFiStatus], WiFi not yet connected).  When the status
    turns to connected, the check marks the WiFi as connected and reports
    the address; it leaves the LED and the server flag to [loop].  The
    timeout of 30 s applies only while the driver reports a failed
    connection or a missing network: then, when more than 30000 ms have
    passed since [connectWiFi], also across a wrap of the clock, the LED
    goes to the error mode, and the WiFi stays marked as not connected.
    While the driver reports any other status, however long, the check
    changes nothing: the sketch keeps waiting. *)
Theorem wifi_timeout_needs_a_reported_failure
    {C : core} (s : Sketch.state) (b : board) (d : Z) :
  Sketch.wifi_connected s = false ->
  0 <= d < two32 ->
  to_uint32 (millis_feed (S (calls b))) =
    to_uint32 (Sketch.wifi_connect_start_ms s + d) ->
  let r := Sketch.checkWiFiStatus s b in
  let s' := state_of r in
  http_events (acts_of r) = [] /\
  Sketch.app s' = Sketch.app s /\
  match wifi_feed (calls b) with
  | WL_CONNECTED =>
      s' = Sketch.set_wifi_connected true s /\
      count_acts is_pin_write (acts_of r) = 0%nat
  | WL_CONNECT_FAILED | WL_NO_SSID_AVAIL =>
      Sketch.wifi_connected s' = false /\
      if 30000 <? d
      then Sketch.led_mode s' = Sketch.LED_MODE_ERROR /\
           Sketch.led_state s' = false /\
           acts_of r = [SerialPrintln "ERROR: WiFi connection timeout";
                        DigitalWrite Sketch.USER_LED_GPIO HIGH]
      else s' = s /\ acts_of r = []
  | _ => s' = s /\ count_acts is_pin_write (acts_of r) = 0%nat
  end.
Proof.
  intros H Hd Hnow. cbv zeta. rewrite (checkWiFi_connecting s b H).
  cbv zeta. rewrite Hnow, clock_difference by exact Hd.
  change Sketch.WIFI_CONNECT_TIMEOUT_MS with 30000.
  destruct (wifi_feed (calls b)); cbn [state_of acts_of fst snd].
  all: try (destruct (30000 <? d)).
  all: try (destruct (d mod 2000 <? 100)).
  all: destruct s as [[] ? ? ? ? ? ?]; repeat split.
  all: exact H.
Qed.

Lemma wifi_timeout_needs_a_reported_failure_witness :
  let r := Sketch.checkWiFiStatus (C := wifi_refused) Sketch.boot
             (board0 None) in
  Sketch.wifi_connected Sketch.boot = false /\
  0 <= 31000 < two32 /\
  Sketch.wifi_connected (state_of r) = false /\
  Sketch.led_mode (state_of r) = Sketch.LED_MODE_ERROR /\
  acts_of r = [SerialPrintln "ERROR: WiFi connection timeout";
               DigitalWrite Sketch.USER_LED_GPIO HIGH].
Proof.
  cbv zeta.
  assert (Hd : 0 <= 31000 < two32) by (unfold two32; lia).
  split; [reflexivity|]. split; [exact Hd|].
  pose proof (wifi_timeout_needs_a_reported_failure (C := wifi_refused)
                Sketch.boot (board0 None) 31000 eq_refl Hd eq_refl) as H.
  cbv zeta in H.
  cbn [wifi_feed wifi_refused with_wifi] in H.
  change (30000 <? 31000) with true in H. cbv iota in H.
  destruct H as (_ & _ & A & B & _ & D).
  repeat split; assumption.
Defined.


(** ** The sketch of V1.2: the main loop *)

Section Loop.
Context {E : env} {C : core}.

Lemma start_server_run s b :
  let q := V12.startCameraServer (Sketch.app s) (http b) in
  let r := Sketch.start_server s b in
  let ok := V12.server_started (globals_of q) in
  Sketch.app (state_of r) = globals_of q /\
  http (board_of r) = world_of q /\
  http_events (acts_of r) = trace_of q /\
  Sketch.led_mode (state_of r) =
    (if ok then Sketch.LED_MODE_READY else Sketch.LED_MODE_ERROR) /\
  Sketch.led_state (state_of r) = ok /\
  (forall lv, led_pin (acts_of r) lv = if ok then LOW else HIGH) /\
  Sketch.wifi_connected (state_of r) = Sketch.wifi_connected s /\
  Sketch.camera_initialized (state_of r) = Sketch.camera_initialized s.
Proof.
  cbv zeta. unfold Sketch.start_server, Sketch.report_ready. run_s.
  destruct s as [g m st last ci wc ws]. run_s.
  destruct (V12.startCameraServer g (http b)) as [[[u g'] w'] t].
  cbn [globals_of world_of trace_of fst snd]. run_s.
  destruct (V12.server_started g') eqn:Hok; run_s.
  all: repeat split.
  all: try (rewrite http_events_other by reflexivity;
            rewrite http_events_app, http_events_map; cbn;
            apply app_nil_r).
  all: intros lv; cbn [led_pin];
    rewrite led_pin_app, led_pin_http; reflexivity.
Qed.

Lemma front_facts s b :
  let r1 := Sketch.updateLed s b in
  let r2 := Sketch.checkWiFiStatus (state_of r1) (board_of r1) in
  let st := wifi_feed (S (calls b)) in
  Sketch.wifi_connected (state_of r2) = is_connected st /\
  Sketch.camera_initialized (state_of r2) = Sketch.camera_initialized s /\
  Sketch.app (state_of r2) =
    (if Sketch.wifi_connected s && negb (is_connected st)
     then V12.set_server_started false (Sketch.app s) else Sketch.app s) /\
  http (board_of r2) = http b /\
  http_events (acts_of r1 ++ acts_of r2) = [] /\
  (Sketch.led_mode (state_of r2) = Sketch.led_mode s \/
   Sketch.led_mode (state_of r2) = Sketch.LED_MODE_ERROR).
Proof.
  cbv zeta. rewrite updateLed_run. cbv zeta.
  destruct s as [g m st last ci wc ws].
  cbn [Sketch.led_mode Sketch.last_led_toggle_ms Sketch.led_state
       Sketch.wifi_connected Sketch.camera_initialized Sketch.app].
  assert (Hgen : forall s1 t1,
            Sketch.wifi_connected s1 = wc ->
            Sketch.camera_initialized s1 = ci ->
            Sketch.app s1 = g ->
            Sketch.led_mode s1 = m ->
            http_events t1 = [] ->
            let r2 := Sketch.checkWiFiStatus s1 (next_call b) in
            Sketch.wifi_connected (state_of r2) =
              is_connected (wifi_feed (S (calls b))) /\
            Sketch.camera_initialized (state_of r2) = ci /\
            Sketch.app (state_of r2) =
              (if wc && negb (is_connected (wifi_feed (S (calls b))))
               then V12.set_server_started false g else g) /\
            http (board_of r2) = http b /\
            http_events (t1 ++ acts_of r2) = [] /\
            (Sketch.led_mode (state_of r2) = m \/
             Sketch.led_mode (state_of r2) = Sketch.LED_MODE_ERROR)).
  { intros s1 t1 H1 H2 H3 H5 H4. cbv zeta. rewrite http_events_app, H4.
    cbn [app]. destruct wc.
    - rewrite (checkWiFi_connected s1 (next_call b) H1).
      cbn [calls next_call].
      destruct (is_connected (wifi_feed (S (calls b))));
        destruct s1; cbn in *; subst; repeat split; auto.
    - rewrite (checkWiFi_connecting s1 (next_call b) H1). cbv zeta.
      cbn [calls next_call andb].
      destruct (wifi_feed (S (calls b)));
        repeat match goal with
               | |- context [if ?c then _ else _] => destruct c
               end;
        destruct s1; cbn in *; subst; repeat split; auto. }
  destruct (blink_interval m) as [interval|].
  - match goal with
    | |- context [if ?c then _ else _] => destruct c
    end; cbn [state_of board_of acts_of fst snd];
      apply Hgen; reflexivity.
  - cbn [state_of board_of acts_of fst snd]. apply Hgen; reflexivity.
Qed.

Lemma loop_eq s b :
  Sketch.loop s b =
  let '(_, s1, b1, t1) := Sketch.updateLed s b in
  let '(_, s2, b2, t2) := Sketch.checkWiFiStatus s1 b1 in
  let '(_, s3, b3, t3) :=
    whenB (Sketch.wifi_connected s2 && Sketch.camera_initialized s2 &&
           negb (V12.server_started (Sketch.app s2)))
          Sketch.start_server s2 b2 in
  (tt, s3, b3, t1 ++ t2 ++ [] ++ t3 ++ [Delay 10]).
Proof.
  unfold Sketch.loop, bindB, getB, delay, emitB.
  destruct (Sketch.updateLed s b) as [[[u1 s1] b1] t1].
  destruct (Sketch.checkWiFiStatus s1 b1) as [[[u2 s2] b2] t2].
  destruct (whenB _ Sketch.start_server s2 b2) as [[[u3 s3] b3] t3].
  reflexivity.
Qed.

(** A pass of [loop]: the serial numbers of its answers, and what it
    does, by whether a start of the servers is due. *)
Lemma loop_pass s b :
  let st := wifi_feed (S (calls b)) in
  let r := Sketch.loop s b in
  let s' := state_of r in
  let due := is_connected st && Sketch.camera_initialized s &&
             negb (V12.server_started (Sketch.app s)) in
  Sketch.wifi_connected s' = is_connected st /\
  Sketch.camera_initialized s' = Sketch.camera_initialized s /\
  (exists t, acts_of r = t ++ [Delay 10]) /\
  if due then
    let q := V12.startCameraServer (Sketch.app s) (http b) in
    let ok := V12.server_started (globals_of q) in
    http_events (acts_of r) = trace_of q /\
    Sketch.app s' = globals_of q /\
    http (board_of r) = world_of q /\
    Sketch.led_mode s' =
      (if ok then Sketch.LED_MODE_READY else Sketch.LED_MODE_ERROR) /\
    Sketch.led_state s' = ok /\
    (forall lv, led_pin (acts_of r) lv = if ok then LOW else HIGH)
  else
    http_events (acts_of r) = [] /\
    http (board_of r) = http b /\
    Sketch.app s' =
      (if Sketch.wifi_connected s && negb (is_connected st)
       then V12.set_server_started false (Sketch.app s) else Sketch.app s) /\
    (Sketch.led_mode s' = Sketch.led_mode s \/
     Sketch.led_mode s' = Sketch.LED_MODE_ERROR).
Proof.
  cbv zeta. pose proof (front_facts s b) as Hf. cbv zeta in Hf.
  rewrite loop_eq.
  destruct (Sketch.updateLed s b) as [[[u1 s1] b1] t1].
  cbn [state_of board_of acts_of fst snd] in Hf.
  destruct (Sketch.checkWiFiStatus s1 b1) as [[[u2 s2] b2] t2].
  cbn [state_of board_of acts_of fst snd] in Hf.
  destruct Hf as (F1 & F2 & F3 & F4 & F5 & F6).
  rewrite F1, F2.
  assert (Hskip :
    Sketch.app s2 =
      (if Sketch.wifi_connected s &&
          negb (is_connected (wifi_feed (S (calls b))))
       then V12.set_server_started false (Sketch.app s) else Sketch.app s) ->
    let r := (tt, s2, b2, t1 ++ t2 ++ [] ++ [Delay 10]) in
    Sketch.wifi_connected (state_of r) =
      is_connected (wifi_feed (S (calls b))) /\
    Sketch.camera_initialized (state_of r) = Sketch.camera_initialized s /\
    (exists t, acts_of r = t ++ [Delay 10]) /\
    http_events (acts_of r) = [] /\
    http (board_of r) = http b /\
    Sketch.app (state_of r) =
      (if Sketch.wifi_connected s &&
          negb (is_connected (wifi_feed (S (calls b))))
       then V12.set_server_started false (Sketch.app s) else Sketch.app s) /\
    (Sketch.led_mode (state_of r) = Sketch.led_mode s \/
     Sketch.led_mode (state_of r) = Sketch.LED_MODE_ERROR)).
  { intros H3. cbv zeta. cbn [state_of acts_of board_of fst snd app].
    split; [exact F1|]. split; [exact F2|]. split.
    { exists (t1 ++ t2). now rewrite <- app_assoc. }
    rewrite app_assoc, http_events_app, F5.
    repeat split; assumption. }
  cbv zeta in Hskip.
  destruct (is_connected (wifi_feed (S (calls b)))) eqn:Hc;
    cbn [andb whenB retB]; [|apply Hskip; exact F3].
  destruct (Sketch.camera_initialized s) eqn:Hci;
    cbn [andb whenB retB]; [|apply Hskip; exact F3].
  rewrite F3. cbn [negb]. rewrite andb_false_r.
  destruct (V12.server_started (Sketch.app s)) eqn:Hss;
    cbn [negb whenB retB].
  { cbn [negb] in Hskip, F3. rewrite andb_false_r in Hskip, F3.
    apply Hskip; exact F3. }
  cbn [negb] in F3. rewrite andb_false_r in F3.
  pose proof (start_server_run s2 b2) as Hs. cbv zeta in Hs.
  rewrite F3, F4 in Hs.
  destruct (Sketch.start_server s2 b2) as [[[u3 s3] b3] t3].
  cbn [state_of board_of acts_of fst snd] in *.
  destruct Hs as (S1 & S2 & S3 & S4 & S5 & S6 & S7 & S8).
  split; [congruence|]. split; [congruence|]. split.
  { exists (t1 ++ t2 ++ t3). now rewrite <- !app_assoc. }
  repeat split; try assumption.
  - replace (t1 ++ t2 ++ [] ++ t3 ++ [Delay 10])
      with ((t1 ++ t2) ++ t3 ++ [Delay 10])
      by (rewrite <- app_assoc; reflexivity).
    rewrite (http_events_app (t1 ++ t2)), F5, http_events_app, S3.
    cbn. apply app_nil_r.
  - intros lv. rewrite !led_pin_app. cbn [led_pin app]. apply S6.
Qed.

End Loop.

Section Passes.
Context {E : env} {C : core}.

Lemma loops_without_camera n s b :
  Sketch.camera_initialized s = false ->
  let r := Sketch.loops n s b in
  http_events (acts_of r) = [] /\
  Sketch.camera_initialized (state_of r) = false /\
  V12.camera_httpd (Sketch.app (state_of r)) =
    V12.camera_httpd (Sketch.app s) /\
  V12.snapshot_httpd (Sketch.app (state_of r)) =
    V12.snapshot_httpd (Sketch.app s) /\
  http (board_of r) = http b.
Proof.
  revert s b. induction n as [|n IH]; intros s b Hci; cbv zeta.
  - repeat split; assumption.
  - cbn [Sketch.loops]. unfold bindB.
    pose proof (loop_pass s b) as Hp. cbv zeta in Hp.
    rewrite Hci, andb_false_r in Hp. cbn [andb] in Hp.
    destruct (Sketch.loop s b) as [[[u s1] b1] t1].
    cbn [state_of acts_of board_of fst snd] in Hp.
    destruct Hp as (_ & P2 & _ & P4 & P5 & P6 & _).
    specialize (IH s1 b1 P2). cbv zeta in IH.
    destruct (Sketch.loops n s1 b1) as [[[u2 s2] b2] t2].
    cbn [state_of acts_of board_of fst snd] in *.
    destruct IH as (I1 & I2 & I3 & I4 & I5).
    rewrite http_events_app, P4, I1, I3, I4, I5, P5, P6.
    destruct (_ && _); destruct (Sketch.app s); repeat split; assumption.
Qed.

End Passes.

(** X17 ([loop]).  One pass of the main loop.  The pass polls the WiFi
    status once, as its second call into the core; afterwards the WiFi
    is marked connected exactly when that status is connected, and the
    camera flag is as before.  The pass calls [startCameraServer]
    exactly when that status is connected, the camera is initialised and
    the server flag is down; otherwise it makes no call of the HTTP
    server, lowers the server flag if the WiFi was marked connected and
    is lost, and leaves the LED mode as it was or puts it to ERROR.
    When it calls it, the handlers' globals are what the
    call leaves; the LED goes to READY and is lit if the call set the
    server flag, to ERROR and off if it did not.  Every pass ends with a
    delay of 10 ms. *)
Theorem loop_starts_the_server_when_due
    {E : env} {C : core} (s : Sketch.state) (b : board) :
  let st := wifi_feed (S (calls b)) in
  let r := Sketch.loop s b in
  let s' := state_of r in
  let due := is_connected st && Sketch.camera_initialized s &&
             negb (V12.server_started (Sketch.app s)) in
  Sketch.wifi_connected s' = is_connected st /\
  Sketch.camera_initialized s' = Sketch.camera_initialized s /\
  (exists t, acts_of r = t ++ [Delay 10]) /\
  if due then
    let q := V12.startCameraServer (Sketch.app s) (http b) in
    let ok := V12.server_started (globals_of q) in
    http_events (acts_of r) = trace_of q /\
    Sketch.app s' = globals_of q /\
    http (board_of r) = world_of q /\
    Sketch.led_mode s' =
      (if ok then Sketch.LED_MODE_READY else Sketch.LED_MODE_ERROR) /\
    Sketch.led_state s' = ok /\
    (forall lv, led_pin (acts_of r) lv = if ok then LOW else HIGH)
  else
    http_events (acts_of r) = [] /\
    http (board_of r) = http b /\
    Sketch.app s' =
      (if Sketch.wifi_connected s && negb (is_connected st)
       then V12.set_server_started false (Sketch.app s) else Sketch.app s) /\
    (Sketch.led_mode s' = Sketch.led_mode s \/
     Sketch.led_mode s' = Sketch.LED_MODE_ERROR).
Proof. exact (loop_pass s b). Qed.

(** X18 ([loop], camera not initialised).  When the camera did not
    initialise, the loop never serves: in any number of passes, whatever
    the WiFi does, it makes no call of the HTTP server, so no listener
    is started and no handler registered, and the handles stay as they
    are; the camera flag stays false, since only [setup] sets it. *)
Theorem no_camera_no_server
    {E : env} {C : core} (n : nat) (s : Sketch.state) (b : board) :
  Sketch.camera_initialized s = false ->
  let r := Sketch.loops n s b in
  http_events (acts_of r) = [] /\
  Sketch.camera_initialized (state_of r) = false /\
  V12.camera_httpd (Sketch.app (state_of r)) =
    V12.camera_httpd (Sketch.app s) /\
  V12.snapshot_httpd (Sketch.app (state_of r)) =
    V12.snapshot_httpd (Sketch.app s) /\
  http (board_of r) = http b.
Proof. intros H. now apply loops_without_camera. Qed.

Lemma no_camera_no_server_witness :
  let r := Sketch.loops (E := calm) (C := bench) 2 Sketch.boot
             (board0 None) in
  Sketch.camera_initialized Sketch.boot = false /\
  http_events (acts_of r) = [] /\
  V12.camera_httpd (Sketch.app (state_of r)) = None /\
  V12.snapshot_httpd (Sketch.app (state_of r)) = None.
Proof.
  cbv zeta. split; [reflexivity|].
  pose proof (no_camera_no_server (E := calm) (C := bench) 2 Sketch.boot
                (board0 None) eq_refl) as H.
  cbv zeta in H. destruct H as (A & _ & B & C & _).
  repeat split; assumption.
Defined.

(** X19 ([loop] and [startCameraServer], the flag is down and the port-80
    server exists).  A pass that finds the WiFi connected, with the
    camera initialised, the server flag down and the handle of the
    port-80 server set, raises the flag and shows READY without starting
    or registering anything.  This is the pass after the WiFi came back,
    and also the pass after a start in which port 81 failed: the loop
    then reports the server as started and lights the LED although the
    handle of the snapshot server is still null. *)
Theorem flag_down_with_a_listener_means_ready
    {E : env} {C : core} (s : Sketch.state) (b : board) :
  Sketch.camera_initialized s = true ->
  V12.server_started (Sketch.app s) = false ->
  is_some (V12.camera_httpd (Sketch.app s)) = true ->
  wifi_feed (S (calls b)) = WL_CONNECTED ->
  let r := Sketch.loop s b in
  let s' := state_of r in
  V12.server_started (Sketch.app s') = true /\
  Sketch.led_mode s' = Sketch.LED_MODE_READY /\
  Sketch.led_state s' = true /\
  (forall lv, led_pin (acts_of r) lv = LOW) /\
  http_events (acts_of r) = [] /\
  V12.camera_httpd (Sketch.app s') = V12.camera_httpd (Sketch.app s) /\
  V12.snapshot_httpd (Sketch.app s') = V12.snapshot_httpd (Sketch.app s) /\
  Sketch.wifi_connected s' = true.
Proof.
  intros Hci Hss Hh Hw. cbv zeta.
  pose proof (loop_pass s b) as Hp. cbv zeta in Hp.
  rewrite Hw, Hci, Hss in Hp. cbn [is_connected andb negb] in Hp.
  rewrite (start_when_running (Sketch.app s) (http b) Hh) in Hp.
  cbn [globals_of world_of trace_of fst snd V12.server_started
       V12.set_server_started] in Hp.
  destruct Hp as (P1 & P2 & _ & P4 & P5 & P6 & P7 & P8 & P9).
  rewrite P5. destruct (Sketch.app s). repeat split; assumption.
Qed.

Lemma flag_down_with_a_listener_means_ready_witness :
  let r := Sketch.loop (E := calm) (C := bench) cut_off
             (board0 (Some plain_sensor)) in
  V12.server_started (Sketch.app cut_off) = false /\
  V12.camera_httpd (Sketch.app cut_off) = Some 0%nat /\
  V12.server_started (Sketch.app (state_of r)) = true /\
  Sketch.led_mode (state_of r) = Sketch.LED_MODE_READY /\
  http_events (acts_of r) = [].
Proof.
  cbv zeta. split; [reflexivity|]. split; [reflexivity|].
  pose proof (flag_down_with_a_listener_means_ready (E := calm) (C := bench)
                cut_off (board0 (Some plain_sensor))
                eq_refl eq_refl eq_refl eq_refl) as H.
  cbv zeta in H. destruct H as (A & B & _ & _ & D & _).
  repeat split; assumption.
Defined.

(** X20 ([loop] and [startCameraServer], port 81 fails).  A pass that
    starts the servers from scratch, with port 80 starting and port 81
    not, leaves the server flag down and the LED in the error mode and
    off, with the port-80 handle set and the snapshot handle as it was.
    The next pass, if the WiFi is still connected, raises the flag and
    shows READY, with no call of the HTTP server and the snapshot handle
    still as it was: the failure of port 81 is shown for one pass only. *)
Theorem failed_snapshot_start_is_shown_for_one_pass
    {E : env} {C : core} (s : Sketch.state) (b : board) :
  Sketch.camera_initialized s = true ->
  V12.server_started (Sketch.app s) = false ->
  V12.camera_httpd (Sketch.app s) = None ->
  wifi_feed (S (calls b)) = WL_CONNECTED ->
  is_ok (start_feed (starts (http b))) = true ->
  is_ok (start_feed (S (starts (http b)))) = false ->
  let r := Sketch.loop s b in
  let s1 := state_of r in
  V12.server_started (Sketch.app s1) = false /\
  Sketch.led_mode s1 = Sketch.LED_MODE_ERROR /\
  Sketch.led_state s1 = false /\
  (forall lv, led_pin (acts_of r) lv = HIGH) /\
  V12.camera_httpd (Sketch.app s1) = Some (starts (http b)) /\
  V12.snapshot_httpd (Sketch.app s1) = V12.snapshot_httpd (Sketch.app s) /\
  (wifi_feed (S (calls (board_of r))) = WL_CONNECTED ->
   let r' := Sketch.loop s1 (board_of r) in
   V12.server_started (Sketch.app (state_of r')) = true /\
   Sketch.led_mode (state_of r') = Sketch.LED_MODE_READY /\
   (forall lv, led_pin (acts_of r') lv = LOW) /\
   V12.snapshot_httpd (Sketch.app (state_of r')) =
     V12.snapshot_httpd (Sketch.app s) /\
   http_events (acts_of r') = []).
Proof.
  intros Hci Hss Hh Hw H80 H81. cbv zeta.
  pose proof (loop_pass s b) as Hp. cbv zeta in Hp.
  rewrite Hw, Hci, Hss in Hp. cbn [is_connected andb negb] in Hp.
  rewrite (start_port81_fails (Sketch.app s) (http b) Hh H80 H81) in Hp.
  cbn [globals_of world_of trace_of fst snd V12.server_started
       V12.set_server_started V12.set_camera_httpd] in Hp.
  destruct Hp as (P1 & P2 & _ & P4 & P5 & P6 & P7 & P8 & P9).
  rewrite P5.
  cbn [V12.server_started V12.camera_httpd V12.snapshot_httpd].
  do 6 (split; [first [assumption | reflexivity]|]).
  intros Hw'.
  pose proof (loop_pass (state_of (Sketch.loop s b))
                (board_of (Sketch.loop s b))) as Hq. cbv zeta in Hq.
  rewrite Hw', P2, P5 in Hq.
  cbn [V12.server_started is_connected andb negb] in Hq.
  rewrite start_when_running in Hq by reflexivity.
  cbn [globals_of world_of trace_of fst snd V12.server_started
       V12.set_server_started] in Hq.
  destruct Hq as (Q1 & Q2 & _ & Q4 & Q5 & Q6 & Q7 & Q8 & Q9).
  rewrite Q5. repeat split; assumption.
Qed.

Lemma failed_snapshot_start_is_shown_for_one_pass_witness :
  let r := Sketch.loop (E := port81_taken) (C := bench) set_up
             (board0 None) in
  let r' := Sketch.loop (E := port81_taken) (C := bench) (state_of r)
              (board_of r) in
  is_ok (@start_feed port81_taken 1%nat) = false /\
  Sketch.led_mode (state_of r) = Sketch.LED_MODE_ERROR /\
  V12.camera_httpd (Sketch.app (state_of r)) = Some 0%nat /\
  Sketch.led_mode (state_of r') = Sketch.LED_MODE_READY /\
  V12.snapshot_httpd (Sketch.app (state_of r')) = None.
Proof.
  cbv zeta. split; [reflexivity|].
  pose proof (failed_snapshot_start_is_shown_for_one_pass
                (E := port81_taken) (C := bench) set_up (board0 None)
                eq_refl eq_refl eq_refl eq_refl eq_refl eq_refl) as H.
  cbv zeta in H. destruct H as (_ & A & _ & _ & B & _ & H).
  destruct (H eq_refl) as (_ & D & _ & F & _).
  repeat split; assumption.
Defined.


(** ** The sketch of V1.2: bringing up the camera *)

Section Init.
Context {P : platform} {E : env} {C : core}.

Lemma warm_pass_any w w' k : gets w' = gets w -> warm_pass w' k = warm_pass w k.
Proof. intros H. unfold warm_pass, attempt. now rewrite H. Qed.

Lemma initCamera_eq s b :
  Sketch.initCamera s b =
  let '(rc, o) := camera_init_feed (calls b) in
  let b1 := next_call (with_http b (with_sensor (http b) o)) in
  let head :=
    [SerialPrintln "Initializing camera...";
     SerialPrintln
       (if negb psramFound
        then "WARNING: No PSRAM detected, using DRAM only"
        else "PSRAM detected, using PSRAM for frame buffers");
     CameraInit Sketch.camera_config rc] in
  if negb (is_ok rc) then
    (false, s, b1,
     head ++
     [SerialPrintf ("ERROR: Camera init failed with error 0x%x" ++ LF) [rc]])
  else
    match o with
    | None =>
        (false, s, b1,
         head ++ [SerialPrintln "ERROR: Failed to get camera sensor"])
    | Some _ =>
        let '(_, s2, b2, t2) := Sketch.applySensorDefaults o s b1 in
        let '(_, s3, b3, t3) :=
          sensor_call "set_framesize" set_framesize FRAMESIZE_SVGA s2 b2 in
        let '(_, s4, b4, t4) :=
          sensor_call "set_quality" set_quality
            (jpeg_quality Sketch.camera_config) s3 b3 in
        let '(_, s5, b5, t5) := Sketch.on_app Rest12.warmupCamera s4 b4 in
        (true, s5, b5,
         head ++ t2 ++ t3 ++ t4 ++
         SerialPrintln "Camera initialized successfully" :: t5 ++ [])
    end.
Proof.
  unfold Sketch.initCamera, bindB, Serial_println, Serial_printf, emitB, retB,
    lift, esp_camera_sensor_get, esp_camera_init.
  destruct (negb psramFound); cbv beta iota zeta.
  all: destruct (camera_init_feed (calls b)) as [rc o]; cbv beta iota zeta.
  all: cbn [http with_http next_call sensor with_sensor app].
  all: destruct (negb (is_ok rc)); [reflexivity|]; cbv beta iota zeta.
  all: cbn [http with_http next_call sensor with_sensor app].
  all: destruct o as [s0|]; [|reflexivity].
  all: destruct (Sketch.applySensorDefaults _ _ _) as [[[u2 s2] b2] t2].
  all: destruct (sensor_call "set_framesize" _ _ s2 b2) as [[[u3 s3] b3] t3].
  all: destruct (sensor_call "set_quality" _ _ s3 b3) as [[[u4 s4] b4] t4].
  all: destruct (Sketch.on_app _ s4 b4) as [[[u5 s5] b5] t5].
  all: reflexivity.
Qed.


Lemma with_http_same b : with_http b (http b) = b.
Proof. destruct b; reflexivity. Qed.

Lemma with_sensor_same w : with_sensor w (sensor w) = w.
Proof. destruct w; reflexivity. Qed.

Lemma with_status_same s1 : with_status s1 (status s1) = s1.
Proof. destruct s1; reflexivity. Qed.

Lemma tunes_ret {A} (a : A) : tunes_only (retB a).
Proof.
  intros s b s1 H. exists (status s1). cbn.
  rewrite with_status_same, <- H, with_sensor_same, with_http_same.
  repeat split.
Qed.

Lemma tunes_call name setter v : tunes_only (sensor_call name setter v).
Proof.
  intros s b s1 H. unfold sensor_call. rewrite H.
  destruct (setter s1 (status s1) v) as [r st]. exists st. repeat split.
Qed.

Lemma tunes_tune k v : tunes_only (sensor_tune k v).
Proof.
  intros s b s1 H. unfold sensor_tune. rewrite H.
  exists (knob_feed k (status s1) v). repeat split.
Qed.

Lemma tunes_bind {A B} (m : MB Sketch.state A) (k : A -> MB Sketch.state B) :
  tunes_only m -> (forall a, tunes_only (k a)) -> tunes_only (bindB m k).
Proof.
  intros Hm Hk s b s1 H. unfold bindB.
  destruct (Hm s b s1 H) as (st & M1 & M2 & M3).
  destruct (m s b) as [[[a s2] b2] t2]. cbn [state_of board_of acts_of fst snd] in *.
  subst s2 b2.
  destruct (Hk a s (with_http b (with_sensor (http b) (Some (with_status s1 st))))
              (with_status s1 st) eq_refl) as (st' & K1 & K2 & K3).
  destruct (k a s _) as [[[c s3] b3] t3]. cbn [state_of board_of acts_of fst snd] in *.
  exists st'. subst s3 b3. split; [reflexivity|]. split.
  - destruct b as [w n]. destruct w. reflexivity.
  - rewrite forallb_app, M3, K3. reflexivity.
Qed.

Lemma tunes_when c (m : MB Sketch.state unit) :
  tunes_only m -> tunes_only (whenB c m).
Proof. intros H. destruct c; [exact H | apply tunes_ret]. Qed.

Lemma tunes_applySensorDefaults o : tunes_only (Sketch.applySensorDefaults o).
Proof.
  destruct o as [s0|]; cbn [Sketch.applySensorDefaults]; [|apply tunes_ret].
  repeat first [apply tunes_bind; [|intros _] | apply tunes_when
               | apply tunes_call | apply tunes_tune].
Qed.

Lemma filter_map_http f t :
  (forall e, f (Http e) = false) -> filter f (map Http t) = [].
Proof.
  intros H. induction t as [|e t IH]; [reflexivity|].
  cbn [map filter]. now rewrite H.
Qed.

Lemma sensor_acts_quiet t :
  forallb is_sensor_act t = true ->
  http_events t = [] /\ filter is_wifi_begin t = [] /\
  filter is_camera_init t = [].
Proof.
  induction t as [|a t IH]; [repeat split|].
  cbn [forallb]. intros H. apply andb_prop in H. destruct H as [Ha Ht].
  destruct (IH Ht) as (I1 & I2 & I3).
  destruct a; try discriminate Ha; cbn; repeat split; assumption.
Qed.

Lemma set_app_same s : Sketch.set_app (Sketch.app s) s = s.
Proof. destruct s; reflexivity. Qed.

(** What [initCamera] does, by the answer of the driver. *)
Lemma initCamera_run s b :
  let init := camera_init_feed (calls b) in
  let r := Sketch.initCamera s b in
  let ok := is_ok (fst init) && is_some (snd init) in
  value_of r = ok /\
  state_of r = s /\
  calls (board_of r) = S (calls b) /\
  count_acts is_wifi_begin (acts_of r) = 0%nat /\
  filter is_camera_init (acts_of r) =
    [CameraInit Sketch.camera_config (fst init)] /\
  if ok then
    http_events (acts_of r) =
      warm_pass (http b) 0 ++ warm_pass (http b) 1 ++ warm_pass (http b) 2 /\
    gets (http (board_of r)) = (gets (http b) + 3)%nat /\
    (forall s0, snd init = Some s0 ->
       exists st0,
         sensor (http (board_of r)) =
         Some (with_status s0
                 (snd (set_quality s0
                         (snd (set_framesize s0 st0 FRAMESIZE_SVGA))
                         (jpeg_quality Sketch.camera_config)))))
  else
    http_events (acts_of r) = [] /\
    count_acts is_sensor_act (acts_of r) = 0%nat /\
    http (board_of r) = with_sensor (http b) (snd init).
Proof.
  cbv zeta. rewrite initCamera_eq.
  destruct (camera_init_feed (calls b)) as [rc o]. cbn [fst snd].
  destruct (is_ok rc); cbn [negb andb].
  - destruct o as [s0|]; cbn [is_some].
    + set (b1 := next_call (with_http b (with_sensor (http b) (Some s0)))).
      destruct (tunes_applySensorDefaults (Some s0) s b1 s0 eq_refl)
        as (st0 & T1 & T2 & T3).
      destruct (Sketch.applySensorDefaults (Some s0) s b1) as [[[u2 s2] b2] t2].
      cbn [state_of board_of acts_of fst snd] in T1, T2, T3. subst s2 b2.
      unfold sensor_call. cbn [http with_http sensor with_sensor b1 next_call].
      cbn [set_framesize set_quality status with_status].
      destruct (set_framesize s0 st0 FRAMESIZE_SVGA) as [r1 st1] eqn:E1.
      cbn [http with_http sensor with_sensor b1 next_call].
      cbn [set_framesize set_quality status with_status].
      destruct (set_quality s0 st1 (jpeg_quality Sketch.camera_config))
        as [r2 st2] eqn:E2.
      unfold Sketch.on_app. rewrite warmup_run.
      cbn [value_of state_of board_of acts_of fst snd http with_http calls].
      destruct (sensor_acts_quiet t2 T3) as (Q1 & Q2 & Q3).
      rewrite set_app_same.
      rewrite (warm_pass_any (http b) _ 1), (warm_pass_any (http b) _ 2)
        by reflexivity.
      split; [reflexivity|]. split; [reflexivity|]. split; [reflexivity|].
      split; [|split; [|split; [|split]]].
      * unfold count_acts. cbn [app filter is_wifi_begin].
        rewrite filter_app, Q2. cbn [app filter is_wifi_begin].
        rewrite filter_app, filter_map_http by reflexivity. reflexivity.
      * cbn [app filter is_camera_init].
        rewrite filter_app, Q3. cbn [app filter is_camera_init].
        rewrite filter_app, filter_map_http by reflexivity. reflexivity.
      * cbn [app http_events flat_map].
        change (flat_map _ (t2 ++ ?l)) with (http_events (t2 ++ l)).
        rewrite http_events_app, Q1. cbn [app http_events flat_map].
        change (flat_map _ (map Http ?l ++ [])) with
          (http_events (map Http l ++ [])).
        rewrite app_nil_r. apply http_events_map.
      * cbn [gets next_get with_sensor]. lia.
      * intros s1 Hs. inversion Hs; subst s1. exists st0.
        rewrite E1. cbn [snd]. rewrite E2. reflexivity.
    + repeat split.
  - repeat split.
Qed.


(** What [setup] leaves, by the answer of the driver to [esp_camera_init],
    the second call of [setup] into the core and the drivers. *)
Lemma setup_run s b :
  let init := camera_init_feed (S (calls b)) in
  let ok := is_ok (fst init) && is_some (snd init) in
  let r := Sketch.setup s b in
  Sketch.camera_initialized (state_of r) = ok /\
  Sketch.led_mode (state_of r) =
    (if ok then Sketch.LED_MODE_CONNECTING else Sketch.LED_MODE_ERROR) /\
  Sketch.led_state (state_of r) = false /\
  Sketch.app (state_of r) = Sketch.app s /\
  Sketch.wifi_connected (state_of r) =
    (if ok then false else Sketch.wifi_connected s) /\
  count_acts is_wifi_begin (acts_of r) = (if ok then 1 else 0)%nat /\
  http_events (acts_of r) =
    (if ok
     then warm_pass (http b) 0 ++ warm_pass (http b) 1 ++ warm_pass (http b) 2
     else []) /\
  (ok = true ->
   Sketch.wifi_connect_start_ms (state_of r) =
     to_uint32 (millis_feed (S (S (calls b))))).
Proof.
  cbv zeta.
  pose proof (initCamera_run
                (state_of (Sketch.setLedMode Sketch.LED_MODE_CONNECTING s b))
                (board_of (Sketch.setLedMode Sketch.LED_MODE_CONNECTING s b)))
    as Hi.
  cbv zeta in Hi. rewrite setLedMode_run in Hi.
  cbn [state_of board_of fst snd calls next_call http] in Hi.
  unfold Sketch.setup.
  cbv beta iota zeta delta
    [bindB emitB delay Serial_println pinModeOutput modifyB retB
     Sketch.connectWiFi millis].
  rewrite setLedMode_run.
  cbv beta iota zeta.
  destruct (Sketch.initCamera _ _) as [[[ok s2] b2] t2].
  cbn [value_of state_of board_of acts_of fst snd] in Hi.
  destruct Hi as (H1 & H2 & H3 & H4 & H5 & H6).
  subst ok s2.
  destruct (is_ok (fst (camera_init_feed (S (calls b)))) &&
            is_some (snd (camera_init_feed (S (calls b))))).
  - cbv beta iota zeta. cbn [negb]. cbv beta iota zeta.
    cbn [state_of fst snd acts_of].
    destruct H6 as (H6 & _).
    destruct s as [g m st last ci wc ws].
    cbn [Sketch.camera_initialized Sketch.led_mode Sketch.app
         Sketch.led_state
         Sketch.wifi_connected Sketch.wifi_connect_start_ms
         Sketch.set_camera_initialized Sketch.set_led_state
         Sketch.set_last_led_toggle_ms Sketch.set_led_mode
         Sketch.set_wifi_connected Sketch.set_wifi_connect_start_ms].
    repeat split.
    + unfold count_acts in *. cbn [app filter is_wifi_begin].
      rewrite filter_app, length_app, H4. reflexivity.
    + cbn [app http_events flat_map].
      change (flat_map _ (t2 ++ ?l)) with (http_events (t2 ++ l)).
      rewrite http_events_app, H6, app_nil_r. reflexivity.
    + rewrite H3. reflexivity.
  - cbv beta iota zeta. cbn [negb]. cbv beta iota zeta.
    rewrite setLedMode_run.
    cbn [state_of fst snd acts_of].
    destruct H6 as (H6 & _).
    destruct s as [g m st last ci wc ws].
    cbn [Sketch.camera_initialized Sketch.led_mode Sketch.app
         Sketch.led_state
         Sketch.wifi_connected Sketch.wifi_connect_start_ms
         Sketch.set_camera_initialized Sketch.set_led_state
         Sketch.set_last_led_toggle_ms Sketch.set_led_mode
         Sketch.set_wifi_connected Sketch.set_wifi_connect_start_ms].
    repeat split.
    + unfold count_acts in *. cbn [app filter is_wifi_begin].
      rewrite filter_app, length_app, H4. reflexivity.
    + cbn [app http_events flat_map].
      change (flat_map _ (t2 ++ ?l)) with (http_events (t2 ++ l)).
      rewrite http_events_app, H6. reflexivity.
    + discriminate.
Qed.

End Init.

(** ** The sketch of V1.2: calls that a part of it never makes *)

Lemma never_bind f {A B} (m : MB Sketch.state A) (k : A -> MB Sketch.state B) :
  never f m -> (forall a, never f (k a)) -> never f (bindB m k).
Proof.
  intros Hm Hk s b. unfold bindB.
  specialize (Hm s b). destruct (m s b) as [[[a s1] b1] t1].
  specialize (Hk a s1 b1). destruct (k a s1 b1) as [[[c s2] b2] t2].
  cbn [acts_of snd] in *. now rewrite filter_app, Hm, Hk.
Qed.

Lemma never_when f c (m : MB Sketch.state unit) :
  never f m -> never f (whenB c m).
Proof. intros H. destruct c; [exact H|]. intros s b. reflexivity. Qed.

Lemma never_on_app f {A} (m : M V12.globals A) :
  (forall e, f (Http e) = false) -> never f (Sketch.on_app m).
Proof.
  intros H s b. unfold Sketch.on_app.
  destruct (m (Sketch.app s) (http b)) as [[[a g] w] t].
  cbn [acts_of snd]. now apply filter_map_http.
Qed.

Ltac never_step :=
  first [ apply never_bind; [|intros]
        | apply never_when
        | apply never_on_app; intros; reflexivity
        | match goal with
          | |- never _ (if ?c then _ else _) => destruct c
          | |- never _ (match ?x with _ => _ end) => destruct x
          end
        | solve [intros ? ?; reflexivity] ].

Section Never.
Context {E : env} {C : core}.

Lemma loop_never_begins_wifi : never is_wifi_begin Sketch.loop.
Proof. unfold Sketch.loop. repeat never_step. Qed.

Lemma loops_never_begin_wifi n : never is_wifi_begin (Sketch.loops n).
Proof.
  induction n as [|n IH]; cbn [Sketch.loops].
  - intros s b. reflexivity.
  - apply never_bind; [apply loop_never_begins_wifi | intros _; exact IH].
Qed.

Lemma loops_in_error n s b :
  Sketch.camera_initialized s = false ->
  Sketch.led_mode s = Sketch.LED_MODE_ERROR ->
  Sketch.led_mode (state_of (Sketch.loops n s b)) = Sketch.LED_MODE_ERROR.
Proof.
  revert s b. induction n as [|n IH]; intros s b Hci Hm; [exact Hm|].
  cbn [Sketch.loops]. unfold bindB.
  pose proof (loop_pass s b) as Hp. cbv zeta in Hp.
  rewrite Hci, andb_false_r in Hp. cbn [andb] in Hp.
  destruct (Sketch.loop s b) as [[[u s1] b1] t1].
  cbn [state_of acts_of board_of fst snd] in Hp.
  destruct Hp as (_ & P2 & _ & _ & _ & _ & P7).
  assert (Hm1 : Sketch.led_mode s1 = Sketch.LED_MODE_ERROR)
    by (destruct P7 as [P7|P7]; congruence).
  specialize (IH s1 b1 P2 Hm1).
  destruct (Sketch.loops n s1 b1) as [[[u2 s2] b2] t2].
  exact IH.
Qed.

End Never.

(** ** The sketch of V1.2: the camera and [setup] *)

Lemma dark_pin s lv : led_ok s lv -> Sketch.led_state s = false -> lv = HIGH.
Proof.
  intros [H _] Hs. rewrite Hs in H. destruct lv; [discriminate H|reflexivity].
Qed.

(** X21 ([initCamera]).  [initCamera] returns true exactly when
    [esp_camera_init] reported ESP_OK and the driver has a sensor handle
    afterwards.  It calls [esp_camera_init] once, with its configuration,
    leaves the variables of the sketch as they are and does not begin
    the WiFi.  When it returns true it has run the warm-up, three
    acquisitions of a frame, and made no other call of the camera or the
    HTTP server; when it returns false it has called no setter of the
    sensor and acquired no frame. *)
Theorem initCamera_follows_the_driver
    {P : platform} {E : env} {C : core} (s : Sketch.state) (b : board) :
  let init := camera_init_feed (calls b) in
  let r := Sketch.initCamera s b in
  let ok := is_ok (fst init) && is_some (snd init) in
  value_of r = ok /\
  state_of r = s /\
  filter is_camera_init (acts_of r) =
    [CameraInit Sketch.camera_config (fst init)] /\
  count_acts is_wifi_begin (acts_of r) = 0%nat /\
  if ok then
    http_events (acts_of r) =
      warm_pass (http b) 0 ++ warm_pass (http b) 1 ++ warm_pass (http b) 2 /\
    gets (http (board_of r)) = (gets (http b) + 3)%nat
  else
    http_events (acts_of r) = [] /\
    count_acts is_sensor_act (acts_of r) = 0%nat /\
    http (board_of r) = with_sensor (http b) (snd init).
Proof.
  cbv zeta.
  destruct (initCamera_run s b) as (H1 & H2 & _ & H4 & H5 & H6).
  do 4 (split; [assumption|]).
  destruct (_ && _); [|exact H6].
  destruct H6 as (A & B & _). split; assumption.
Qed.

(** X22 ([initCamera], [applySensorDefaults]; the driver comes up with a
    sensor whose setters for the frame size and the quality report
    success and store what they are given).  After [initCamera] the
    sensor is at SVGA, and at quality 12 with PSRAM and 16 without,
    whatever status the driver started with and whatever the setters of
    [applySensorDefaults] left; the handle is the one of the driver. *)
Theorem camera_comes_up_in_svga
    {P : platform} {E : env} {C : core} (s : Sketch.state) (b : board)
    (rc : esp_err_t) (s0 : sensor_t) :
  camera_init_feed (calls b) = (rc, Some s0) ->
  is_ok rc = true ->
  faithful s0 ->
  obliging s0 ->
  let r := Sketch.initCamera s b in
  value_of r = true /\
  exists st,
    sensor (http (board_of r)) = Some (with_status s0 st) /\
    framesize st = FRAMESIZE_SVGA /\
    quality st = (if psramFound then 12 else 16).
Proof.
  intros Hf Hok Hs Ho. cbv zeta.
  destruct (initCamera_run s b) as (H1 & _ & _ & _ & _ & H6).
  rewrite Hf in H1, H6. cbn [fst snd is_some] in H1, H6.
  rewrite Hok in H1, H6. cbn [andb] in H1, H6.
  split; [exact H1|].
  destruct H6 as (_ & _ & H6). destruct (H6 s0 eq_refl) as (st0 & Hst).
  eexists. split; [exact Hst|].
  destruct Hs as (Hfs & Hq & _).
  rewrite (Hq _ _), (proj2 (Ho _ _)).
  rewrite (Hfs _ _), (proj1 (Ho _ _)).
  split; reflexivity.
Qed.

Lemma camera_comes_up_in_svga_witness :
  let r := Sketch.initCamera (P := xiao) (E := calm) (C := bench)
             Sketch.boot (board0 None) in
  value_of r = true /\
  option_map (fun s => (framesize (status s), quality (status s)))
    (sensor (http (board_of r))) = Some (9, 16).
Proof.
  cbv zeta.
  assert (Ho : obliging plain_sensor) by (intros st v; split; reflexivity).
  pose proof (camera_comes_up_in_svga (P := xiao) (E := calm) (C := bench)
                Sketch.boot (board0 None) ESP_OK plain_sensor
                eq_refl eq_refl plain_sensor_faithful Ho) as H.
  cbv zeta in H. destruct H as (H1 & st & H2 & H3 & H4).
  split; [exact H1|].
  rewrite H2. cbn [option_map status with_status]. rewrite H3, H4.
  reflexivity.
Defined.

(** X23 ([setup], [initCamera], [connectWiFi]).  [setup] records in
    [camera_initialized] whether the camera came up, by the answer of
    [esp_camera_init], its second call into the core and the drivers.
    With a camera it begins the WiFi, once, notes the time of that as
    the start of the attempt, and leaves the LED in the mode CONNECTING;
    the only frames it acquires are those of the warm-up.  Without a
    camera it
    returns before the WiFi: [WiFi.begin] is not called, no frame is
    acquired, the LED is in the mode ERROR and [wifi_connected] is as it
    was.  In both cases the LED is off when [setup] returns, and the
    handlers' globals are untouched: [setup] starts no server. *)
Theorem setup_begins_wifi_only_with_a_camera
    {P : platform} {E : env} {C : core} (s : Sketch.state) (b : board) :
  let init := camera_init_feed (S (calls b)) in
  let ok := is_ok (fst init) && is_some (snd init) in
  let r := Sketch.setup s b in
  let s' := state_of r in
  Sketch.camera_initialized s' = ok /\
  Sketch.app s' = Sketch.app s /\
  Sketch.led_state s' = false /\
  (forall lv, led_pin (acts_of r) lv = HIGH) /\
  if ok then
    Sketch.led_mode s' = Sketch.LED_MODE_CONNECTING /\
    count_acts is_wifi_begin (acts_of r) = 1%nat /\
    Sketch.wifi_connected s' = false /\
    Sketch.wifi_connect_start_ms s' =
      to_uint32 (millis_feed (S (S (calls b)))) /\
    http_events (acts_of r) =
      warm_pass (http b) 0 ++ warm_pass (http b) 1 ++ warm_pass (http b) 2
  else
    Sketch.led_mode s' = Sketch.LED_MODE_ERROR /\
    count_acts is_wifi_begin (acts_of r) = 0%nat /\
    Sketch.wifi_connected s' = Sketch.wifi_connected s /\
    http_events (acts_of r) = [].
Proof.
  cbv zeta.
  destruct (setup_run s b) as (H1 & H2 & H3 & H4 & H5 & H6 & H7 & H8).
  split; [exact H1|]. split; [exact H4|]. split; [exact H3|].
  split.
  - intros lv. apply (dark_pin (state_of (Sketch.setup s b))).
    + apply setup_sets_led.
    + exact H3.
  - destruct (_ && _).
    + repeat split; try assumption. now apply H8.
    + repeat split; assumption.
Qed.

(** X24 ([setup], [loop]; the camera does not come up).  A camera that
    fails at power-up is final: after [setup] and any number of passes
    of the loop, whatever the WiFi and the clock do, the camera flag is
    false and the LED is in the mode ERROR; the sketch has not begun the
    WiFi, has acquired no frame and has made no call of the HTTP server,
    so the handles of the servers are as they were. *)
Theorem camera_failure_is_final
    {P : platform} {E : env} {C : core}
    (n : nat) (s : Sketch.state) (b : board) :
  is_ok (fst (camera_init_feed (S (calls b)))) &&
  is_some (snd (camera_init_feed (S (calls b)))) = false ->
  let r := power_up n s b in
  let s' := state_of r in
  Sketch.camera_initialized s' = false /\
  Sketch.led_mode s' = Sketch.LED_MODE_ERROR /\
  count_acts is_wifi_begin (acts_of r) = 0%nat /\
  http_events (acts_of r) = [] /\
  V12.camera_httpd (Sketch.app s') = V12.camera_httpd (Sketch.app s) /\
  V12.snapshot_httpd (Sketch.app s') = V12.snapshot_httpd (Sketch.app s).
Proof.
  intros Hfail. cbv zeta. unfold power_up, bindB.
  destruct (setup_run s b) as (H1 & H2 & _ & H4 & _ & H6 & H7 & _).
  rewrite Hfail in H1, H2, H6, H7.
  destruct (Sketch.setup s b) as [[[u s1] b1] t1].
  cbn [state_of acts_of fst snd] in H1, H2, H4, H6, H7.
  pose proof (loops_without_camera n s1 b1 H1) as Hl. cbv zeta in Hl.
  pose proof (loops_in_error n s1 b1 H1 H2) as He.
  pose proof (loops_never_begin_wifi n s1 b1) as Hw.
  destruct (Sketch.loops n s1 b1) as [[[u2 s2] b2] t2].
  cbn [state_of acts_of board_of fst snd] in *.
  destruct Hl as (L1 & L2 & L3 & L4 & _).
  repeat split.
  - exact L2.
  - exact He.
  - unfold count_acts in *. rewrite filter_app, length_app, Hw, H6.
    reflexivity.
  - rewrite http_events_app, H7, L1. reflexivity.
  - now rewrite L3, H4.
  - now rewrite L4, H4.
Qed.

Lemma camera_failure_is_final_witness :
  let r := power_up (P := xiao) (E := calm) (C := no_camera) 3
             Sketch.boot (board0 None) in
  Sketch.camera_initialized (state_of r) = false /\
  Sketch.led_mode (state_of r) = Sketch.LED_MODE_ERROR /\
  count_acts is_wifi_begin (acts_of r) = 0%nat /\
  http_events (acts_of r) = [].
Proof.
  cbv zeta.
  pose proof (camera_failure_is_final (P := xiao) (E := calm)
                (C := no_camera) 3 Sketch.boot (board0 None) eq_refl) as H.
  cbv zeta in H. destruct H as (A & B & C & D & _).
  repeat split; assumption.
Defined.

(** ** The sketch of V1.1: one start of the servers *)

Lemma off_bind {G A B} (m : MB G A) (k : A -> MB G B) :
  off_http m -> (forall a, off_http (k a)) -> off_http (bindB m k).
Proof.
  intros Hm Hk g b. unfold bindB.
  destruct (Hm g b) as [M1 M2]. destruct (m g b) as [[[a g1] b1] t1].
  cbn [acts_of state_of fst snd] in M1, M2. subst g1.
  destruct (Hk a g b1) as [K1 K2]. destruct (k a g b1) as [[[c g2] b2] t2].
  cbn [acts_of state_of fst snd] in *.
  now rewrite http_events_app, M1, K1.
Qed.

Lemma off_when {G} c (m : MB G unit) : off_http m -> off_http (whenB c m).
Proof. intros H. destruct c; [exact H|]. intros g b. split; reflexivity. Qed.

Ltac off_step :=
  first [ apply off_bind; [|intros]
        | apply off_when
        | match goal with
          | |- off_http (if ?c then _ else _) => destruct c
          | |- off_http (match ?x with _ => _ end) => destruct x
          end
        | solve [intros ? ?; split; reflexivity] ].

Section V11Sketch.
Context {P : platform} {E : env} {C : core}.
Variable FRAMESIZE_UXGA : Z.
Variable LED_GPIO_NUM : option Z.

Lemma off_sensor_call {G} name setter v :
  off_http (G := G) (sensor_call name setter v).
Proof.
  intros g b. unfold sensor_call. destruct (sensor (http b)) as [s|];
    [|split; reflexivity].
  destruct (setter s (status s) v). split; reflexivity.
Qed.

Lemma off_sensor_tune {G} k v : off_http (G := G) (sensor_tune k v).
Proof.
  intros g b. unfold sensor_tune. destruct (sensor (http b)) as [s|];
    split; reflexivity.
Qed.

Lemma off_camera_init {G} config : off_http (G := G) (esp_camera_init config).
Proof.
  intros g b. unfold esp_camera_init.
  destruct (camera_init_feed (calls b)). split; reflexivity.
Qed.

Lemma off_applySensorDefaults s : off_http (Sketch11.applySensorDefaults s).
Proof.
  destruct s as [s|]; cbn [Sketch11.applySensorDefaults];
    repeat first [apply off_sensor_call | apply off_sensor_tune | off_step].
Qed.

Lemma off_wait_for_wifi fuel : off_http (Sketch11.wait_for_wifi fuel).
Proof.
  induction fuel as [|fuel IH]; cbn [Sketch11.wait_for_wifi].
  - intros g b. split; reflexivity.
  - apply off_bind; [intros g b; split; reflexivity|]. intros st.
    destruct (negb (is_connected st)); [|intros g b; split; reflexivity].
    apply off_bind; [intros g b; split; reflexivity|]. intros _.
    apply off_bind; [intros g b; split; reflexivity|]. intros _. exact IH.
Qed.

Lemma off_loops n : off_http (Sketch11.loops n).
Proof.
  induction n as [|n IH]; cbn [Sketch11.loops].
  - intros g b. split; reflexivity.
  - apply off_bind; [intros g b; split; reflexivity | intros _; exact IH].
Qed.


Lemma once_after_off {A B} (m : MB V11.globals A)
    (k : A -> MB V11.globals B) g b :
  off_http m ->
  (forall a b1, starts_once_from g (k a g b1)) ->
  starts_once_from g (bindB m k g b).
Proof.
  intros Hm Hk. unfold bindB.
  destruct (Hm g b) as [M1 M2]. destruct (m g b) as [[[a g1] b1] t1].
  cbn [acts_of state_of fst snd] in M1, M2. subst g1.
  specialize (Hk a b1). destruct (k a g b1) as [[[c g2] b2] t2].
  unfold starts_once_from in *. cbn [acts_of state_of fst snd] in *.
  rewrite http_events_app, M1. exact Hk.
Qed.

Lemma once_before_off {A B} (m : MB V11.globals A)
    (k : A -> MB V11.globals B) g b :
  starts_once_from g (m g b) ->
  (forall a, off_http (k a)) ->
  starts_once_from g (bindB m k g b).
Proof.
  intros Hm Hk. unfold bindB.
  destruct (m g b) as [[[a g1] b1] t1].
  destruct (Hk a g1 b1) as [K1 K2]. destruct (k a g1 b1) as [[[c g2] b2] t2].
  unfold starts_once_from in *. cbn [acts_of state_of fst snd] in *.
  rewrite http_events_app, K1, app_nil_r. subst g2. exact Hm.
Qed.

Lemma once_off {A} (m : MB V11.globals A) g b :
  off_http m -> starts_once_from g (m g b).
Proof. intros H. left. apply H. Qed.

Lemma once_start g b :
  starts_once_from g (lift V11.startCameraServer g b).
Proof.
  right. exists (http b). unfold lift.
  destruct (V11.startCameraServer g (http b)) as [[[u g1] w1] t].
  cbn [acts_of state_of trace_of globals_of fst snd].
  split; [apply http_events_map | reflexivity].
Qed.

Lemma setup_starts_once fuel g b :
  starts_once_from g (Sketch11.setup FRAMESIZE_UXGA LED_GPIO_NUM fuel g b).
Proof.
  unfold Sketch11.setup.
  do 4 (apply once_after_off; [intros ? ?; split; reflexivity|]; intros).
  apply once_after_off; [apply off_camera_init|]. intros err ?.
  destruct (negb (is_ok err)).
  { apply once_off. repeat off_step. }
  apply once_after_off; [intros ? ?; split; reflexivity|]. intros s ?.
  apply once_after_off; [apply off_applySensorDefaults|]. intros _ ?.
  destruct s as [s|]; [|apply once_off; intros ? ?; split; reflexivity].
  do 2 (apply once_after_off; [apply off_sensor_call|]; intros).
  apply once_after_off.
  { unfold Sketch11.setupLedFlash.
    destruct LED_GPIO_NUM; intros ? ?; split; reflexivity. }
  intros.
  do 3 (apply once_after_off; [intros ? ?; split; reflexivity|]; intros).
  apply once_after_off; [apply off_wait_for_wifi|]. intros connected ?.
  destruct (negb connected); [apply once_off; intros ? ?; split; reflexivity|].
  do 2 (apply once_after_off; [intros ? ?; split; reflexivity|]; intros).
  apply once_before_off; [apply once_start|]. intros _.
  repeat off_step.
Qed.

Lemma power_up_starts_once fuel n g b :
  starts_once_from g
    (Sketch11.power_up FRAMESIZE_UXGA LED_GPIO_NUM fuel n g b).
Proof.
  unfold Sketch11.power_up.
  apply once_before_off; [apply setup_starts_once|]. intros e.
  destruct e; [|intros ? ?; split; reflexivity..].
  apply off_bind; [apply off_loops | intros ? ? ?; split; reflexivity].
Qed.

End V11Sketch.

(** The sketch of V1.1 calls [startCameraServer] at most once after a
    power-up, at the end of [setup], and on the globals as they are at
    boot, where no server handle exists; [loop] never calls it.  A call
    while the handle of the primary server exists does not occur. *)
Lemma v11_sketch_starts_the_servers_once
    {P : platform} {E : env} {C : core}
    (FRAMESIZE_UXGA : Z) (LED_GPIO_NUM : option Z) (fuel n : nat) (b : board) :
  let r := Sketch11.power_up FRAMESIZE_UXGA LED_GPIO_NUM fuel n V11.boot b in
  V11.camera_httpd V11.boot = None /\
  V11.stream_httpd V11.boot = None /\
  (http_events (acts_of r) = [] \/
   exists w,
     http_events (acts_of r) = trace_of (V11.startCameraServer V11.boot w)) /\
  (count_events is_httpd_start (http_events (acts_of r)) <= 2)%nat.
Proof.
  cbv zeta. split; [reflexivity|]. split; [reflexivity|].
  destruct (power_up_starts_once FRAMESIZE_UXGA LED_GPIO_NUM fuel n V11.boot b)
    as [[H _]|(w & H & _)]; rewrite H.
  - split; [now left | cbn; lia].
  - split; [right; now exists w|]. rewrite v11_start_always. lia.
Qed.
